(** * Cart, order and payment bookkeeping of the e-commerce backend

    A shallow embedding of the Mongoose models [Cart], [Order], [Product]
    and of the Express handlers of [routes/cart.js], [routes/orders.js] and
    [routes/payment.js].

    Conventions of the embedding.
    - A JavaScript [Number] holding money is an exact rational ([Qc]).  Where
      the rounding of binary64 arithmetic decides what a handler does (the
      tolerance test of POST /cart/validate, the rounding of a percentage
      discount) the operation is a parameter of the handler.
    - A stored quantity is an integer ([Z]).  The quantity of the body of
      POST /cart/items is the JSON value itself ([JS.Value]): the validator
      [isInt] accepts a string of digits and leaves it a string.
    - An [ObjectId] is its 96-bit value ([N]); [toString()] gives its 24
      hexadecimal digits in lower case.  The product id of the body of
      POST /cart/items is the string of the request.
    - A collection is a finite map from [_id] to document; the [_id] of a
      document is its key and is not repeated inside the record.  The
      [carts] collection is keyed by the owning [user] instead: the schema
      declares [user] unique and every handler finds the cart through
      [{ user }].
    - A handler is a function from the store (and the request) to the new
      store and the response.  [Date.now()], freshly generated ids and the
      random part of an order number are inputs of the handler ([Env]).
    - A [save()] that Mongoose rejects (a schema validator or a cast that
      fails) is in the model where a handler can meet it; the handler then
      answers 500 from its [catch] branch.  Failures of the database driver
      and of the Stripe client are outside the model. *)

From Stdlib Require Import QArith Qcanon Qround Lqa DecimalString Ascii.
From stdpp Require Import base option list gmap strings numbers.

Open Scope Qc_scope.

Abbreviation ObjectId := N (only parsing).

(** ** JavaScript arithmetic on exact numbers *)
Module JS.

(** A decimal literal of the source. *)
Definition num (q : Q) : Qc := Q2Qc q.

(** An integer used as a [Number]. *)
Definition ofZ (z : Z) : Qc := Q2Qc (inject_Z z).

(** [Math.round]: the nearest integer, a tie going to the larger one. *)
Definition Math_round (x : Qc) : Qc := ofZ (Qfloor (x + num (1 # 2))).

Definition Math_max (a b : Qc) : Qc := if decide (a < b) then b else a.

Definition Math_min (a b : Qc) : Qc := if decide (b < a) then b else a.

Definition Math_abs (x : Qc) : Qc := if decide (x < 0) then - x else x.

(** [x || 0] for a [Number] [x]: zero is the only falsy exact number. *)
Definition or_zero (x : Qc) : Qc := if decide (x = 0) then 0 else x.

(** [Array.prototype.findIndex]; [None] stands for the result [-1]. *)
Fixpoint findIndex {A} (f : A → bool) (l : list A) : option nat :=
  match l with
  | [] => None
  | x :: l' => if f x then Some 0%nat else S <$> findIndex f l'
  end.

(** [Array.prototype.find]. *)
Fixpoint find {A} (f : A → bool) (l : list A) : option A :=
  match l with
  | [] => None
  | x :: l' => if f x then Some x else find f l'
  end.

(** The value of a decimal digit. *)
Definition digit (c : ascii) : option Z :=
  let n := Z.of_N (N_of_ascii c) in
  if bool_decide (48 ≤ n ≤ 57)%Z then Some (n - 48)%Z else None.

(** The number written by a string of decimal digits, after [acc]. *)
Fixpoint digits (s : string) (acc : Z) : option Z :=
  match s with
  | EmptyString => Some acc
  | String c s' =>
      match digit c with
      | Some d => digits s' (10 * acc + d)%Z
      | None => None
      end
  end.

Definition numeral (s : string) : option Z :=
  if bool_decide (s = "") then None else digits s 0%Z.

(** [Number(s)] for a string [s] of the form [[-+]?[0-9]+], and [None]
    ([NaN]) for a string with another character.  The strings a handler
    converts are of these two kinds: a string that [isInt] accepted, or the
    decimal numeral of a stored quantity followed by one. *)
Definition parseNumber (s : string) : option Z :=
  match s with
  | String "+" s' => numeral s'
  | String "-" s' => Z.opp <$> numeral s'
  | _ => numeral s
  end.

(** [String(n)] for an integer [n]. *)
Definition toString (n : Z) : string := NilZero.string_of_int (Z.to_int n).

(** The [quantity] of a request body: a JSON number that is an integer, or
    a JSON string. *)
Inductive Value :=
| Num (n : Z)
| Str (s : string).

(** The conversion to a number that [<], [>=] and Mongoose's cast to
    [Number] apply. *)
Definition toNumber (v : Value) : option Z :=
  match v with
  | Num n => Some n
  | Str s => parseNumber s
  end.

(** [a + v] for a number [a]: a sum, or a concatenation when [v] is a
    string. *)
Definition plus (a : Z) (v : Value) : Value :=
  match v with
  | Num n => Num (a + n)
  | Str s => Str (toString a +:+ s)
  end.

End JS.

(** ** Ids as strings *)
Module Id.

Definition hexDigit (d : N) : ascii :=
  match d with
  | 0 => "0" | 1 => "1" | 2 => "2" | 3 => "3" | 4 => "4" | 5 => "5"
  | 6 => "6" | 7 => "7" | 8 => "8" | 9 => "9" | 10 => "a" | 11 => "b"
  | 12 => "c" | 13 => "d" | 14 => "e" | _ => "f"
  end%N%char.

(** The last [width] hexadecimal digits of [n], before [rest]. *)
Fixpoint hex (width : nat) (n : N) (rest : string) : string :=
  match width with
  | O => rest
  | S w => hex w (n / 16)%N (String (hexDigit (n mod 16)%N) rest)
  end.

(** [ObjectId.prototype.toString]: 24 hexadecimal digits, in lower case. *)
Definition toString (id : ObjectId) : string := hex 24 id "".

(** The value of a hexadecimal digit, of either case. *)
Definition digitValue (c : ascii) : option N :=
  let n := N_of_ascii c in
  if bool_decide (48 ≤ n ≤ 57)%N then Some (n - 48)%N
  else if bool_decide (97 ≤ n ≤ 102)%N then Some (n - 87)%N
  else if bool_decide (65 ≤ n ≤ 70)%N then Some (n - 55)%N
  else None.

Fixpoint parseHex (s : string) (acc : N) : option N :=
  match s with
  | EmptyString => Some acc
  | String c s' =>
      match digitValue c with
      | Some d => parseHex s' (16 * acc + d)%N
      | None => None
      end
  end.

(** The cast of a string of 24 characters to an [ObjectId], as [findById]
    and a path of type [ObjectId] apply it: hexadecimal digits are read in
    either case; [None] is the [CastError]. *)
Definition cast (s : string) : option ObjectId :=
  if bool_decide (String.length s = 24%nat) then parseHex s 0%N else None.

(** The validator [isMongoId]: 24 hexadecimal digits. *)
Definition isMongoId (s : string) : bool := bool_decide (is_Some (cast s)).

End Id.

(** ** Documents *)

(** An element of [selectedVariants], in a cart line and in an order line. *)
Module SelectedVariant.
Record t := mk { name : string; value : string; priceModifier : Qc }.
End SelectedVariant.

Module VariantOption.
Record t := mk { value : string; priceModifier : Qc }.
End VariantOption.

Module ProductVariant.
Record t := mk { name : string; options : list VariantOption.t }.
End ProductVariant.

Module Inventory.
Record t := mk { quantity : Z; lowStockThreshold : Z; trackQuantity : bool }.
End Inventory.

Module Product.
Record t := mk {
  name : string;
  price : Qc;
  images : list string;          (* the [url] of each image *)
  inventory : Inventory.t;
  variants : list ProductVariant.t;
  status : string
}.

(** The effect of [{ $inc: { 'inventory.quantity': d } }] on a document. *)
Definition inc_quantity (d : Z) (p : t) : t :=
  mk (name p) (price p) (images p)
     (Inventory.mk (Inventory.quantity (inventory p) + d)
                   (Inventory.lowStockThreshold (inventory p))
                   (Inventory.trackQuantity (inventory p)))
     (variants p) (status p).

(** The effect of [{ $set: { price: v } }] on a document. *)
Definition set_price (v : Qc) (p : t) : t :=
  mk (name p) v (images p) (inventory p) (variants p) (status p).
End Product.

Module CartItem.
Record t := mk {
  _id : ObjectId;
  product : ObjectId;
  quantity : Z;
  selectedVariants : list SelectedVariant.t;
  price : Qc
}.

Definition set_quantity (q : Z) (i : t) : t :=
  mk (_id i) (product i) q (selectedVariants i) (price i).
End CartItem.

(** ** models/Cart.js *)
Module Cart.

Record t := mk {
  items : list CartItem.t;
  couponCode : option string;
  discount : Qc;
  lastActivity : Z
}.

(** [new Cart({ user })]. *)
Definition create (now : Z) : t := mk [] None 0 now.

(** The [pre('save')] hook. *)
Definition save (now : Z) (c : t) : t :=
  mk (items c) (couponCode c) (discount c) now.

Definition totalItems (c : t) : Z :=
  fold_left (λ total item, (total + CartItem.quantity item)%Z) (items c) 0%Z.

(** [selectedVariants.reduce((sum, variant) => sum + variant.priceModifier, 0)] *)
Definition variantPrice (selectedVariants : list SelectedVariant.t) : Qc :=
  fold_left (λ sum variant, sum + SelectedVariant.priceModifier variant)
            selectedVariants 0.

Definition subtotal (c : t) : Qc :=
  fold_left
    (λ total item,
       total + (CartItem.price item
                + variantPrice (CartItem.selectedVariants item))
               * JS.ofZ (CartItem.quantity item))
    (items c) 0.

Definition total (c : t) : Qc :=
  let subtotal := subtotal c in
  JS.Math_max 0 (subtotal - discount c).

(** The callback given to [findIndex] in [addItem]: [productId] is the
    string of the request, compared with the [toString()] of the stored
    id. *)
Definition sameLine (productId : string)
    (selectedVariants : list SelectedVariant.t) (item : CartItem.t) : bool :=
  if negb (bool_decide (Id.toString (CartItem.product item) = productId))
  then false
  else if negb (bool_decide (length (CartItem.selectedVariants item)
                             = length selectedVariants)) then false
  else
    forallb
      (λ variant,
         existsb
           (λ sv,
              bool_decide (SelectedVariant.name sv = SelectedVariant.name variant)
              && bool_decide (SelectedVariant.value sv
                              = SelectedVariant.value variant))
           selectedVariants)
      (CartItem.selectedVariants item).

(** What [save()] makes of a value assigned to the path [quantity]: the
    cast to [Number] and the validator [min: 1].  [None] is a rejected
    save. *)
Definition castQuantity (v : JS.Value) : option Z :=
  match JS.toNumber v with
  | Some n => if bool_decide (1 ≤ n)%Z then Some n else None
  | None => None
  end.

(** [addItem]; [newId] is the [_id] Mongoose gives a pushed line.  The
    quantity of a line found is updated by [+=]; a pushed line has its
    [product] and [quantity] cast and its [price] validated ([min: 0]).
    [None] is the rejected promise of [this.save()]. *)
Definition addItem (productId : string) (quantity : JS.Value)
    (selectedVariants : list SelectedVariant.t) (price : Qc)
    (newId : ObjectId) (now : Z) (c : t) : option t :=
  let items' :=
    match JS.findIndex (sameLine productId selectedVariants) (items c) with
    | Some existingItemIndex =>
        match items c !! existingItemIndex with
        | Some item =>
            match castQuantity (JS.plus (CartItem.quantity item) quantity) with
            | Some q =>
                Some (<[existingItemIndex := CartItem.set_quantity q item]>
                        (items c))
            | None => None
            end
        | None => None
        end
    | None =>
        match Id.cast productId, castQuantity quantity with
        | Some product, Some q =>
            if decide (price < 0) then None
            else Some (items c
                       ++ [CartItem.mk newId product q selectedVariants price])
        | _, _ => None
        end
    end in
  match items' with
  | Some items' =>
      Some (save now (mk items' (couponCode c) (discount c) (lastActivity c)))
  | None => None
  end.

(** [this.items.pull(itemId)]. *)
Definition pull (itemId : ObjectId) (l : list CartItem.t) : list CartItem.t :=
  List.filter (λ item, negb (bool_decide (CartItem._id item = itemId))) l.

(** [this.items.id(itemId)], as the index of the line. *)
Definition id (itemId : ObjectId) (l : list CartItem.t) : option nat :=
  JS.findIndex (λ item, bool_decide (CartItem._id item = itemId)) l.

(** [updateItemQuantity]; [None] is the thrown [Error]. *)
Definition updateItemQuantity (itemId : ObjectId) (quantity : Z) (now : Z)
    (c : t) : option t :=
  match id itemId (items c) with
  | Some i =>
      let items' :=
        if decide (quantity ≤ 0)%Z then pull itemId (items c)
        else alter (CartItem.set_quantity quantity) i (items c) in
      Some (save now (mk items' (couponCode c) (discount c)
                         (lastActivity c)))
  | None => None
  end.

Definition removeItem (itemId : ObjectId) (now : Z) (c : t) : t :=
  save now (mk (pull itemId (items c)) (couponCode c) (discount c)
               (lastActivity c)).

Definition clearCart (now : Z) (c : t) : t :=
  save now (mk [] None 0 (lastActivity c)).

Definition applyCoupon (couponCode : string) (discountAmount : Qc) (now : Z)
    (c : t) : t :=
  save now (mk (items c) (Some couponCode) discountAmount
               (lastActivity c)).

Definition removeCoupon (now : Z) (c : t) : t :=
  save now (mk (items c) None 0 (lastActivity c)).

End Cart.

(** ** models/Order.js *)
Module OrderItem.
Record t := mk {
  product : ObjectId;
  name : string;
  image : string;
  price : Qc;
  quantity : Z;
  selectedVariants : list SelectedVariant.t
}.
End OrderItem.

Module Address.
Record t := mk {
  firstName : string; lastName : string; email : string; phone : string;
  street : string; city : string; state : string; zipCode : string;
  country : string
}.
End Address.

Module Pricing.
Record t := mk {
  subtotal : Qc; shipping : Qc; tax : Qc; discount : Qc; total : Qc
}.
End Pricing.

Module Payment.
Record t := mk {
  method : string;
  status : string;
  transactionId : option string;
  paidAt : option Z;
  paymentIntentId : option string
}.

Definition set_status (st : string) (p : t) : t :=
  mk (method p) st (transactionId p) (paidAt p) (paymentIntentId p).
End Payment.

Module StatusEntry.
Record t := mk {
  status : string;
  note : string;
  updatedBy : option ObjectId;
  updatedAt : Z
}.
End StatusEntry.

Module NewOrder.
(** A document made by [new Order({ ... })] and not saved yet.  The paths
    with a default are filled when the document is stored; [orderNumber] is
    [None] until it is assigned. *)
Record t := mk {
  user : ObjectId;
  orderNumber : option string;
  items : list OrderItem.t;
  shippingAddress : Address.t;
  billingAddress : Address.t;
  pricing : Pricing.t;
  paymentMethod : string;               (* [payment.method] *)
  couponCode : option string;
  isGift : bool;
  giftMessage : option string
}.

Definition set_orderNumber (n : string) (o : t) : t :=
  mk (user o) (Some n) (items o) (shippingAddress o) (billingAddress o)
     (pricing o) (paymentMethod o) (couponCode o) (isGift o) (giftMessage o).
End NewOrder.

Module Order.

Record t := mk {
  user : ObjectId;
  orderNumber : string;
  items : list OrderItem.t;
  shippingAddress : Address.t;
  billingAddress : Address.t;
  pricing : Pricing.t;
  payment : Payment.t;
  status : string;
  actualDelivery : option Z;            (* [tracking.actualDelivery] *)
  statusHistory : list StatusEntry.t;
  couponCode : option string;
  isGift : bool;
  giftMessage : option string
}.

Definition set_payment (p : Payment.t) (o : t) : t :=
  mk (user o) (orderNumber o) (items o) (shippingAddress o)
     (billingAddress o) (pricing o) p (status o) (actualDelivery o)
     (statusHistory o) (couponCode o) (isGift o) (giftMessage o).

Definition set_actualDelivery (d : option Z) (o : t) : t :=
  mk (user o) (orderNumber o) (items o) (shippingAddress o)
     (billingAddress o) (pricing o) (payment o) (status o) d
     (statusHistory o) (couponCode o) (isGift o) (giftMessage o).

(** [updateStatus(newStatus, note = '', updatedBy = null)] *)
Definition updateStatus (newStatus : string) (note : string)
    (updatedBy : option ObjectId) (now : Z) (o : t) : t :=
  mk (user o) (orderNumber o) (items o) (shippingAddress o)
     (billingAddress o) (pricing o) (payment o) newStatus (actualDelivery o)
     (statusHistory o ++ [StatusEntry.mk newStatus note updatedBy now])
     (couponCode o) (isGift o) (giftMessage o).

(** [markAsPaid(transactionId, paymentMethod = 'stripe')]; the body never
    reads [paymentMethod]. *)
Definition markAsPaid (transactionId : string) (paymentMethod : string)
    (now : Z) (o : t) : t :=
  let payment' :=
    Payment.mk (Payment.method (payment o)) "completed" (Some transactionId)
               (Some now) (Payment.paymentIntentId (payment o)) in
  updateStatus "confirmed" "Payment received" None now (set_payment payment' o).

(** A path of type [String] that is [required]: the empty string is
    refused like an absent value. *)
Definition present (s : string) : bool := negb (bool_decide (s = "")).

(** The required paths of an address; [country] has a default. *)
Definition validAddress (a : Address.t) : bool :=
  present (Address.firstName a) && present (Address.lastName a)
  && present (Address.email a) && present (Address.phone a)
  && present (Address.street a) && present (Address.city a)
  && present (Address.state a) && present (Address.zipCode a).

Definition validItem (i : OrderItem.t) : bool :=
  present (OrderItem.name i) && present (OrderItem.image i)
  && bool_decide (0 <= OrderItem.price i)
  && bool_decide (1 ≤ OrderItem.quantity i)%Z.

Definition validPricing (p : Pricing.t) : bool :=
  bool_decide (0 <= Pricing.subtotal p) && bool_decide (0 <= Pricing.shipping p)
  && bool_decide (0 <= Pricing.tax p) && bool_decide (0 <= Pricing.discount p)
  && bool_decide (0 <= Pricing.total p).

(** The validators of [orderSchema] and [orderItemSchema] on a new
    document: [required], [min], [enum] and [maxlength]. *)
Definition validate (o : NewOrder.t) : bool :=
  bool_decide (is_Some (NewOrder.orderNumber o))
  && forallb validItem (NewOrder.items o)
  && validAddress (NewOrder.shippingAddress o)
  && validAddress (NewOrder.billingAddress o)
  && validPricing (NewOrder.pricing o)
  && bool_decide (NewOrder.paymentMethod o
                  ∈ ["stripe"; "paypal"; "cash_on_delivery"])
  && bool_decide (String.length (default "" (NewOrder.giftMessage o))
                  ≤ 200)%nat.

(** The [pre('save')] hook of the schema, on a new document. *)
Definition preSave (timestamp36 random36 : string) (o : NewOrder.t)
    : NewOrder.t :=
  NewOrder.set_orderNumber ("ORD-" +:+ timestamp36 +:+ "-" +:+ random36) o.

(** The stored form of a new document that has its order number. *)
Definition stored (o : NewOrder.t) : option t :=
  match NewOrder.orderNumber o with
  | Some orderNumber =>
      Some (mk (NewOrder.user o) orderNumber (NewOrder.items o)
               (NewOrder.shippingAddress o) (NewOrder.billingAddress o)
               (NewOrder.pricing o)
               (Payment.mk (NewOrder.paymentMethod o) "pending" None None None)
               "pending" None [] (NewOrder.couponCode o) (NewOrder.isGift o)
               (NewOrder.giftMessage o))
  | None => None
  end.

(** [save()] of a new document.  Mongoose validates in a [pre('save')] hook
    of its own that is registered before the hooks of the schema: the
    validators see the document as the handler made it, and the hook that
    assigns [orderNumber] runs only when they pass.  [None] is the rejected
    promise. *)
Definition save (timestamp36 random36 : string) (o : NewOrder.t) : option t :=
  if validate o then stored (preSave timestamp36 random36 o) else None.

End Order.

(** ** The document store and the request context *)

Record Store := mkStore {
  products : gmap N Product.t;
  carts : gmap N Cart.t;
  orders : gmap N Order.t
}.

Definition set_products (ps : gmap N Product.t) (s : Store) : Store :=
  mkStore ps (carts s) (orders s).

(** [cart.save()] of the cart of [user]. *)
Definition set_cart (user : ObjectId) (c : Cart.t) (s : Store) : Store :=
  mkStore (products s) (<[user := c]> (carts s)) (orders s).

(** [order.save()] of the order with [_id] [orderId]. *)
Definition set_order (orderId : ObjectId) (o : Order.t) (s : Store) : Store :=
  mkStore (products s) (carts s) (<[orderId := o]> (orders s)).

(** [Product.findByIdAndUpdate(id, { $inc: { 'inventory.quantity': d } })];
    an id that finds no document changes nothing. *)
Definition incQuantity (id : ObjectId) (d : Z) (ps : gmap N Product.t)
    : gmap N Product.t :=
  alter (Product.inc_quantity d) id ps.

(** What the handler reads from its environment. *)
Record Env := mkEnv {
  now : Z;                 (* [Date.now()], [new Date()] *)
  newId : ObjectId;        (* the [_id] of a created document *)
  timestamp36 : string;    (* [Date.now().toString(36).toUpperCase()] *)
  random36 : string        (* the three random characters of an order number *)
}.

(** [req.user], set by [authenticate]. *)
Record User := mkUser { id : ObjectId; role : string }.

(** The [message] of an error response. *)
Inductive Message :=
| CartIsEmpty
| NoLongerAvailable (name : string)
| InsufficientStockFor (name : string) (available : Z)
| AdminRequired
| InvalidStatus
| OrderNotFound
| CannotBeCancelled (status : string)
| PaymentIntentIdRequired
| PaymentIntentNotFound
| AccessDenied
| PaymentFailed (status : string)
| WebhookError
| OrderIdRequired
| PaymentNotCompleted
| ValidationFailed
| ProductNotFound
| ProductNotAvailable
| OnlyAvailable (available : Z)
| ServerError.                          (* the answer of a [catch] branch *)

Inductive Response (A : Type) :=
| Json (code : Z) (body : A)
| Error (code : Z) (message : Message).
Arguments Json {A} code body.
Arguments Error {A} code message.

(** ** routes/orders.js *)
Module Orders.

Module RequestItem.
(** An element of [items] in the body of POST /orders. *)
Record t := mk { product : string; quantity : JS.Value }.
End RequestItem.

Record OrderRequest := mkOrderRequest {
  items : list RequestItem.t;
  shippingAddress : Address.t;
  billingAddress : Address.t;
  paymentMethod : string;               (* [payment.method] *)
  isGift : bool;
  giftMessage : option string
}.

(** The loop [for (const cartItem of cart.items)] of POST /orders, started
    with [subtotal = 0] and [orderItems = []]; [inl] is the early return.
    [products !! CartItem.product cartItem] is the populated
    [cartItem.product]. *)
Fixpoint collectItems (products : gmap N Product.t)
    (cartItems : list CartItem.t) (subtotal : Qc)
    (orderItems : list OrderItem.t) : Message + (Qc * list OrderItem.t) :=
  match cartItems with
  | [] => inr (subtotal, orderItems)
  | cartItem :: rest =>
      match products !! CartItem.product cartItem with
      | None => inl (NoLongerAvailable "Unknown")
      | Some product =>
          if negb (bool_decide (Product.status product = "active")) then
            inl (NoLongerAvailable
                   (if bool_decide (Product.name product = "") then "Unknown"
                    else Product.name product))
          else if Inventory.trackQuantity (Product.inventory product)
                  && bool_decide (Inventory.quantity (Product.inventory product)
                                  < CartItem.quantity cartItem)%Z then
            inl (InsufficientStockFor
                   (Product.name product)
                   (Inventory.quantity (Product.inventory product)))
          else
            let variantPrice :=
              Cart.variantPrice (CartItem.selectedVariants cartItem) in
            let itemPrice := Product.price product + variantPrice in
            let itemTotal := itemPrice * JS.ofZ (CartItem.quantity cartItem) in
            collectItems products rest (subtotal + itemTotal)
              (orderItems ++
                 [OrderItem.mk (CartItem.product cartItem) (Product.name product)
                    (hd "" (Product.images product)) itemPrice
                    (CartItem.quantity cartItem)
                    (CartItem.selectedVariants cartItem)])
      end
  end.

(** The loop [for (const item of orderItems)] that decrements the stock. *)
Definition decrementInventory (orderItems : list OrderItem.t)
    (ps : gmap N Product.t) : gmap N Product.t :=
  fold_left
    (λ ps item,
       incQuantity (OrderItem.product item) (- OrderItem.quantity item) ps)
    orderItems ps.

(** The loop [for (const item of order.items)] that restores the stock. *)
Definition restoreInventory (items : list OrderItem.t)
    (ps : gmap N Product.t) : gmap N Product.t :=
  fold_left
    (λ ps item,
       incQuantity (OrderItem.product item) (OrderItem.quantity item) ps)
    items ps.

(** [subtotal >= 100 ? 0 : 10] *)
Definition shippingOf (subtotal : Qc) : Qc :=
  if decide (JS.num 100 <= subtotal) then 0 else JS.num 10.

(** [Math.round((subtotal + shipping) * 0.085 * 100) / 100] *)
Definition taxOf (subtotal shipping : Qc) : Qc :=
  JS.Math_round ((subtotal + shipping) * JS.num 0.085 * JS.num 100)
  / JS.num 100.

(** The pricing block of POST /orders and the [new Order({ ... })] built
    from it; the handler gives no [orderNumber]. *)
Definition newOrder (user : User) (req : OrderRequest)
    (cart : Cart.t) (subtotal : Qc) (orderItems : list OrderItem.t)
    : NewOrder.t :=
  let shipping := shippingOf subtotal in
  let tax := taxOf subtotal shipping in
  let discount := JS.or_zero (Cart.discount cart) in
  let total := subtotal + shipping + tax - discount in
  NewOrder.mk (id user) None
    orderItems (shippingAddress req) (billingAddress req)
    (Pricing.mk subtotal shipping tax discount total)
    (paymentMethod req) (Cart.couponCode cart)
    (isGift req) (giftMessage req).

(** POST /api/orders.  [validateOrder] is the verdict of the validator
    chain of that name on the body.  The body of the response is the order
    read back from the collection. *)
Definition post_orders (validateOrder : OrderRequest → bool) (env : Env)
    (user : User) (req : OrderRequest) (s : Store)
    : Store * Response (option Order.t) :=
  if negb (validateOrder req) then (s, Error 400 ValidationFailed)
  else
    match carts s !! id user with
    | None => (s, Error 400 CartIsEmpty)
    | Some cart =>
        if bool_decide (length (Cart.items cart) = 0%nat) then
          (s, Error 400 CartIsEmpty)
        else
          match collectItems (products s) (Cart.items cart) 0 [] with
          | inl message => (s, Error 400 message)
          | inr (subtotal, orderItems) =>
              match Order.save (timestamp36 env) (random36 env)
                               (newOrder user req cart subtotal orderItems) with
              | None => (s, Error 500 ServerError)
              | Some order =>
                  let s1 := set_order (newId env) order s in
                  let s2 :=
                    set_products (decrementInventory orderItems (products s1))
                                 s1 in
                  let s3 :=
                    set_cart (id user) (Cart.clearCart (now env) cart) s2 in
                  (s3, Json 201 (orders s3 !! newId env))
              end
          end
    end.

Definition validStatuses : list string :=
  ["pending"; "confirmed"; "processing"; "shipped"; "delivered";
   "cancelled"; "returned"].

(** PUT /api/orders/:id/status, behind [requireAdmin]. *)
Definition put_orders_status (env : Env) (user : User) (orderId : ObjectId)
    (status : string) (note : option string) (s : Store)
    : Store * Response (option Order.t) :=
  if negb (bool_decide (role user = "admin")) then (s, Error 403 AdminRequired)
  else if negb (bool_decide (status ∈ validStatuses)) then
    (s, Error 400 InvalidStatus)
  else
    match orders s !! orderId with
    | None => (s, Error 404 OrderNotFound)
    | Some order =>
        let order1 :=
          Order.updateStatus status (default "" note) (Some (id user))
                             (now env) order in
        let ps :=
          if bool_decide (status = "cancelled")
             && bool_decide (Payment.status (Order.payment order1) = "completed")
          then restoreInventory (Order.items order1) (products s)
          else products s in
        let order2 :=
          if bool_decide (status = "delivered")
          then Order.set_actualDelivery (Some (now env)) order1
          else order1 in
        let s' := set_order orderId order2 (set_products ps s) in
        (s', Json 200 (orders s' !! orderId))
    end.

Definition cancelableStatuses : list string :=
  ["pending"; "confirmed"; "processing"].

(** [Order.findById(id)], narrowed by [where({ user })] for a non-admin. *)
Definition findOwnOrder (user : User) (orderId : ObjectId) (s : Store)
    : option Order.t :=
  match orders s !! orderId with
  | Some order =>
      if negb (bool_decide (role user = "admin"))
         && negb (bool_decide (Order.user order = id user))
      then None else Some order
  | None => None
  end.

(** POST /api/orders/:id/cancel. *)
Definition post_orders_cancel (env : Env) (user : User) (orderId : ObjectId)
    (reason : option string) (s : Store) : Store * Response (option Order.t) :=
  match findOwnOrder user orderId s with
  | None => (s, Error 404 OrderNotFound)
  | Some order =>
      if negb (bool_decide (Order.status order ∈ cancelableStatuses)) then
        (s, Error 400 (CannotBeCancelled (Order.status order)))
      else
        let note :=
          match reason with
          | Some r => if bool_decide (r = "") then "Cancelled by user" else r
          | None => "Cancelled by user"
          end in
        let order1 :=
          Order.updateStatus "cancelled" note (Some (id user)) (now env) order in
        let ps :=
          if bool_decide (Payment.status (Order.payment order1) = "completed")
          then restoreInventory (Order.items order1) (products s)
          else products s in
        let s' := set_order orderId order1 (set_products ps s) in
        (s', Json 200 (orders s' !! orderId))
  end.

End Orders.

(** ** routes/payment.js *)
Module PaymentIntent.
(** What the handlers read of a Stripe payment intent. *)
Record t := mk {
  id : string;
  status : string;
  orderId : ObjectId                    (* [metadata.orderId] *)
}.
End PaymentIntent.

Module StripeEvent.
Record t := mk { type : string; object : PaymentIntent.t }.
End StripeEvent.

Module Payments.

(** The two statements of both failure branches. *)
Definition markFailed (now : Z) (order : Order.t) : Order.t :=
  Order.updateStatus "pending" "Payment failed" None now
    (Order.set_payment (Payment.set_status "failed" (Order.payment order)) order).

(** POST /api/payment/stripe/confirm.  [retrieve] is
    [stripe.paymentIntents.retrieve]. *)
Definition stripe_confirm (env : Env) (user : User)
    (retrieve : string → option PaymentIntent.t)
    (paymentIntentId : option string) (s : Store)
    : Store * Response Order.t :=
  match paymentIntentId with
  | None => (s, Error 400 PaymentIntentIdRequired)
  | Some paymentIntentId =>
      if bool_decide (paymentIntentId = "") then
        (s, Error 400 PaymentIntentIdRequired)
      else
        match retrieve paymentIntentId with
        | None => (s, Error 404 PaymentIntentNotFound)
        | Some paymentIntent =>
            let orderId := PaymentIntent.orderId paymentIntent in
            match orders s !! orderId with
            | None => (s, Error 404 OrderNotFound)
            | Some order =>
                if negb (bool_decide (role user = "admin"))
                   && negb (bool_decide (Order.user order = id user))
                then (s, Error 403 AccessDenied)
                else if bool_decide (PaymentIntent.status paymentIntent
                                     = "succeeded") then
                  let order' :=
                    Order.markAsPaid (PaymentIntent.id paymentIntent) "stripe"
                                     (now env) order in
                  (set_order orderId order' s, Json 200 order')
                else
                  (set_order orderId (markFailed (now env) order) s,
                   Error 400 (PaymentFailed (PaymentIntent.status paymentIntent)))
            end
        end
  end.

(** POST /api/payment/stripe/webhook.  [event] is the result of
    [stripe.webhooks.constructEvent]: [None] when the signature is refused.
    The body [true] is [{ received: true }]. *)
Definition stripe_webhook (env : Env) (event : option StripeEvent.t)
    (s : Store) : Store * Response bool :=
  match event with
  | None => (s, Error 400 WebhookError)
  | Some event =>
      let paymentIntent := StripeEvent.object event in
      let orderId := PaymentIntent.orderId paymentIntent in
      let s' :=
        if bool_decide (StripeEvent.type event = "payment_intent.succeeded") then
          match orders s !! orderId with
          | Some order =>
              if negb (bool_decide (Payment.status (Order.payment order)
                                    = "completed")) then
                set_order orderId
                  (Order.markAsPaid (PaymentIntent.id paymentIntent) "stripe"
                                    (now env) order) s
              else s
          | None => s
          end
        else if bool_decide (StripeEvent.type event
                             = "payment_intent.payment_failed") then
          match orders s !! orderId with
          | Some failedOrder =>
              set_order orderId (markFailed (now env) failedOrder) s
          | None => s
          end
        else s in
      (s', Json 200 true)
  end.

(** POST /api/payment/refund. *)
Definition refund (env : Env) (user : User) (orderId : option ObjectId)
    (reason : option string) (s : Store) : Store * Response Order.t :=
  if negb (bool_decide (role user = "admin")) then (s, Error 403 AdminRequired)
  else
    match orderId with
    | None => (s, Error 400 OrderIdRequired)
    | Some orderId =>
        match orders s !! orderId with
        | None => (s, Error 404 OrderNotFound)
        | Some order =>
            if negb (bool_decide (Payment.status (Order.payment order)
                                  = "completed")) then
              (s, Error 400 PaymentNotCompleted)
            else
              let note :=
                match reason with
                | Some r => if bool_decide (r = "") then "Refunded by admin" else r
                | None => "Refunded by admin"
                end in
              let order' :=
                Order.updateStatus "returned" note (Some (id user)) (now env)
                  (Order.set_payment
                     (Payment.set_status "refunded" (Order.payment order)) order) in
              (set_order orderId order' s, Json 200 order')
        end
    end.

End Payments.

(** ** routes/products.js *)
Module Products.

(** PUT /api/products/:id for a body that holds [price] only:
    [findByIdAndUpdate(id, { $set: { price } })] behind [requireAdmin] and
    the validator [isFloat({ min: 0 })]. *)
Definition put_products_price (user : User) (productId : ObjectId)
    (price : Qc) (s : Store) : Store * Response (option Product.t) :=
  if negb (bool_decide (role user = "admin")) then (s, Error 403 AdminRequired)
  else if decide (price < 0) then (s, Error 400 ValidationFailed)
  else
    match products s !! productId with
    | None => (s, Error 404 ProductNotFound)
    | Some _ =>
        let s' := set_products (alter (Product.set_price price) productId
                                      (products s)) s in
        (s', Json 200 (products s' !! productId))
    end.

End Products.

(** ** routes/cart.js *)
Module VariantChoice.
(** An element of [selectedVariants] in the body of POST /cart/items. *)
Record t := mk { name : string; value : string }.
End VariantChoice.

Module Issue.
Inductive kind :=
| product_not_found
| product_inactive
| out_of_stock
| insufficient_stock
| price_changed.

(** An element of [issues]; the rendered [message] is left out. *)
Record t := mk {
  type : kind;
  itemId : ObjectId;
  productName : option string;
  requestedQuantity : option Z;
  availableQuantity : option Z;
  oldPrice : option Qc;
  newPrice : option Qc
}.
End Issue.

Module Carts.

(** The callback of [cart.items.filter] in GET /cart. *)
Definition validItem (products : gmap N Product.t) (item : CartItem.t) : bool :=
  match products !! CartItem.product item with
  | None => false
  | Some product =>
      if negb (bool_decide (Product.status product = "active")) then false
      else if Inventory.trackQuantity (Product.inventory product)
              && bool_decide (Inventory.quantity (Product.inventory product)
                              < CartItem.quantity item)%Z then false
      else true
  end.

(** GET /api/cart. *)
Definition get_cart (env : Env) (user : User) (s : Store)
    : Store * Response Cart.t :=
  let '(cart, s0) :=
    match carts s !! id user with
    | Some cart => (cart, s)
    | None =>
        let cart := Cart.save (now env) (Cart.create (now env)) in
        (cart, set_cart (id user) cart s)
    end in
  let validItems := List.filter (validItem (products s0)) (Cart.items cart) in
  if negb (bool_decide (length validItems = length (Cart.items cart))) then
    let cart' :=
      Cart.save (now env)
        (Cart.mk validItems (Cart.couponCode cart) (Cart.discount cart)
                 (Cart.lastActivity cart)) in
    (set_cart (id user) cart' s0, Json 200 cart')
  else (s0, Json 200 cart).

(** The body of [for (const selectedVariant of selectedVariants)] in
    POST /cart/items, on the pair [(itemPrice, validatedVariants)]. *)
Definition resolveVariant (product : Product.t)
    (acc : Qc * list SelectedVariant.t) (selectedVariant : VariantChoice.t)
    : Qc * list SelectedVariant.t :=
  let '(itemPrice, validatedVariants) := acc in
  match JS.find (λ v, bool_decide (ProductVariant.name v
                                   = VariantChoice.name selectedVariant))
                (Product.variants product) with
  | Some productVariant =>
      match JS.find (λ o, bool_decide (VariantOption.value o
                                       = VariantChoice.value selectedVariant))
                    (ProductVariant.options productVariant) with
      | Some option =>
          (itemPrice + JS.or_zero (VariantOption.priceModifier option),
           validatedVariants ++
             [SelectedVariant.mk (VariantChoice.name selectedVariant)
                (VariantChoice.value selectedVariant)
                (JS.or_zero (VariantOption.priceModifier option))])
      | None => acc
      end
  | None => acc
  end.

(** The validator [isInt({ min, max })] on the value of a body: the
    decimal numeral of a number, or the string itself, must be an optional
    sign followed by digits, and lie in the range as a number. *)
Definition isInt (min max : Z) (v : JS.Value) : bool :=
  match JS.toNumber v with
  | Some n => bool_decide (min ≤ n ≤ max)%Z
  | None => false
  end.

(** The validator chain [validateCartItem]. *)
Definition validateCartItem (product : string) (quantity : JS.Value) : bool :=
  Id.isMongoId product && isInt 1 99 quantity.

(** [product.inventory.quantity < quantity]. *)
Definition lessThan (stock : Z) (quantity : JS.Value) : bool :=
  match JS.toNumber quantity with
  | Some n => bool_decide (stock < n)%Z
  | None => false
  end.

(** POST /api/cart/items.  [productId] and [quantity] are the values of the
    body as the validators leave them. *)
Definition post_cart_items (env : Env) (user : User) (productId : string)
    (quantity : JS.Value) (selectedVariants : list VariantChoice.t)
    (s : Store) : Store * Response Cart.t :=
  if negb (validateCartItem productId quantity) then
    (s, Error 400 ValidationFailed)
  else
    match Id.cast productId ≫= λ _id, products s !! _id with
    | None => (s, Error 404 ProductNotFound)
    | Some product =>
        if negb (bool_decide (Product.status product = "active")) then
          (s, Error 400 ProductNotAvailable)
        else if Inventory.trackQuantity (Product.inventory product)
                && lessThan (Inventory.quantity (Product.inventory product))
                            quantity then
          (s, Error 400 (OnlyAvailable
                           (Inventory.quantity (Product.inventory product))))
        else
          let '(itemPrice, validatedVariants) :=
            fold_left (resolveVariant product) selectedVariants
                      (Product.price product, []) in
          let cart := default (Cart.create (now env)) (carts s !! id user) in
          match Cart.addItem productId quantity validatedVariants itemPrice
                             (newId env) (now env) cart with
          | Some cart' => (set_cart (id user) cart' s, Json 200 cart')
          | None => (s, Error 500 ServerError)
          end
    end.

(** The body of [for (const item of cart.items)] in POST /cart/validate, on
    the pair [(issues, validItems)]; a [continue] returns the pair at once.
    [exceeds currentPrice price] is the outcome of the test
    [Math.abs(currentPrice - item.price) > 0.01] in binary64 arithmetic. *)
Definition validateItem (exceeds : Qc → Qc → bool)
    (products : gmap N Product.t)
    (acc : list Issue.t * list CartItem.t) (item : CartItem.t)
    : list Issue.t * list CartItem.t :=
  let '(issues, validItems) := acc in
  match products !! CartItem.product item with
  | None =>
      (issues ++ [Issue.mk Issue.product_not_found (CartItem._id item)
                    None None None None None],
       validItems)
  | Some product =>
      if negb (bool_decide (Product.status product = "active")) then
        (issues ++ [Issue.mk Issue.product_inactive (CartItem._id item)
                      (Some (Product.name product)) None None None None],
         validItems)
      else
        let quantity := Inventory.quantity (Product.inventory product) in
        let short :=
          Inventory.trackQuantity (Product.inventory product)
          && bool_decide (quantity < CartItem.quantity item)%Z in
        if short && bool_decide (quantity = 0)%Z then
          (issues ++ [Issue.mk Issue.out_of_stock (CartItem._id item)
                        (Some (Product.name product)) None None None None],
           validItems)
        else
          let issues1 :=
            if short then
              issues ++ [Issue.mk Issue.insufficient_stock (CartItem._id item)
                           (Some (Product.name product))
                           (Some (CartItem.quantity item)) (Some quantity)
                           None None]
            else issues in
          let currentPrice :=
            Product.price product
            + Cart.variantPrice (CartItem.selectedVariants item) in
          let issues2 :=
            if exceeds currentPrice (CartItem.price item) then
              issues1 ++ [Issue.mk Issue.price_changed (CartItem._id item)
                            (Some (Product.name product)) None None
                            (Some (CartItem.price item)) (Some currentPrice)]
            else issues1 in
          (issues2, validItems ++ [item])
  end.

Record Validation := mkValidation {
  valid : bool;
  issues : list Issue.t;
  validItemsCount : option nat;
  totalItemsCount : option nat
}.

(** POST /api/cart/validate. *)
Definition post_cart_validate (exceeds : Qc → Qc → bool) (user : User)
    (s : Store) : Store * Response Validation :=
  match carts s !! id user with
  | None => (s, Json 200 (mkValidation true [] None None))
  | Some cart =>
      if bool_decide (length (Cart.items cart) = 0%nat) then
        (s, Json 200 (mkValidation true [] None None))
      else
        let '(issues, validItems) :=
          fold_left (validateItem exceeds (products s)) (Cart.items cart)
                    ([], []) in
        (s, Json 200 (mkValidation (bool_decide (length issues = 0%nat)) issues
                        (Some (length validItems))
                        (Some (length (Cart.items cart)))))
  end.

End Carts.

(** ** The vocabulary of the specification *)
Module Spec.

(** The sum of a list of amounts. *)
Fixpoint sum (l : list Qc) : Qc :=
  match l with
  | [] => 0
  | x :: l' => x + sum l'
  end.

(** (captured price + the line's variant price modifiers) × quantity. *)
Definition lineTotal (item : CartItem.t) : Qc :=
  (CartItem.price item
   + sum (map SelectedVariant.priceModifier (CartItem.selectedVariants item)))
  * JS.ofZ (CartItem.quantity item).

(** [m] is the larger of [a] and [b]. *)
Definition is_max (a b m : Qc) : Prop := a <= m ∧ b <= m ∧ (m = a ∨ m = b).

(** [r] is [x] rounded to two decimal places: a whole number of hundredths
    at most half a hundredth away from [x]. *)
Definition rounded2 (x r : Qc) : Prop :=
  (∃ k : Z, r = JS.ofZ k / JS.num 100)
  ∧ x - JS.num (1 # 200) < r ∧ r <= x + JS.num (1 # 200).

(** The units of product [pid] on the lines [l]. *)
Definition quantityOf {A} (product : A → ObjectId) (quantity : A → Z)
    (pid : ObjectId) (l : list A) : Z :=
  foldr (λ x acc, if decide (product x = pid) then (quantity x + acc)%Z else acc)
        0%Z l.

Definition orderQuantity := quantityOf OrderItem.product OrderItem.quantity.

(** The stock of product [pid] in a catalogue, when the product exists. *)
Definition stock (ps : gmap N Product.t) (pid : ObjectId) : option Z :=
  Inventory.quantity ∘ Product.inventory <$> ps !! pid.

(** A cart line can be ordered from [product]: the product is active and,
    when its stock is tracked, covers the line. *)
Definition orderable (product : Product.t) (cartItem : CartItem.t) : Prop :=
  Product.status product = "active"
  ∧ (Inventory.trackQuantity (Product.inventory product) = true
     → (CartItem.quantity cartItem
        ≤ Inventory.quantity (Product.inventory product))%Z).

(** The order line of a cart line whose product is [product]: the price is
    the product's price plus the modifiers captured on the cart line. *)
Definition orderLine (product : Product.t) (cartItem : CartItem.t)
    : OrderItem.t :=
  OrderItem.mk (CartItem.product cartItem) (Product.name product)
    (hd "" (Product.images product))
    (Product.price product
     + sum (map SelectedVariant.priceModifier
                (CartItem.selectedVariants cartItem)))
    (CartItem.quantity cartItem) (CartItem.selectedVariants cartItem).

Definition lineOf (ps : gmap N Product.t) (cartItem : CartItem.t)
    (orderItem : OrderItem.t) : Prop :=
  ∃ product, ps !! CartItem.product cartItem = Some product
             ∧ orderable product cartItem
             ∧ orderItem = orderLine product cartItem.

(** The amount of an order line. *)
Definition orderLineTotal (l : OrderItem.t) : Qc :=
  OrderItem.price l * JS.ofZ (OrderItem.quantity l).

(** An order document priced from the unit prices captured on the cart
    lines. *)
Definition pricedFromCart (cart : Cart.t) (o : NewOrder.t) : Prop :=
  map OrderItem.price (NewOrder.items o) = map CartItem.price (Cart.items cart)
  ∧ Pricing.subtotal (NewOrder.pricing o)
    = sum (map (λ i, CartItem.price i * JS.ofZ (CartItem.quantity i))
               (Cart.items cart)).

(** A cart line that GET /cart drops: its product is missing, is not
    active, or has a tracked stock below the quantity of the line. *)
Definition unavailable (ps : gmap N Product.t) (item : CartItem.t) : Prop :=
  ps !! CartItem.product item = None
  ∨ ∃ product,
      ps !! CartItem.product item = Some product
      ∧ (Product.status product ≠ "active"
         ∨ (Inventory.trackQuantity (Product.inventory product) = true
            ∧ (Inventory.quantity (Product.inventory product)
               < CartItem.quantity item)%Z)).

(** When POST /cart/validate reports an issue of a kind for a cart line;
    [exceeds] is the tolerance test of the handler on the current and the
    captured price. *)
Definition reports (exceeds : Qc → Qc → bool) (ps : gmap N Product.t)
    (item : CartItem.t) (kind : Issue.kind) : Prop :=
  match ps !! CartItem.product item with
  | None => kind = Issue.product_not_found
  | Some product =>
      let stock := Inventory.quantity (Product.inventory product) in
      let short :=
        Inventory.trackQuantity (Product.inventory product) = true
        ∧ (stock < CartItem.quantity item)%Z in
      if decide (Product.status product = "active") then
        match kind with
        | Issue.product_not_found | Issue.product_inactive => False
        | Issue.out_of_stock => short ∧ stock = 0%Z
        | Issue.insufficient_stock => short ∧ stock ≠ 0%Z
        | Issue.price_changed =>
            ¬ (short ∧ stock = 0%Z)
            ∧ exceeds
                (Product.price product
                 + sum (map SelectedVariant.priceModifier
                            (CartItem.selectedVariants item)))
                (CartItem.price item) = true
        end
      else kind = Issue.product_inactive
  end.

(** What a selected variant chooses: the option group and the option. *)
Definition choice (v : SelectedVariant.t) : string * string :=
  (SelectedVariant.name v, SelectedVariant.value v).

End Spec.

(** ** Concrete stores used by the examples *)
Module Fixture.

Definition alice : User := mkUser 7 "customer".
Definition admin : User := mkUser 1 "admin".

Definition home : Address.t :=
  Address.mk "Alice" "Doe" "alice@example.com" "5550001111" "1 Main St"
             "Springfield" "IL" "62701" "United States".

Definition req : Orders.OrderRequest :=
  Orders.mkOrderRequest
    [Orders.RequestItem.mk (Id.toString 100) (JS.Num 6)]
    home home "stripe" false None.

Definition env : Env := mkEnv 1000 500 "RS" "ABC".

(** The tolerance test and the rounding to cents as exact arithmetic gives
    them; binary64 arithmetic agrees on the amounts of the examples. *)
Definition exceeds (currentPrice price : Qc) : bool :=
  bool_decide (JS.num 0.01 < JS.Math_abs (currentPrice - price)).

Definition roundCents (x : Qc) : Qc :=
  JS.Math_round (x * JS.num 100) / JS.num 100.
Definition later : Env := mkEnv 2000 501 "1JK" "XYZ".

(** A tracked, active product priced 20 with ten units in stock. *)
Definition widget : Product.t :=
  Product.mk "Widget" (JS.num 20) ["widget.png"] (Inventory.mk 10 10 true) []
             "active".

(** The catalogue alone. *)
Definition catalogue : Store := mkStore {[ 100%N := widget ]} ∅ ∅.

(** Alice holds six widgets, captured at 20 each. *)
Definition shop : Store :=
  mkStore {[ 100%N := widget ]}
          {[ 7%N := Cart.mk [CartItem.mk 900 100 6 [] (JS.num 20)] None 0 0 ]}
          ∅.

(** Alice adds one widget while it costs 20; the admin then reprices the
    widget to 25. *)
Definition repriced : Store :=
  let s1 :=
    (Carts.post_cart_items env alice (Id.toString 100) (JS.Num 1) []
                           catalogue).1 in
  (Products.put_products_price admin 100 (JS.num 25) s1).1.

(** A stored order of Alice for six widgets, [_id] 500, not yet paid, with
    four widgets left in stock and her cart empty. *)
Definition order500 : Order.t :=
  Order.mk 7 "ORD-RS-ABC"
    [OrderItem.mk 100 "Widget" "widget.png" (JS.num 20) 6 []]
    home home
    (Pricing.mk (JS.num 120) 0 (JS.num 10.20) 0 (JS.num 130.20))
    (Payment.mk "stripe" "pending" None None None)
    "pending" None [] None false None.

Definition ordered : Store :=
  mkStore {[ 100%N := Product.inc_quantity (-6) widget ]}
          {[ 7%N := Cart.mk [] None 0 1000 ]}
          {[ 500%N := order500 ]}.

(** The payment intent of that order, as Stripe reports it once paid. *)
Definition intent : PaymentIntent.t := PaymentIntent.mk "pi_1" "succeeded" 500.

Definition stripe (paymentIntentId : string) : option PaymentIntent.t :=
  if bool_decide (paymentIntentId = "pi_1") then Some intent else None.

(** The order after a first POST /payment/stripe/confirm at time 2000. *)
Definition paid : Store :=
  (Payments.stripe_confirm later alice stripe (Some "pi_1") ordered).1.

Definition evenLater : Env := mkEnv 3000 502 "2BC" "QRS".

(** The store [shop] once only three widgets are left in stock. *)
Definition scarce : Store :=
  mkStore {[ 100%N := Product.inc_quantity (-7) widget ]} (carts shop) ∅.

Definition sizeL : SelectedVariant.t := SelectedVariant.mk "Size" "L" 0.

(** A shop whose product has the id ab (hexadecimal); Alice holds two. *)
Definition lampShop : Store :=
  mkStore {[ 171%N := widget ]}
          {[ 7%N := Cart.mk [CartItem.mk 900 171 2 [] (JS.num 20)] None 0 0 ]}
          ∅.

End Fixture.

(** ** The other handlers of the cart, payment and order routes *)

(** The [message] of the error responses of the handlers below. *)
Inductive Notice :=
| QuantityAtLeastOne                    (* 'Quantity must be at least 1' *)
| QuantityAtMost99                      (* 'Quantity cannot exceed 99' *)
| CartNotFound
| ItemNotFound                          (* 'Item not found in cart' *)
| ProductNoLongerAvailable
| OnlyInStock (available : Z)
| InternalError                         (* the answer of a [catch] branch *)
| CouponCodeRequired
| EmptyCart                             (* 'Cart is empty' *)
| InvalidCouponCode
| MinimumOrderAmount (minAmount : Qc)
| OrderIdMissing                        (* 'Order ID is required' *)
| NoSuchOrder                           (* 'Order not found' *)
| Denied                                (* 'Access denied' *)
| OrderAlreadyPaid
| OrderIsCancelled
| RatingAndCommentRequired
| RatingOutOfRange                      (* 'Rating must be between 1 and 5' *)
| NoSuchProduct
| AlreadyReviewed.

Inductive Reply (A : Type) :=
| Sent (code : Z) (body : A)
| Refused (code : Z) (notice : Notice).
Arguments Sent {A} code body.
Arguments Refused {A} code notice.

(** *** routes/cart.js: lines, count *)
Module CartLines.

(** PUT /api/cart/items/:itemId, for a body whose [quantity] is absent or
    an integer. *)
Definition put_cart_item (env : Env) (user : User) (itemId : ObjectId)
    (quantity : option Z) (s : Store) : Store * Reply Cart.t :=
  match quantity with
  | None => (s, Refused 400 QuantityAtLeastOne)
  | Some quantity =>
      if bool_decide (quantity = 0)%Z || bool_decide (quantity < 1)%Z then
        (s, Refused 400 QuantityAtLeastOne)
      else if bool_decide (99 < quantity)%Z then
        (s, Refused 400 QuantityAtMost99)
      else
        match carts s !! id user with
        | None => (s, Refused 404 CartNotFound)
        | Some cart =>
            match Cart.id itemId (Cart.items cart)
                  ≫= λ i, Cart.items cart !! i with
            | None => (s, Refused 404 ItemNotFound)
            | Some item =>
                match products s !! CartItem.product item with
                | None => (s, Refused 400 ProductNoLongerAvailable)
                | Some product =>
                    if negb (bool_decide (Product.status product = "active"))
                    then (s, Refused 400 ProductNoLongerAvailable)
                    else if Inventory.trackQuantity (Product.inventory product)
                            && bool_decide
                                 (Inventory.quantity (Product.inventory product)
                                  < quantity)%Z
                    then (s, Refused 400
                               (OnlyInStock
                                  (Inventory.quantity
                                     (Product.inventory product))))
                    else
                      match Cart.updateItemQuantity itemId quantity (now env)
                                                    cart with
                      | Some cart' =>
                          (set_cart (id user) cart' s, Sent 200 cart')
                      | None => (s, Refused 500 InternalError)
                      end
                end
            end
        end
  end.

(** DELETE /api/cart/items/:itemId. *)
Definition delete_cart_item (env : Env) (user : User) (itemId : ObjectId)
    (s : Store) : Store * Reply Cart.t :=
  match carts s !! id user with
  | None => (s, Refused 404 CartNotFound)
  | Some cart =>
      match Cart.id itemId (Cart.items cart) with
      | None => (s, Refused 404 ItemNotFound)
      | Some _ =>
          let cart' := Cart.removeItem itemId (now env) cart in
          (set_cart (id user) cart' s, Sent 200 cart')
      end
  end.

(** DELETE /api/cart. *)
Definition delete_cart (env : Env) (user : User) (s : Store)
    : Store * Reply Cart.t :=
  match carts s !! id user with
  | None => (s, Refused 404 CartNotFound)
  | Some cart =>
      let cart' := Cart.clearCart (now env) cart in
      (set_cart (id user) cart' s, Sent 200 cart')
  end.

(** GET /api/cart/count. *)
Definition get_cart_count (user : User) (s : Store) : Store * Reply Z :=
  (s, Sent 200 (match carts s !! id user with
                | Some cart => Cart.totalItems cart
                | None => 0%Z
                end)).

End CartLines.

(** *** routes/cart.js: coupons *)
Module Coupon.
Record t := mk { type : string; value : Qc; minAmount : Qc }.
End Coupon.

Module Coupons.

(** The object literal [demoCoupons]. *)
Definition demoCoupons : list (string * Coupon.t) :=
  [("SAVE10", Coupon.mk "percentage" (JS.num 10) (JS.num 50));
   ("SAVE20", Coupon.mk "percentage" (JS.num 20) (JS.num 100));
   ("FREESHIP", Coupon.mk "fixed" (JS.num 15) (JS.num 30))].

(** [object[key]] on an object literal whose keys are given in a list. *)
Fixpoint property {A} (object : list (string * A)) (key : string) : option A :=
  match object with
  | [] => None
  | (k, v) :: rest => if bool_decide (k = key) then Some v else property rest key
  end.

(** The [discount] member of the answer of POST /cart/apply-coupon, beside
    the cart. *)
Record Applied := mkApplied {
  cart : Cart.t;
  code : string;
  amount : Qc;
  type : string;
  value : Qc
}.

(** POST /api/cart/apply-coupon.  [toUpperCase] is
    [String.prototype.toUpperCase], and [roundCents x] the value of
    [Math.round(x * 100) / 100] in binary64 arithmetic. *)
Definition apply_coupon (toUpperCase : string → string)
    (roundCents : Qc → Qc) (env : Env)
    (user : User) (couponCode : option string) (s : Store)
    : Store * Reply Applied :=
  match couponCode with
  | None => (s, Refused 400 CouponCodeRequired)
  | Some couponCode =>
      if bool_decide (couponCode = "") then (s, Refused 400 CouponCodeRequired)
      else
        match carts s !! id user with
        | None => (s, Refused 404 CartNotFound)
        | Some cart =>
            if bool_decide (length (Cart.items cart) = 0%nat) then
              (s, Refused 400 EmptyCart)
            else
              match property demoCoupons (toUpperCase couponCode) with
              | None => (s, Refused 400 InvalidCouponCode)
              | Some coupon =>
                  let subtotal := Cart.subtotal cart in
                  if decide (subtotal < Coupon.minAmount coupon) then
                    (s, Refused 400 (MinimumOrderAmount (Coupon.minAmount coupon)))
                  else
                    let discountAmount :=
                      if bool_decide (Coupon.type coupon = "percentage") then
                        roundCents (subtotal * Coupon.value coupon / JS.num 100)
                      else Coupon.value coupon in
                    let discountAmount := JS.Math_min discountAmount subtotal in
                    let cart' :=
                      Cart.applyCoupon (toUpperCase couponCode) discountAmount
                                       (now env) cart in
                    (set_cart (id user) cart' s,
                     Sent 200 (mkApplied cart' (toUpperCase couponCode)
                                 discountAmount (Coupon.type coupon)
                                 (Coupon.value coupon)))
              end
        end
  end.

(** DELETE /api/cart/coupon. *)
Definition delete_coupon (env : Env) (user : User) (s : Store)
    : Store * Reply Cart.t :=
  match carts s !! id user with
  | None => (s, Refused 404 CartNotFound)
  | Some cart =>
      let cart' := Cart.removeCoupon (now env) cart in
      (set_cart (id user) cart' s, Sent 200 cart')
  end.

End Coupons.

(** *** routes/payment.js: creating the payment intent *)
Module IntentParams.
(** What the handler gives [stripe.paymentIntents.create]. *)
Record t := mk {
  amount : Qc;
  currency : string;
  orderId : ObjectId;                   (* [metadata.orderId] *)
  userId : ObjectId;                    (* [metadata.userId] *)
  description : string
}.
End IntentParams.

Module CreatedIntent.
(** What the handler reads of the created payment intent. *)
Record t := mk { id : string; client_secret : string }.
End CreatedIntent.

Module Intents.

Record Secret := mkSecret { clientSecret : string; paymentIntentId : string }.

(** POST /api/payment/stripe/create-intent.  [create] is
    [stripe.paymentIntents.create]. *)
Definition create_intent (create : IntentParams.t → CreatedIntent.t)
    (user : User) (orderId : option ObjectId) (s : Store)
    : Store * Reply Secret :=
  match orderId with
  | None => (s, Refused 400 OrderIdMissing)
  | Some orderId =>
      match orders s !! orderId with
      | None => (s, Refused 404 NoSuchOrder)
      | Some order =>
          if negb (bool_decide (role user = "admin"))
             && negb (bool_decide (Order.user order = id user))
          then (s, Refused 403 Denied)
          else if bool_decide (Payment.status (Order.payment order)
                               = "completed")
          then (s, Refused 400 OrderAlreadyPaid)
          else if bool_decide (Order.status order = "cancelled")
          then (s, Refused 400 OrderIsCancelled)
          else
            let paymentIntent :=
              create
                (IntentParams.mk
                   (JS.Math_round (Pricing.total (Order.pricing order)
                                   * JS.num 100))
                   "usd" orderId (id user)
                   ("Order " +:+ Order.orderNumber order)) in
            let payment' :=
              Payment.mk (Payment.method (Order.payment order)) "processing"
                (Payment.transactionId (Order.payment order))
                (Payment.paidAt (Order.payment order))
                (Some (CreatedIntent.id paymentIntent)) in
            (set_order orderId (Order.set_payment payment' order) s,
             Sent 200 (mkSecret (CreatedIntent.client_secret paymentIntent)
                                (CreatedIntent.id paymentIntent)))
      end
  end.

End Intents.

(** *** routes/orders.js: reading *)
Module OrderQueries.

(** GET /api/orders/:id. *)
Definition get_order (user : User) (orderId : ObjectId) (s : Store)
    : Store * Response Order.t :=
  match Orders.findOwnOrder user orderId s with
  | None => (s, Error 404 OrderNotFound)
  | Some order => (s, Json 200 order)
  end.

(** [Math.ceil]. *)
Definition Math_ceil (x : Qc) : Z := Qceiling x.

Record Pagination := mkPagination {
  currentPage : Z;
  totalPages : Z;
  totalOrders : Z;
  hasNext : bool;
  hasPrev : bool
}.

(** The [pagination] member of the answer of GET /api/orders, for the
    integers [page] and [limit] that [validatePagination] lets through and
    the count [totalOrders] of the matching orders. *)
Definition pagination (page limit totalOrders : Z) : Pagination :=
  let totalPages := Math_ceil (JS.ofZ totalOrders / JS.ofZ limit) in
  mkPagination page totalPages totalOrders
               (bool_decide (page < totalPages)%Z) (bool_decide (1 < page)%Z).

End OrderQueries.

(** *** models/Product.js: virtuals and rating *)
Module Review.
Record t := mk { user : ObjectId; rating : Z; comment : string }.
End Review.

Module Rating.
Record t := mk { average : Qc; count : Z }.
End Rating.

Module Catalog.

(** The virtual [salePercentage], of the fields it reads; [None] is an
    absent [comparePrice]. *)
Definition salePercentage (comparePrice : option Qc) (price : Qc) : Qc :=
  match comparePrice with
  | Some comparePrice =>
      if negb (bool_decide (comparePrice = 0))
         && bool_decide (price < comparePrice)
      then JS.Math_round (((comparePrice - price) / comparePrice) * JS.num 100)
      else 0
  | None => 0
  end.

Definition isInStock (inventory : Inventory.t) : bool :=
  if negb (Inventory.trackQuantity inventory) then true
  else bool_decide (0 < Inventory.quantity inventory)%Z.

Definition isLowStock (inventory : Inventory.t) : bool :=
  if negb (Inventory.trackQuantity inventory) then false
  else bool_decide (Inventory.quantity inventory
                    ≤ Inventory.lowStockThreshold inventory)%Z
       && bool_decide (0 < Inventory.quantity inventory)%Z.

(** [updateRating], as the [rating] it leaves for the [reviews]. *)
Definition updateRating (reviews : list Review.t) : Rating.t :=
  if bool_decide (length reviews = 0%nat) then Rating.mk 0 0
  else
    let sum := fold_left (λ acc review, (acc + Review.rating review)%Z)
                         reviews 0%Z in
    Rating.mk (JS.Math_round ((JS.ofZ sum / JS.ofZ (Z.of_nat (length reviews)))
                              * JS.num 10)
               / JS.num 10)
              (Z.of_nat (length reviews)).

(** The review fields of a product document. *)
Record Reviewed := mkReviewed { reviews : list Review.t; rating : Rating.t }.

(** [product.save()] after [reviews] was modified: the [pre('save')] hook
    runs [updateRating]. *)
Definition save (reviews : list Review.t) : Reviewed :=
  mkReviewed reviews (updateRating reviews).

(** POST /api/products/:id/reviews on the review fields of the catalogue,
    for a body whose [rating] is absent or an integer; [parseInt] of an
    integer is the integer. *)
Definition post_review (user : User) (productId : ObjectId)
    (rating : option Z) (comment : option string)
    (catalogue : gmap N Reviewed) : gmap N Reviewed * Reply Review.t :=
  match rating, comment with
  | Some rating, Some comment =>
      if bool_decide (rating = 0)%Z || bool_decide (comment = "") then
        (catalogue, Refused 400 RatingAndCommentRequired)
      else if bool_decide (rating < 1)%Z || bool_decide (5 < rating)%Z then
        (catalogue, Refused 400 RatingOutOfRange)
      else
        match catalogue !! productId with
        | None => (catalogue, Refused 404 NoSuchProduct)
        | Some product =>
            match JS.find (λ review, bool_decide (Review.user review = id user))
                          (reviews product) with
            | Some existingReview => (catalogue, Refused 400 AlreadyReviewed)
            | None =>
                let newReview := Review.mk (id user) rating comment in
                (<[productId := save (reviews product ++ [newReview])]>
                   catalogue,
                 Sent 201 newReview)
            end
        end
  | _, _ => (catalogue, Refused 400 RatingAndCommentRequired)
  end.

End Catalog.

(** ** The application as a transition system *)
Module Api.

(** What the handlers take from outside the application: the calls to
    Stripe, the library functions on strings and request bodies, and the
    two operations whose outcome depends on the rounding of binary64
    arithmetic. *)
Record Services := mkServices {
  retrieve : string → option PaymentIntent.t;
  create : IntentParams.t → CreatedIntent.t;
  toUpperCase : string → string;
  validateOrder : Orders.OrderRequest → bool;
  exceeds : Qc → Qc → bool;
  roundCents : Qc → Qc
}.

(** A request to one of the modelled routes, with [req.user] where the
    route is behind [authenticate]. *)
Inductive Request :=
| GetCart (user : User)
| PostCartItems (user : User) (productId : string) (quantity : JS.Value)
                (selectedVariants : list VariantChoice.t)
| PutCartItem (user : User) (itemId : ObjectId) (quantity : option Z)
| DeleteCartItem (user : User) (itemId : ObjectId)
| DeleteCart (user : User)
| ApplyCoupon (user : User) (couponCode : option string)
| DeleteCoupon (user : User)
| GetCartCount (user : User)
| ValidateCart (user : User)
| PostOrders (user : User) (req : Orders.OrderRequest)
| GetOrder (user : User) (orderId : ObjectId)
| PutOrderStatus (user : User) (orderId : ObjectId) (status : string)
                 (note : option string)
| CancelOrder (user : User) (orderId : ObjectId) (reason : option string)
| CreateIntent (user : User) (orderId : option ObjectId)
| ConfirmPayment (user : User) (paymentIntentId : option string)
| Webhook (event : option StripeEvent.t)
| Refund (user : User) (orderId : option ObjectId) (reason : option string)
| PutProductPrice (user : User) (productId : ObjectId) (price : Qc).

(** The status line of an answer. *)
Inductive Outcome :=
| Accepted (code : Z)
| Rejected (code : Z).

Definition ofResponse {A} (p : Store * Response A) : Store * Outcome :=
  (p.1, match p.2 with
        | Json code _ => Accepted code
        | Error code _ => Rejected code
        end).

Definition ofReply {A} (p : Store * Reply A) : Store * Outcome :=
  (p.1, match p.2 with
        | Sent code _ => Accepted code
        | Refused code _ => Rejected code
        end).

(** The router: the handler of each request. *)
Definition handle (services : Services) (env : Env) (r : Request) (s : Store)
    : Store * Outcome :=
  match r with
  | GetCart user => ofResponse (Carts.get_cart env user s)
  | PostCartItems user productId quantity selectedVariants =>
      ofResponse (Carts.post_cart_items env user productId quantity
                                        selectedVariants s)
  | PutCartItem user itemId quantity =>
      ofReply (CartLines.put_cart_item env user itemId quantity s)
  | DeleteCartItem user itemId =>
      ofReply (CartLines.delete_cart_item env user itemId s)
  | DeleteCart user => ofReply (CartLines.delete_cart env user s)
  | ApplyCoupon user couponCode =>
      ofReply (Coupons.apply_coupon (toUpperCase services)
                                    (roundCents services) env user
                                    couponCode s)
  | DeleteCoupon user => ofReply (Coupons.delete_coupon env user s)
  | GetCartCount user => ofReply (CartLines.get_cart_count user s)
  | ValidateCart user =>
      ofResponse (Carts.post_cart_validate (exceeds services) user s)
  | PostOrders user req =>
      ofResponse (Orders.post_orders (validateOrder services) env user req s)
  | GetOrder user orderId => ofResponse (OrderQueries.get_order user orderId s)
  | PutOrderStatus user orderId status note =>
      ofResponse (Orders.put_orders_status env user orderId status note s)
  | CancelOrder user orderId reason =>
      ofResponse (Orders.post_orders_cancel env user orderId reason s)
  | CreateIntent user orderId =>
      ofReply (Intents.create_intent (create services) user orderId s)
  | ConfirmPayment user paymentIntentId =>
      ofResponse (Payments.stripe_confirm env user (retrieve services)
                                          paymentIntentId s)
  | Webhook event => ofResponse (Payments.stripe_webhook env event s)
  | Refund user orderId reason =>
      ofResponse (Payments.refund env user orderId reason s)
  | PutProductPrice user productId price =>
      ofResponse (Products.put_products_price user productId price s)
  end.

(** Who sends the request; the webhook is sent by Stripe. *)
Definition caller (r : Request) : option User :=
  match r with
  | GetCart user | PostCartItems user _ _ _ | PutCartItem user _ _
  | DeleteCartItem user _ | DeleteCart user | ApplyCoupon user _
  | DeleteCoupon user | GetCartCount user | ValidateCart user
  | PostOrders user _ | GetOrder user _ | PutOrderStatus user _ _ _
  | CancelOrder user _ _ | CreateIntent user _ | ConfirmPayment user _
  | Refund user _ _ | PutProductPrice user _ _ => Some user
  | Webhook _ => None
  end.

(** The stores a run of requests leads to.  The [_id] given to a created
    document is one no order has yet. *)
Inductive reaches (services : Services) (s : Store) : Store → Prop :=
| reaches_here : reaches services s s
| reaches_step env r s' :
    reaches services s s' →
    orders s' !! newId env = None →
    reaches services s (handle services env r s').1.

End Api.

Module Spec2.

(** The fulfilment status of an order is the one of its last history entry;
    an order without history is pending. *)
Definition statusRecorded (o : Order.t) : Prop :=
  Order.status o
  = default "pending" (StatusEntry.status <$> list.last (Order.statusHistory o)).

(** [o'] is a later state of the order [o]: the owner, the number, the
    lines, the pricing and the coupon code are the same and the history has
    only grown. *)
Definition laterOf (o o' : Order.t) : Prop :=
  Order.user o' = Order.user o
  ∧ Order.orderNumber o' = Order.orderNumber o
  ∧ Order.items o' = Order.items o
  ∧ Order.pricing o' = Order.pricing o
  ∧ Order.couponCode o' = Order.couponCode o
  ∧ Order.statusHistory o `prefix_of` Order.statusHistory o'.

(** A variant captured on a cart line is an option of the product, with
    the price modifier the product gives it. *)
Definition offered (product : Product.t) (v : SelectedVariant.t) : Prop :=
  ∃ group option,
    group ∈ Product.variants product
    ∧ ProductVariant.name group = SelectedVariant.name v
    ∧ option ∈ ProductVariant.options group
    ∧ VariantOption.value option = SelectedVariant.value v
    ∧ VariantOption.priceModifier option = SelectedVariant.priceModifier v.

(** [r] is a whole number of cents at most half a cent away from [x]; a
    tie may have gone either way. *)
Definition nearCents (x r : Qc) : Prop :=
  (∃ k : Z, r = JS.ofZ k / JS.num 100)
  ∧ x - JS.num (1 # 200) <= r ∧ r <= x + JS.num (1 # 200).

(** The review fields of a product are in order: no user has two reviews,
    every rating is between 1 and 5, and the stored rating is the one
    [updateRating] computes from the reviews. *)
Definition wellReviewed (p : Catalog.Reviewed) : Prop :=
  NoDup (Review.user <$> Catalog.reviews p)
  ∧ Forall (λ review, (1 ≤ Review.rating review ≤ 5)%Z) (Catalog.reviews p)
  ∧ Catalog.rating p = Catalog.updateRating (Catalog.reviews p).

(** The sum of the ratings of the reviews. *)
Definition ratingSum (reviews : list Review.t) : Z :=
  foldr (λ review n, (Review.rating review + n)%Z) 0%Z reviews.

(** What a cart line captures of a selected variant: the first option
    group of the product with the name must have an option with the value,
    and the first such option gives the modifier ([0] when it has none). *)
Definition capture (product : Product.t) (c : VariantChoice.t)
    : option SelectedVariant.t :=
  '(_, group) ← list_find (λ g, ProductVariant.name g = VariantChoice.name c)
                          (Product.variants product);
  '(_, option) ← list_find (λ o, VariantOption.value o = VariantChoice.value c)
                           (ProductVariant.options group);
  Some (SelectedVariant.mk (VariantChoice.name c) (VariantChoice.value c)
                           (VariantOption.priceModifier option)).

End Spec2.

(** ** More concrete stores and services *)
Module Fixture2.

Definition bob : User := mkUser 8 "customer".

(** A Stripe that knows the intent [pi_1] and creates [pi_2]. *)
Definition services : Api.Services :=
  Api.mkServices Fixture.stripe
    (λ _, CreatedIntent.mk "pi_2" "secret_2")
    (λ code, if bool_decide (code = "save10") then "SAVE10" else code)
    (λ _, true)
    Fixture.exceeds
    Fixture.roundCents.

(** The widget with one review, by bob. *)
Definition reviewed : gmap N Catalog.Reviewed :=
  {[ 100%N := Catalog.save [Review.mk 8 4 "fine"] ]}.

End Fixture2.

(** * Properties *)

Set Warnings "-clear-no-such-hyp".

(** ** Exact arithmetic *)

(** Moves a goal on [Qc] to the underlying fractions, where [lra] decides
    linear arithmetic. *)
Ltac qc_unfold :=
  unfold JS.ofZ, JS.num in *;
  unfold Qcle, Qclt, Qcminus, Qcdiv, Qcplus, Qcmult, Qcopp, Qcinv, Q2Qc in *;
  cbn [this] in *;
  rewrite ?Qred_correct in *;
  change (inject_Z 1) with 1%Q in *;
  change (inject_Z 0) with 0%Q in *.

Ltac qc_lra := intros; try apply Qc_is_canon; qc_unfold; lra.

Lemma or_zero_id (x : Qc) : JS.or_zero x = x.
Proof. unfold JS.or_zero. case_decide; congruence. Qed.

Lemma Math_round_bounds (x : Qc) :
  ∃ k : Z, JS.Math_round x = JS.ofZ k
           ∧ x - JS.num (1 # 2) < JS.ofZ k ∧ JS.ofZ k <= x + JS.num (1 # 2).
Proof.
  exists (Qfloor (x + JS.num (1 # 2))). split; [reflexivity|].
  pose proof (Qfloor_le (x + JS.num (1 # 2))) as Hle.
  pose proof (Qlt_floor (x + JS.num (1 # 2))) as Hlt.
  rewrite inject_Z_plus in Hlt.
  set (k := Qfloor _) in *. clearbody k.
  qc_unfold. split; lra.
Qed.

Lemma Math_max_is_max (a b : Qc) : Spec.is_max a b (JS.Math_max a b).
Proof.
  unfold Spec.is_max, JS.Math_max. case_decide as H.
  - split_and!; [by apply Qclt_le_weak | apply Qcle_refl | by right].
  - split_and!; [apply Qcle_refl | by apply Qcnot_lt_le | by left].
Qed.

(** A [reduce] that adds [f] of every element is the sum of the [f]s. *)
Lemma reduce_sum {A} (f : A → Qc) (l : list A) (acc : Qc) :
  fold_left (λ total x, total + f x) l acc = acc + Spec.sum (map f l).
Proof.
  revert acc. induction l as [|x l IH]; intros acc; simpl.
  - ring.
  - rewrite IH. ring.
Qed.

Lemma variantPrice_sum (svs : list SelectedVariant.t) :
  Cart.variantPrice svs = Spec.sum (map SelectedVariant.priceModifier svs).
Proof. unfold Cart.variantPrice. rewrite reduce_sum. ring. Qed.

(** ** The derived amounts of a cart *)

(** C6. The [subtotal] of a cart is the sum over its lines of
    (captured price + the line's variant price modifiers) × quantity, and
    its [total] is the larger of 0 and subtotal − discount. *)
Theorem cart_subtotal_total (c : Cart.t) :
  Cart.subtotal c = Spec.sum (map Spec.lineTotal (Cart.items c))
  ∧ Spec.is_max 0 (Cart.subtotal c - Cart.discount c) (Cart.total c).
Proof.
  split.
  - unfold Cart.subtotal.
    rewrite (reduce_sum
               (λ item, (CartItem.price item
                         + Cart.variantPrice (CartItem.selectedVariants item))
                        * JS.ofZ (CartItem.quantity item))).
    rewrite Qcplus_0_l. f_equal. apply map_ext. intros item.
    unfold Spec.lineTotal. by rewrite variantPrice_sum.
  - apply Math_max_is_max.
Qed.

(** ** Stock movements *)

Lemma inc_quantity_0 (p : Product.t) : Product.inc_quantity 0 p = p.
Proof.
  destruct p as [? ? ? [q ? ?] ? ?]. unfold Product.inc_quantity; simpl.
  by rewrite Z.add_0_r.
Qed.

Lemma inc_quantity_twice (a b : Z) (p : Product.t) :
  Product.inc_quantity b (Product.inc_quantity a p)
  = Product.inc_quantity (a + b) p.
Proof. unfold Product.inc_quantity; simpl. by rewrite Z.add_assoc. Qed.

(** A loop of [$inc] updates adds, to every product, the increments of the
    lines that name it. *)
Lemma lookup_fold_incQuantity (f : OrderItem.t → Z) (items : list OrderItem.t)
    (ps : gmap N Product.t) (pid : ObjectId) :
  fold_left (λ ps item, incQuantity (OrderItem.product item) (f item) ps)
            items ps !! pid
  = Product.inc_quantity (Spec.quantityOf OrderItem.product f pid items)
    <$> ps !! pid.
Proof.
  revert ps. induction items as [|item items IH]; intros ps; simpl.
  - destruct (ps !! pid) as [p|]; simpl; [|done]. by rewrite inc_quantity_0.
  - rewrite IH. unfold incQuantity. case_decide as Hpid.
    + subst pid. rewrite lookup_alter_eq.
      destruct (ps !! OrderItem.product item) as [p|]; simpl; [|done].
      by rewrite inc_quantity_twice.
    + by rewrite lookup_alter_ne.
Qed.

Lemma stock_fold_incQuantity (f : OrderItem.t → Z) (items : list OrderItem.t)
    (ps : gmap N Product.t) (pid : ObjectId) :
  Spec.stock
    (fold_left (λ ps item, incQuantity (OrderItem.product item) (f item) ps)
               items ps) pid
  = (λ q, q + Spec.quantityOf OrderItem.product f pid items)%Z
    <$> Spec.stock ps pid.
Proof.
  unfold Spec.stock. rewrite lookup_fold_incQuantity.
  by destruct (ps !! pid).
Qed.

Lemma quantityOf_opp {A} (product : A → ObjectId) (quantity : A → Z)
    (pid : ObjectId) (l : list A) :
  Spec.quantityOf product (λ x, - quantity x)%Z pid l
  = (- Spec.quantityOf product quantity pid l)%Z.
Proof.
  induction l as [|x l IH]; simpl; [done|].
  fold (Spec.quantityOf product (λ x, - quantity x)%Z pid l).
  fold (Spec.quantityOf product quantity pid l).
  case_decide; lia.
Qed.

Lemma stock_decrementInventory (items : list OrderItem.t)
    (ps : gmap N Product.t) (pid : ObjectId) :
  Spec.stock (Orders.decrementInventory items ps) pid
  = (λ q, q - Spec.orderQuantity pid items)%Z <$> Spec.stock ps pid.
Proof.
  unfold Orders.decrementInventory.
  rewrite (stock_fold_incQuantity (λ item, - OrderItem.quantity item)%Z).
  rewrite quantityOf_opp. by destruct (Spec.stock ps pid).
Qed.

Lemma stock_restoreInventory (items : list OrderItem.t)
    (ps : gmap N Product.t) (pid : ObjectId) :
  Spec.stock (Orders.restoreInventory items ps) pid
  = (λ q, q + Spec.orderQuantity pid items)%Z <$> Spec.stock ps pid.
Proof. apply (stock_fold_incQuantity OrderItem.quantity). Qed.

(** ** Order creation *)

(** When the loop over the cart lines does not return early, it has appended
    one order line per cart line, in order, and added their amounts. *)
Lemma collectItems_inr (ps : gmap N Product.t) (cartItems : list CartItem.t)
    (subtotal0 subtotal : Qc) (acc orderItems : list OrderItem.t) :
  Orders.collectItems ps cartItems subtotal0 acc = inr (subtotal, orderItems) →
  ∃ lines,
    orderItems = acc ++ lines
    ∧ Forall2 (Spec.lineOf ps) cartItems lines
    ∧ subtotal
      = subtotal0 + Spec.sum (map Spec.orderLineTotal lines).
Proof.
  revert subtotal0 acc.
  induction cartItems as [|cartItem rest IH]; intros subtotal0 acc; simpl.
  - intros [= <- <-]. exists []. rewrite app_nil_r. split_and!; [done|constructor|].
    simpl. ring.
  - destruct (ps !! CartItem.product cartItem) as [product|] eqn:Hp; [|done].
    case_bool_decide as Hactive; simpl; [|done].
    destruct (Inventory.trackQuantity (Product.inventory product)) eqn:Htrack;
      simpl.
    + case_bool_decide as Hstock; [done|].
      intros (lines & -> & Hlines & ->)%IH.
      eexists (_ :: lines). rewrite <- app_assoc. split_and!; [done| |].
      * constructor; [|done]. exists product. split_and!; [done| |].
        -- split; [done|]. intros _. lia.
        -- unfold Spec.orderLine. by rewrite variantPrice_sum.
      * simpl. unfold Spec.orderLineTotal. simpl. ring.
    + intros (lines & -> & Hlines & ->)%IH.
      eexists (_ :: lines). rewrite <- app_assoc. split_and!; [done| |].
      * constructor; [|done]. exists product. split_and!; [done| |].
        -- split; [done|]. rewrite Htrack. done.
        -- unfold Spec.orderLine. by rewrite variantPrice_sum.
      * simpl. unfold Spec.orderLineTotal. simpl. ring.
Qed.

(** The document the handler makes has no order number, and the validators
    refuse it. *)
Lemma save_newOrder (timestamp36 random36 : string) (user : User)
    (req : Orders.OrderRequest) (cart : Cart.t) (subtotal : Qc)
    (orderItems : list OrderItem.t) :
  Order.save timestamp36 random36
             (Orders.newOrder user req cart subtotal orderItems)
  = None.
Proof.
  unfold Order.save, Order.validate, Orders.newOrder.
  cbn [NewOrder.orderNumber].
  rewrite (bool_decide_eq_false_2 (is_Some None)); [done|].
  by intros [? ?].
Qed.

(** POST /orders answers 400 or 500 and leaves the store as it is. *)
Lemma post_orders_refused (validateOrder : Orders.OrderRequest → bool)
    (env : Env) (user : User) (req : Orders.OrderRequest) (s : Store) :
  ∃ code message,
    Orders.post_orders validateOrder env user req s = (s, Error code message)
    ∧ (code = 400%Z ∨ code = 500%Z).
Proof.
  unfold Orders.post_orders.
  destruct (validateOrder req); cbn [negb]; [|by eexists _, _; eauto].
  destruct (carts s !! id user) as [cart|]; [|by eexists _, _; eauto].
  case_bool_decide; [by eexists _, _; eauto|].
  destruct (Orders.collectItems _ _ _ _) as [m|[subtotal orderItems]];
    [by eexists _, _; eauto|].
  rewrite save_newOrder. by eexists _, _; eauto.
Qed.

(** Evaluates a closed equation between exact numbers. *)
Ltac qc_compute := apply Qc_is_canon; vm_compute; reflexivity.

Lemma taxOf_rounded2 (subtotal shipping : Qc) :
  Spec.rounded2 ((subtotal + shipping) * JS.num 0.085)
                (Orders.taxOf subtotal shipping).
Proof.
  unfold Orders.taxOf, Spec.rounded2.
  destruct (Math_round_bounds
              ((subtotal + shipping) * JS.num 0.085 * JS.num 100))
    as (k & -> & Hlo & Hhi).
  split; [by exists k|].
  set (x := (subtotal + shipping) * JS.num 0.085) in *. clearbody x.
  qc_unfold. change (/ 100)%Q with (1 # 100)%Q. split; lra.
Qed.

(** C1, where the code fails.  The handler of POST /orders computes the
    pricing the claim states and puts it on the order document it makes:
    shipping is 0 from a subtotal of 100 on and 10 below, tax is
    (subtotal + shipping) × 0.085 rounded to two decimal places, discount is
    the discount of the cart, total is subtotal + shipping + tax − discount.
    But the document has no order number when it is validated, so no request
    persists an order: each is answered with an error and leaves the store
    as it is.  For Alice's cart of six widgets at 20 the document is priced
    120, 0, 10.20, 0 and 130.20, and the answer is 500. *)
Theorem post_orders_pricing_not_persisted :
  (∀ user req cart subtotal orderItems,
     let p :=
       NewOrder.pricing (Orders.newOrder user req cart subtotal orderItems) in
     Pricing.subtotal p = subtotal
     ∧ Pricing.shipping p
       = (if decide (JS.num 100 <= subtotal) then 0 else JS.num 10)
     ∧ Spec.rounded2 ((subtotal + Pricing.shipping p) * JS.num 0.085)
                     (Pricing.tax p)
     ∧ Pricing.discount p = Cart.discount cart
     ∧ Pricing.total p
       = subtotal + Pricing.shipping p + Pricing.tax p - Pricing.discount p)
  ∧ (∀ validateOrder env user req s,
       ∃ code message,
         Orders.post_orders validateOrder env user req s
         = (s, Error code message))
  ∧ (∃ cart orderItems,
       carts Fixture.shop !! 7%N = Some cart
       ∧ Orders.collectItems (products Fixture.shop) (Cart.items cart) 0 []
         = inr (JS.num 120, orderItems)
       ∧ NewOrder.pricing
           (Orders.newOrder Fixture.alice Fixture.req cart (JS.num 120)
                            orderItems)
         = Pricing.mk (JS.num 120) 0 (JS.num 10.20) 0 (JS.num 130.20)
       ∧ Orders.post_orders (λ _, true) Fixture.env Fixture.alice Fixture.req
                            Fixture.shop
         = (Fixture.shop, Error 500 ServerError)).
Proof.
  split_and!.
  - intros user req cart subtotal orderItems. simpl. split_and!.
    + done.
    + done.
    + apply taxOf_rounded2.
    + apply or_zero_id.
    + done.
  - intros validateOrder env user req s.
    destruct (post_orders_refused validateOrder env user req s)
      as (code & message & Hrun & _).
    by exists code, message.
  - eexists _, _. split; [reflexivity|].
    split; [vm_compute; reflexivity|].
    split; [|reflexivity].
    unfold Orders.newOrder. cbn [NewOrder.pricing]. f_equal; qc_compute.
Qed.

(** C2, where the code fails.  The loop that follows [order.save()] would
    take from the stock of every product the quantities of the order lines
    that name it, and [clearCart] would leave the cart without lines, coupon
    code and discount.  But the save is rejected before they run, and no
    request to POST /orders decrements a stock or empties a cart: products,
    carts and orders are after the request what they were before.  For
    Alice's cart of six widgets, which passes every test of the handler, the
    answer is 500, the widget keeps its ten units and the cart its line. *)
Theorem post_orders_stock_and_cart_kept :
  (∀ orderItems ps pid,
     Spec.stock (Orders.decrementInventory orderItems ps) pid
     = (λ q, q - Spec.orderQuantity pid orderItems)%Z <$> Spec.stock ps pid)
  ∧ (∀ now cart,
       Cart.items (Cart.clearCart now cart) = []
       ∧ Cart.couponCode (Cart.clearCart now cart) = None
       ∧ Cart.discount (Cart.clearCart now cart) = 0)
  ∧ (∀ validateOrder env user req s,
     let r := Orders.post_orders validateOrder env user req s in
     products r.1 = products s ∧ carts r.1 = carts s ∧ orders r.1 = orders s
     ∧ ∀ code body, r.2 ≠ Json code body)
  ∧ (let r := Orders.post_orders (λ _, true) Fixture.env Fixture.alice
                                 Fixture.req Fixture.shop in
     r.2 = Error 500 ServerError
     ∧ (∀ item, item ∈ [CartItem.mk 900 100 6 [] (JS.num 20)] →
                ∃ product, products Fixture.shop !! CartItem.product item
                           = Some product
                           ∧ Spec.orderable product item)
     ∧ Spec.stock (products r.1) 100 = Some 10%Z
     ∧ Cart.items <$> carts r.1 !! 7%N
       = Some [CartItem.mk 900 100 6 [] (JS.num 20)]).
Proof.
  split_and!.
  - apply stock_decrementInventory.
  - done.
  - intros validateOrder env user req s.
    destruct (post_orders_refused validateOrder env user req s)
      as (code & message & Hrun & _).
    cbv zeta. rewrite Hrun. by split_and!.
  - cbv zeta. split; [reflexivity|]. split; [|by split].
    intros item ->%list_elem_of_singleton. exists Fixture.widget.
    split; [reflexivity|]. split; [reflexivity|]. intros _. simpl. lia.
Qed.

(** C3, as stated, fails: Alice puts one widget in her cart while it costs
    20, the widget is repriced to 25, and the order document the handler of
    POST /orders makes from the cart has a line priced 25 and a subtotal of
    25, not the captured 20. *)
Lemma post_orders_price_not_captured :
  ∃ cart line orderLine,
    carts Fixture.repriced !! 7%N = Some cart
    ∧ Cart.items cart = [line]
    ∧ CartItem.price line = JS.num 20
    ∧ CartItem.quantity line = 1%Z
    ∧ Orders.collectItems (products Fixture.repriced) (Cart.items cart) 0 []
      = inr (JS.num 25, [orderLine])
    ∧ OrderItem.price orderLine = JS.num 25
    ∧ ¬ Spec.pricedFromCart cart
          (Orders.newOrder Fixture.alice Fixture.req cart (JS.num 25)
                           [orderLine]).
Proof.
  eexists _, _, _.
  split; [vm_compute; reflexivity|].
  split; [reflexivity|].
  split; [qc_compute|].
  split; [reflexivity|].
  split; [vm_compute; reflexivity|].
  split; [qc_compute|].
  intros [Hprices _]. apply (f_equal (map this)) in Hprices.
  vm_compute in Hprices. discriminate Hprices.
Qed.

(** C3, amended.  Every line of the order document that the handler of
    POST /orders makes from a cart is priced at the product's price when the
    request is handled plus the variant price modifiers captured on the
    cart line, and keeps the cart line's product, quantity and selections;
    the subtotal of the document is the sum of these line prices ×
    quantities. *)
Theorem post_orders_lines_priced_at_creation (user : User)
    (req : Orders.OrderRequest) (s : Store) (cart : Cart.t) (subtotal : Qc)
    (orderItems : list OrderItem.t) :
  Orders.collectItems (products s) (Cart.items cart) 0 []
  = inr (subtotal, orderItems) →
  let o := Orders.newOrder user req cart subtotal orderItems in
  Forall2 (Spec.lineOf (products s)) (Cart.items cart) (NewOrder.items o)
  ∧ Pricing.subtotal (NewOrder.pricing o)
    = Spec.sum (map Spec.orderLineTotal (NewOrder.items o)).
Proof.
  intros (lines & -> & Hlines & ->)%collectItems_inr. simpl.
  split; [done | ring].
Qed.

(** The order document of the repriced widget. *)
Lemma post_orders_lines_priced_at_creation_witness :
  ∃ cart subtotal orderItems,
    carts Fixture.repriced !! 7%N = Some cart
    ∧ Orders.collectItems (products Fixture.repriced) (Cart.items cart) 0 []
      = inr (subtotal, orderItems)
    ∧ Forall2 (Spec.lineOf (products Fixture.repriced)) (Cart.items cart)
              orderItems.
Proof.
  eexists _, _, _.
  split; [vm_compute; reflexivity|].
  assert (Orders.collectItems (products Fixture.repriced)
            (Cart.items
               (Cart.mk [CartItem.mk 500 100 1 [] (JS.num 20)] None 0 1000))
            0 []
          = inr (_, _)) as Hloop by (vm_compute; reflexivity).
  split; [exact Hloop|].
  apply (post_orders_lines_priced_at_creation Fixture.alice Fixture.req
           Fixture.repriced) in Hloop as [Hlines _].
  exact Hlines.
Defined.

(** ** Payment reconciliation *)

(** The webhook path checks [payment.status] first: a second
    [payment_intent.succeeded] for a paid order changes nothing. *)
Lemma stripe_webhook_paid_noop (env : Env) (paymentIntent : PaymentIntent.t)
    (s : Store) (order : Order.t) :
  orders s !! PaymentIntent.orderId paymentIntent = Some order →
  Payment.status (Order.payment order) = "completed" →
  Payments.stripe_webhook env
    (Some (StripeEvent.mk "payment_intent.succeeded" paymentIntent)) s
  = (s, Json 200 true).
Proof.
  intros Horder Hpaid. unfold Payments.stripe_webhook. simpl.
  rewrite Horder. by rewrite bool_decide_eq_true_2.
Qed.

(** The confirm path does not: it applies [markAsPaid] again. *)
Lemma stripe_confirm_paid_again (env : Env) (user : User)
    (retrieve : string → option PaymentIntent.t) (paymentIntentId : string)
    (paymentIntent : PaymentIntent.t) (s : Store) (order : Order.t) :
  paymentIntentId ≠ "" →
  retrieve paymentIntentId = Some paymentIntent →
  PaymentIntent.status paymentIntent = "succeeded" →
  orders s !! PaymentIntent.orderId paymentIntent = Some order →
  Order.user order = id user →
  Payment.status (Order.payment order) = "completed" →
  ∃ order',
    Payments.stripe_confirm env user retrieve (Some paymentIntentId) s
    = (set_order (PaymentIntent.orderId paymentIntent) order' s, Json 200 order')
    ∧ Order.statusHistory order'
      = Order.statusHistory order
        ++ [StatusEntry.mk "confirmed" "Payment received" None (now env)]
    ∧ Payment.paidAt (Order.payment order') = Some (now env)
    ∧ Order.status order' = "confirmed".
Proof.
  intros Hid Hretrieve Hsucceeded Horder Howner Hpaid.
  unfold Payments.stripe_confirm.
  rewrite bool_decide_eq_false_2 by done.
  rewrite Hretrieve, Horder.
  rewrite (bool_decide_eq_true_2 (Order.user order = id user)) by done.
  rewrite andb_false_r.
  rewrite bool_decide_eq_true_2 by done.
  eexists. split; [reflexivity|]. done.
Qed.

(** C4 at its failing input.  Alice's order 500 was paid by a first confirm
    call at time 2000: its payment is completed and its history has one
    entry.  The duplicate webhook leaves the store as it is, but a second
    confirm call for the same payment intent at time 3000 appends a second
    history entry and stamps [paidAt] anew. *)
Theorem stripe_confirm_twice_not_noop :
  ∃ o o',
    orders Fixture.paid !! 500%N = Some o
    ∧ Payment.status (Order.payment o) = "completed"
    ∧ Payment.paidAt (Order.payment o) = Some 2000%Z
    ∧ length (Order.statusHistory o) = 1%nat
    ∧ Payments.stripe_webhook Fixture.evenLater
        (Some (StripeEvent.mk "payment_intent.succeeded" Fixture.intent))
        Fixture.paid
      = (Fixture.paid, Json 200 true)
    ∧ (Payments.stripe_confirm Fixture.evenLater Fixture.alice Fixture.stripe
         (Some "pi_1") Fixture.paid).2
      = Json 200 o'
    ∧ orders (Payments.stripe_confirm Fixture.evenLater Fixture.alice
                Fixture.stripe (Some "pi_1") Fixture.paid).1 !! 500%N
      = Some o'
    ∧ Payment.paidAt (Order.payment o') = Some 3000%Z
    ∧ length (Order.statusHistory o') = 2%nat.
Proof.
  eexists _, _.
  split; [vm_compute; reflexivity|].
  split; [reflexivity|].
  split; [reflexivity|].
  split; [reflexivity|].
  split; [by eapply stripe_webhook_paid_noop; vm_compute|].
  split; [vm_compute; reflexivity|].
  split; [vm_compute; reflexivity|].
  split; reflexivity.
Qed.

(** ** Status changes and the stock *)




(** ** Cancelling an order *)

Lemma cancelled_not_cancelable : "cancelled" ∉ Orders.cancelableStatuses.
Proof. by apply (bool_decide_unpack _). Qed.

(** The two outcomes of a cancel by the owner. *)
Lemma post_orders_cancel_refused (env : Env) (user : User) (orderId : ObjectId)
    (reason : option string) (s : Store) (order : Order.t) :
  orders s !! orderId = Some order →
  Order.user order = id user →
  Order.status order ∉ Orders.cancelableStatuses →
  Orders.post_orders_cancel env user orderId reason s
  = (s, Error 400 (CannotBeCancelled (Order.status order))).
Proof.
  intros Horder Howner Hstatus.
  unfold Orders.post_orders_cancel, Orders.findOwnOrder. rewrite Horder.
  rewrite (bool_decide_eq_true_2 (Order.user order = id user)) by done.
  rewrite andb_false_r. by rewrite bool_decide_eq_false_2.
Qed.

Lemma post_orders_cancel_done (env : Env) (user : User) (orderId : ObjectId)
    (reason : option string) (s : Store) (order : Order.t) :
  orders s !! orderId = Some order →
  Order.user order = id user →
  Order.status order ∈ Orders.cancelableStatuses →
  ∃ note,
    let order1 :=
      Order.updateStatus "cancelled" note (Some (id user)) (now env) order in
    Orders.post_orders_cancel env user orderId reason s
    = (set_order orderId order1
         (set_products
            (if bool_decide (Payment.status (Order.payment order) = "completed")
             then Orders.restoreInventory (Order.items order) (products s)
             else products s) s),
       Json 200 (Some order1)).
Proof.
  intros Horder Howner Hstatus.
  unfold Orders.post_orders_cancel, Orders.findOwnOrder. rewrite Horder.
  rewrite (bool_decide_eq_true_2 (Order.user order = id user)) by done.
  rewrite andb_false_r. rewrite bool_decide_eq_true_2 by done. simpl.
  eexists. by rewrite lookup_insert_eq.
Qed.

(** C8. POST /orders/:id/cancel by the owning user succeeds exactly while
    the status of the order is pending, confirmed or processing, and changes
    nothing otherwise.  When it succeeds the order is cancelled and, when the
    payment was completed, the stock of every product grows by the
    quantities of the order lines that name it; a second cancel is answered
    400 and leaves the store, so the stock, as it is. *)
Theorem post_orders_cancel_once (env env' : Env) (user : User)
    (orderId : ObjectId) (reason reason' : option string) (s : Store)
    (order : Order.t) :
  orders s !! orderId = Some order →
  Order.user order = id user →
  let r := Orders.post_orders_cancel env user orderId reason s in
  ((∃ code body, r.2 = Json code body)
   ↔ Order.status order ∈ ["pending"; "confirmed"; "processing"])
  ∧ (Order.status order ∉ ["pending"; "confirmed"; "processing"] → r.1 = s)
  ∧ (Order.status order ∈ ["pending"; "confirmed"; "processing"] →
     Order.status <$> orders r.1 !! orderId = Some "cancelled"
     ∧ (Payment.status (Order.payment order) = "completed" →
        ∀ pid, Spec.stock (products r.1) pid
               = (λ q, q + Spec.orderQuantity pid (Order.items order))%Z
                 <$> Spec.stock (products s) pid)
     ∧ Orders.post_orders_cancel env' user orderId reason' r.1
       = (r.1, Error 400 (CannotBeCancelled "cancelled"))).
Proof.
  intros Horder Howner r.
  change ["pending"; "confirmed"; "processing"] with Orders.cancelableStatuses.
  destruct (decide (Order.status order ∈ Orders.cancelableStatuses))
    as [Hstatus|Hstatus].
  - destruct (post_orders_cancel_done env user orderId reason s order)
      as [note Hrun]; [done..|].
    cbv zeta in Hrun. subst r. rewrite Hrun. simpl.
    split_and!.
    + split; [done|]. intros _. by eexists _, _.
    + done.
    + intros _. rewrite lookup_insert_eq. split_and!.
      * done.
      * intros Hpaid pid. rewrite bool_decide_eq_true_2 by done.
        apply stock_restoreInventory.
      * apply (post_orders_cancel_refused env' user orderId reason' _
                 (Order.updateStatus "cancelled" note (Some (id user))
                                     (now env) order)).
        -- simpl. by rewrite lookup_insert_eq.
        -- done.
        -- apply cancelled_not_cancelable.
  - subst r. rewrite (post_orders_cancel_refused env user orderId reason s order)
      by done.
    simpl. split_and!; [|done..].
    split; [by intros (? & ? & ?)|done].
Qed.

(** Alice cancels her paid order: the stock goes from four to ten, and her
    second cancel is refused. *)
Lemma post_orders_cancel_once_witness :
  let r := Orders.post_orders_cancel Fixture.evenLater Fixture.alice 500 None
                                     Fixture.paid in
  Spec.stock (products Fixture.paid) 100 = Some 4%Z
  ∧ Spec.stock (products r.1) 100 = Some 10%Z
  ∧ Orders.post_orders_cancel Fixture.evenLater Fixture.alice 500 None r.1
    = (r.1, Error 400 (CannotBeCancelled "cancelled")).
Proof.
  cbv zeta.
  edestruct (post_orders_cancel_once Fixture.evenLater Fixture.evenLater
               Fixture.alice 500 None None Fixture.paid)
    as (_ & _ & Hok); [vm_compute; reflexivity | reflexivity |].
  destruct Hok as (_ & Hstock & Hsecond); [by apply (bool_decide_unpack _)|].
  split; [reflexivity|]. split; [|exact Hsecond].
  rewrite (Hstock eq_refl 100%N). vm_compute. reflexivity.
Defined.

(** ** Reading and validating the cart *)

(** One pass of the validation loop only appends to its two lists. *)
Lemma validateItem_app (exceeds : Qc → Qc → bool) (ps : gmap N Product.t)
    (issues : list Issue.t) (validItems : list CartItem.t)
    (item : CartItem.t) :
  Carts.validateItem exceeds ps (issues, validItems) item
  = (issues ++ (Carts.validateItem exceeds ps ([], []) item).1,
     validItems ++ (Carts.validateItem exceeds ps ([], []) item).2).
Proof.
  unfold Carts.validateItem.
  repeat (case_match; simpl); rewrite ?app_nil_r, <- ?app_assoc; done.
Qed.

Lemma fold_validateItem (exceeds : Qc → Qc → bool) (ps : gmap N Product.t)
    (items : list CartItem.t) (issues : list Issue.t)
    (validItems : list CartItem.t) :
  (fold_left (Carts.validateItem exceeds ps) items (issues, validItems)).1
  = issues
    ++ flat_map (λ item, (Carts.validateItem exceeds ps ([], []) item).1)
                items.
Proof.
  revert issues validItems.
  induction items as [|item items IH]; intros issues validItems;
    cbn [fold_left flat_map].
  - simpl. by rewrite app_nil_r.
  - rewrite validateItem_app, IH. by rewrite <- app_assoc.
Qed.

(** Chooses an element of a list given in full, moving on to the next one
    when the choice fails later. *)
Ltac pick_elem :=
  (apply list_elem_of_here) + (apply list_elem_of_further; pick_elem).

(** The issues of one cart line are those [Spec.reports] describes. *)
Lemma validateItem_reports (exceeds : Qc → Qc → bool)
    (ps : gmap N Product.t) (item : CartItem.t)
    (kind : Issue.kind) (itemId : ObjectId) :
  (∃ issue, issue ∈ (Carts.validateItem exceeds ps ([], []) item).1
            ∧ Issue.type issue = kind ∧ Issue.itemId issue = itemId)
  ↔ CartItem._id item = itemId ∧ Spec.reports exceeds ps item kind.
Proof.
  unfold Carts.validateItem, Spec.reports.
  rewrite variantPrice_sum.
  destruct (ps !! CartItem.product item) as [product|]; simpl.
  2:{ split.
      - intros (issue & ->%list_elem_of_singleton & <- & <-). done.
      - intros [<- ->]. eexists. split; [apply list_elem_of_singleton|]; done. }
  destruct (decide (Product.status product = "active")) as [Hactive|Hactive];
    [rewrite (bool_decide_eq_true_2 (Product.status product = "active")) by done
    |rewrite (bool_decide_eq_false_2 (Product.status product = "active"))
       by done]; simpl.
  2:{ split.
      - intros (issue & ->%list_elem_of_singleton & <- & <-). done.
      - intros [<- ->]. eexists. split; [apply list_elem_of_singleton|]; done. }
  destruct (exceeds _ (CartItem.price item));
  destruct (Inventory.trackQuantity (Product.inventory product)); simpl;
    repeat case_bool_decide; simpl;
    (split;
     [ intros (issue & Hin & <- & <-);
       repeat (apply elem_of_cons in Hin as [->|Hin]);
       try (by apply elem_of_nil in Hin); simpl;
       intuition (first [lia | congruence | done])
     | intros [<- Hkind]; destruct kind; simpl in Hkind;
       try (exfalso; intuition (first [lia | congruence | done]));
       eexists; (split; [pick_elem|]); split; reflexivity ]).
Qed.

(** C9. POST /cart/validate returns the store it was given, whatever the
    outcome of its tolerance test on the prices.  Its answer lists, for each
    cart line, the issues of the five kinds: the product is not found; it is
    not active; its tracked stock is short of the line and zero (out of
    stock) or not zero (insufficient stock); and, for a line not skipped by
    one of the first three, the test of the product's price plus the line's
    modifiers against the captured price, with the tolerance 0.01, finds a
    drift (price changed).  [valid] tells that the list is empty. *)
Theorem post_cart_validate_readonly (exceeds : Qc → Qc → bool) (user : User)
    (s : Store) :
  let r := Carts.post_cart_validate exceeds user s in
  r.1 = s
  ∧ ∃ v, r.2 = Json 200 v
         ∧ Carts.valid v = bool_decide (Carts.issues v = [])
         ∧ ∀ kind itemId,
             (∃ issue, issue ∈ Carts.issues v ∧ Issue.type issue = kind
                       ∧ Issue.itemId issue = itemId)
             ↔ (∃ cart item,
                  carts s !! id user = Some cart
                  ∧ item ∈ Cart.items cart
                  ∧ CartItem._id item = itemId
                  ∧ Spec.reports exceeds (products s) item kind).
Proof.
  cbv zeta. unfold Carts.post_cart_validate.
  destruct (carts s !! id user) as [cart|] eqn:Hcart; simpl.
  2:{ split; [done|]. eexists. split_and!; [done..|]. simpl.
      intros kind itemId. split.
      - by intros (? & []%elem_of_nil & _).
      - by intros (? & ? & ? & _). }
  case_bool_decide as Hlen; simpl.
  { split; [done|]. eexists. split_and!; [done..|]. simpl.
    intros kind itemId. split.
    - by intros (? & []%elem_of_nil & _).
    - intros (? & item & [= <-] & Hin & _).
      destruct (Cart.items cart); [by apply elem_of_nil in Hin|done]. }
  destruct (fold_left _ _ _) as [issues validItems] eqn:Hloop. simpl.
  split; [done|]. eexists. split; [done|]. simpl. split.
  { destruct issues; done. }
  intros kind itemId.
  pose proof (fold_validateItem exceeds (products s) (Cart.items cart) [] [])
    as Hfold.
  rewrite Hloop in Hfold. simpl in Hfold. subst issues. split.
  - intros (issue & (item & Hitem & Hissue)%list_elem_of_In%in_flat_map & Hk & Hi).
    exists cart, item. split; [done|].
    split; [by apply list_elem_of_In|].
    apply validateItem_reports. exists issue.
    split; [by apply list_elem_of_In|done].
  - intros (cart' & item & [= <-] & Hitem & Hreport).
    apply validateItem_reports in Hreport as (issue & Hin & Hk & Hi).
    exists issue. split; [|done].
    apply list_elem_of_In, in_flat_map. exists item.
    split; by apply list_elem_of_In.
Qed.

Lemma validItem_false (ps : gmap N Product.t) (item : CartItem.t) :
  Carts.validItem ps item = false ↔ Spec.unavailable ps item.
Proof.
  unfold Carts.validItem, Spec.unavailable.
  destruct (ps !! CartItem.product item) as [product|]; [|by split; [left|]].
  case_bool_decide as Hactive; simpl.
  - destruct (Inventory.trackQuantity (Product.inventory product)) eqn:Htrack;
      simpl.
    + case_bool_decide as Hshort; split; try done.
      * intros _. right. exists product. split; [done|]. by right.
      * intros [|(p & [= <-] & [|[_ ?]])]; done.
    + split; [done|]. intros [|(p & [= <-] & [|[? _]])]; congruence.
  - split; [|done]. intros _. right. exists product. split; [done|]. by left.
Qed.

Lemma filter_length_le {A} (f : A → bool) (l : list A) :
  (length (List.filter f l) ≤ length l)%nat.
Proof. induction l as [|x l IH]; simpl; [done|]. destruct (f x); simpl; lia. Qed.

(** A filter that keeps the length keeps the list. *)
Lemma filter_same_length {A} (f : A → bool) (l : list A) :
  length (List.filter f l) = length l → List.filter f l = l.
Proof.
  induction l as [|x l IH]; simpl; [done|].
  pose proof (filter_length_le f l). destruct (f x); simpl; [|lia].
  intros [= Hlen]. by rewrite IH.
Qed.

(** A filter that drops an element shortens the list. *)
Lemma filter_drop_length {A} (f : A → bool) (l : list A) (x : A) :
  x ∈ l → f x = false → (length (List.filter f l) < length l)%nat.
Proof.
  induction 1 as [x l|x y l _ IH]; intros Hx; simpl.
  - rewrite Hx. pose proof (filter_length_le f l). lia.
  - specialize (IH Hx). destruct (f y); simpl; lia.
Qed.

(** C10. GET /cart answers with the cart of the user after dropping, in
    place, every line whose product is missing, is not active, or has a
    tracked stock below the quantity of the line; the answer holds the cart
    and nothing else.  The trimmed cart is the one stored afterwards, so the
    store has changed as soon as one line was dropped. *)
Theorem get_cart_trims (env : Env) (user : User) (s : Store) (cart : Cart.t) :
  carts s !! id user = Some cart →
  let r := Carts.get_cart env user s in
  ∃ cart',
    r.2 = Json 200 cart'
    ∧ carts r.1 !! id user = Some cart'
    ∧ Cart.items cart'
      = List.filter (Carts.validItem (products s)) (Cart.items cart)
    ∧ (∀ item, item ∈ Cart.items cart'
               ↔ item ∈ Cart.items cart ∧ ¬ Spec.unavailable (products s) item)
    ∧ Cart.couponCode cart' = Cart.couponCode cart
    ∧ Cart.discount cart' = Cart.discount cart
    ∧ products r.1 = products s
    ∧ orders r.1 = orders s
    ∧ ((∃ item, item ∈ Cart.items cart ∧ Spec.unavailable (products s) item) →
       (length (Cart.items cart') < length (Cart.items cart))%nat ∧ r.1 ≠ s).
Proof.
  intros Hcart. cbv zeta. unfold Carts.get_cart. rewrite Hcart.
  assert (∀ item,
            item ∈ List.filter (Carts.validItem (products s)) (Cart.items cart)
            ↔ item ∈ Cart.items cart ∧ ¬ Spec.unavailable (products s) item)
    as Hmem.
  { intros item. rewrite !list_elem_of_In, filter_In, <- validItem_false.
    by destruct (Carts.validItem (products s) item); intuition. }
  case_bool_decide as Hlen; simpl.
  - apply filter_same_length in Hlen as Hsame. rewrite Hsame in Hmem.
    exists cart. split_and!; try done.
    intros (item & Hin & Hun%validItem_false).
      pose proof (filter_drop_length _ _ _ Hin Hun) as Hlt.
      rewrite Hsame in Hlt. lia.
  - eexists. split_and!; try done.
    + by rewrite lookup_insert_eq.
    + intros (item & Hin & Hun%validItem_false).
      pose proof (filter_drop_length _ _ _ Hin Hun) as Hlt.
      split; [done|]. intros Heq.
      apply (f_equal (λ s, Cart.items <$> carts s !! id user)) in Heq.
      simpl in Heq. rewrite lookup_insert_eq, Hcart in Heq. simpl in Heq.
      injection Heq as Heq. rewrite Heq in Hlt. lia.
Qed.

(** With three widgets left, the line of six is dropped from Alice's cart. *)
Lemma get_cart_trims_witness :
  let r := Carts.get_cart Fixture.env Fixture.alice Fixture.scarce in
  Cart.items <$> carts Fixture.scarce !! 7%N
  = Some [CartItem.mk 900 100 6 [] (JS.num 20)]
  ∧ Cart.items <$> carts r.1 !! 7%N = Some []
  ∧ r.1 ≠ Fixture.scarce.
Proof.
  cbv zeta.
  edestruct (get_cart_trims Fixture.env Fixture.alice Fixture.scarce)
    as (cart' & _ & Hstored & Hitems & _ & _ & _ & _ & _ & Hchanged);
    [vm_compute; reflexivity|].
  split; [reflexivity|].
  change (id Fixture.alice) with 7%N in Hstored. rewrite Hstored. simpl.
  split; [by rewrite Hitems|].
  apply Hchanged. eexists. split; [apply list_elem_of_here|].
  apply validItem_false. reflexivity.
Defined.

(** ** Adding to the cart *)

(** C7, where the code fails.  Alice holds one line of six widgets without
    variants, and POST /cart/items is sent for the same widget.
    - With the quantity 3 as a JSON number the line is merged: nine
      widgets on one line.
    - With the quantity as the JSON string of the digit 3, which [isInt]
      accepts, the request is answered 200 and [+=] appends the string to
      the 6: one line of 63 widgets, not of 9.
    Alice holds two products of id ...ab, and the request names the
    product in upper case, ...AB, which [isMongoId] accepts and
    [findById] finds: the stored id, printed in lower case, differs from
    the string of the request, and a second line for the product is
    appended. *)
Theorem addItem_string_operands :
  let widget := Id.toString 100 in
  let quantities (r : Store * Response Cart.t) :=
    match r.2 with
    | Json 200 cart =>
        Some ((λ item, (CartItem.product item, CartItem.quantity item))
                <$> Cart.items cart)
    | _ => None
    end in
  widget = "000000000000000000000064"
  ∧ quantities (Carts.post_cart_items Fixture.env Fixture.alice widget
                                      (JS.Num 3) [] Fixture.shop)
    = Some [(100%N, 9%Z)]
  ∧ quantities (Carts.post_cart_items Fixture.env Fixture.alice widget
                                      (JS.Str "3") [] Fixture.shop)
    = Some [(100%N, 63%Z)]
  ∧ Id.toString 171 = "0000000000000000000000ab"
  ∧ quantities (Carts.post_cart_items Fixture.env Fixture.alice
                  "0000000000000000000000ab" (JS.Num 1) [] Fixture.lampShop)
    = Some [(171%N, 3%Z)]
  ∧ quantities (Carts.post_cart_items Fixture.env Fixture.alice
                  "0000000000000000000000AB" (JS.Num 1) [] Fixture.lampShop)
    = Some [(171%N, 2%Z); (171%N, 1%Z)].
Proof. cbv zeta. split_and!; vm_compute; reflexivity. Qed.

(** ** Worked examples *)

(** One line of three units captured at 20: the subtotal is 60, and with a
    stored discount of 6 the total is 54. *)
Example cart_subtotal_example :
  let c := Cart.mk [CartItem.mk 900 100 3 [] (JS.num 20)] (Some "SAVE10")
                   (JS.num 6) 0 in
  Cart.subtotal c = JS.num 60 ∧ Cart.total c = JS.num 54.
Proof. split; qc_compute. Qed.

(** A selection that repeats a choice is another selection than the one
    that makes the choice once: the length test of [addItem] keeps the two
    apart, and the call appends a line. *)
Example addItem_repeated_choice :
  let c := Cart.mk [CartItem.mk 901 100 1 [Fixture.sizeL] (JS.num 20)]
                   None 0 10 in
  length ∘ Cart.items
    <$> Cart.addItem (Id.toString 100) (JS.Num 1)
                     [Fixture.sizeL; Fixture.sizeL] (JS.num 20) 902 20 c
  = Some 2%nat.
Proof. vm_compute. reflexivity. Qed.

(** A fulfilled order is pulled back to [confirmed] by a late second
    confirm call, since [markAsPaid] sets the status whatever it was. *)
Example stripe_confirm_after_shipping :
  let shipped :=
    (Orders.put_orders_status Fixture.evenLater Fixture.admin 500 "shipped"
                              None Fixture.paid).1 in
  Order.status <$> orders shipped !! 500%N = Some "shipped"
  ∧ Order.status
      <$> orders (Payments.stripe_confirm Fixture.evenLater Fixture.alice
                    Fixture.stripe (Some "pi_1") shipped).1 !! 500%N
    = Some "confirmed".
Proof. split; vm_compute; reflexivity. Qed.

(** * Further properties of the handlers *)

(** ** What POST /orders answers *)

(** The loop over the cart lines goes through when every line can be
    ordered. *)
Lemma collectItems_orderable (ps : gmap N Product.t)
    (cartItems : list CartItem.t) (subtotal : Qc) (acc : list OrderItem.t) :
  Forall (λ item, ∃ product, ps !! CartItem.product item = Some product
                             ∧ Spec.orderable product item) cartItems →
  ∃ subtotal' orderItems,
    Orders.collectItems ps cartItems subtotal acc = inr (subtotal', orderItems).
Proof.
  intros Hall. revert subtotal acc.
  induction Hall as [|item rest (product & Hp & Hactive & Hstock) _ IH];
    intros subtotal acc; simpl; [by eexists _, _|].
  rewrite Hp. rewrite bool_decide_eq_true_2 by done. simpl.
  destruct (Inventory.trackQuantity (Product.inventory product)); simpl.
  - rewrite bool_decide_eq_false_2 by (specialize (Hstock eq_refl); lia).
    apply IH.
  - apply IH.
Qed.

(** POST /orders leaves the store as it is, whatever the request.  It
    answers 500 exactly for the requests it is written to accept: the body
    passes the validators, the user has a cart with at least one line, and
    every line names an active product whose tracked stock covers it.  Any
    other request is answered 400. *)
Theorem post_orders_answers (validateOrder : Orders.OrderRequest → bool)
    (env : Env) (user : User) (req : Orders.OrderRequest) (s : Store) :
  let r := Orders.post_orders validateOrder env user req s in
  let acceptable :=
    validateOrder req = true
    ∧ ∃ cart, carts s !! id user = Some cart
              ∧ Cart.items cart ≠ []
              ∧ ∀ item, item ∈ Cart.items cart →
                  ∃ product, products s !! CartItem.product item
                             = Some product
                             ∧ Spec.orderable product item in
  r.1 = s
  ∧ (r.2 = Error 500 ServerError ↔ acceptable)
  ∧ (¬ acceptable → ∃ message, r.2 = Error 400 message).
Proof.
  cbv zeta.
  assert (Orders.post_orders validateOrder env user req s
          = (s, Error 500 ServerError)
          ↔ validateOrder req = true
            ∧ ∃ cart, carts s !! id user = Some cart
                      ∧ Cart.items cart ≠ []
                      ∧ ∀ item, item ∈ Cart.items cart →
                          ∃ product, products s !! CartItem.product item
                                     = Some product
                                     ∧ Spec.orderable product item) as Hiff.
  { unfold Orders.post_orders. split.
    - destruct (validateOrder req); cbn [negb]; [|done].
      destruct (carts s !! id user) as [cart|] eqn:Hcart; [|done].
      case_bool_decide as Hlen; [done|].
      destruct (Orders.collectItems _ _ _ _) as [m|[subtotal orderItems]]
        eqn:Hloop; [done|].
      intros _. split; [done|]. exists cart. split_and!; [done| |].
      + by intros Hnil; rewrite Hnil in Hlen.
      + apply collectItems_inr in Hloop as (lines & _ & Hlines & _).
        intros item [i Hi]%list_elem_of_lookup.
        destruct (Forall2_lookup_l _ _ _ _ _ Hlines Hi)
          as (oi & _ & p & Hp & Hok & _).
        by exists p.
    - intros (-> & cart & -> & Hne & Hall). cbn [negb].
      rewrite bool_decide_eq_false_2 by (by destruct (Cart.items cart)).
      destruct (collectItems_orderable (products s) (Cart.items cart) 0 [])
        as (subtotal & orderItems & ->); [by apply list.Forall_forall|].
      by rewrite save_newOrder. }
  destruct (post_orders_refused validateOrder env user req s)
    as (code & message & Hrun & Hcode).
  rewrite Hrun in *. simpl. split_and!; [done| |].
  - rewrite <- Hiff. split; [by intros [= -> ->]|by intros [= -> ->]].
  - intros Hno. destruct Hcode as [->| ->]; [by exists message|].
    exfalso. apply Hno, Hiff.
    revert Hrun. unfold Orders.post_orders.
    repeat case_match; intros [= <-]; done.
Qed.

(** ** Cancelling twice *)

(** PUT /orders/:id/status has no test on the status the order has: setting
    a paid order to [cancelled] twice restores its lines twice. *)
Theorem put_orders_status_cancelled_twice (env env' : Env) (user : User)
    (orderId : ObjectId) (note note' : option string) (s : Store)
    (order : Order.t) :
  role user = "admin" →
  orders s !! orderId = Some order →
  Payment.status (Order.payment order) = "completed" →
  let once := (Orders.put_orders_status env user orderId "cancelled" note s).1 in
  let twice :=
    (Orders.put_orders_status env' user orderId "cancelled" note' once).1 in
  ∀ pid, Spec.stock (products twice) pid
         = (λ q, q + 2 * Spec.orderQuantity pid (Order.items order))%Z
           <$> Spec.stock (products s) pid.
Proof.
  intros Hadmin Horder Hpaid. cbv zeta.
  unfold Orders.put_orders_status.
  rewrite !(bool_decide_eq_true_2 (role user = "admin")) by done.
  rewrite Horder. simpl.
  rewrite !(bool_decide_eq_true_2 (Payment.status _ = "completed")) by done.
  simpl. rewrite lookup_insert_eq. simpl.
  rewrite !(bool_decide_eq_true_2 (Payment.status _ = "completed")) by done.
  simpl. intros pid. rewrite !stock_restoreInventory.
  destruct (Spec.stock (products s) pid); simpl; [|done]. f_equal. lia.
Qed.

(** The paid order of six widgets, cancelled twice by the admin: sixteen
    widgets in stock, where there were ten before the order. *)
Lemma put_orders_status_cancelled_twice_witness :
  Spec.stock
    (products
       (Orders.put_orders_status Fixture.evenLater Fixture.admin 500
          "cancelled" None
          (Orders.put_orders_status Fixture.evenLater Fixture.admin 500
             "cancelled" None Fixture.paid).1).1) 100
  = Some 16%Z.
Proof.
  pose proof (λ o Ho Hp,
                put_orders_status_cancelled_twice Fixture.evenLater
                  Fixture.evenLater Fixture.admin 500 None None Fixture.paid o
                  eq_refl Ho Hp 100%N) as Htwice.
  cbv zeta in Htwice.
  erewrite Htwice; cycle 1;
    [vm_compute; reflexivity | reflexivity | vm_compute; reflexivity].
Defined.

(** ** What a request can change *)

Ltac unfold_handlers :=
  unfold Api.handle, Api.ofResponse, Api.ofReply,
    Carts.get_cart, Carts.post_cart_items, Cart.addItem,
    Carts.post_cart_validate,
    CartLines.put_cart_item, CartLines.delete_cart_item, CartLines.delete_cart,
    CartLines.get_cart_count, Coupons.apply_coupon, Coupons.delete_coupon,
    Orders.post_orders, OrderQueries.get_order, Orders.put_orders_status,
    Orders.post_orders_cancel, Intents.create_intent, Payments.stripe_confirm,
    Payments.stripe_webhook, Payments.refund, Products.put_products_price.

(** Takes the tests of a handler apart, one branch per path. *)
Ltac handler_paths := repeat (case_match; simpl in *; simplify_eq).

Lemma laterOf_refl (o : Order.t) : Spec2.laterOf o o.
Proof. by repeat split. Qed.

Lemma laterOf_updateStatus (newStatus note : string)
    (updatedBy : option ObjectId) (now : Z) (o o' : Order.t) :
  Spec2.laterOf o o' →
  Spec2.laterOf o (Order.updateStatus newStatus note updatedBy now o').
Proof.
  intros (? & ? & ? & ? & ? & ?). repeat split; simpl; try done.
  by apply prefix_app_r.
Qed.

Lemma laterOf_set_payment (p : Payment.t) (o o' : Order.t) :
  Spec2.laterOf o o' → Spec2.laterOf o (Order.set_payment p o').
Proof. intros (? & ? & ? & ? & ? & ?). by repeat split. Qed.

Lemma laterOf_set_actualDelivery (d : option Z) (o o' : Order.t) :
  Spec2.laterOf o o' → Spec2.laterOf o (Order.set_actualDelivery d o').
Proof. intros (? & ? & ? & ? & ? & ?). by repeat split. Qed.

Lemma laterOf_trans (o1 o2 o3 : Order.t) :
  Spec2.laterOf o1 o2 → Spec2.laterOf o2 o3 → Spec2.laterOf o1 o3.
Proof.
  intros (? & ? & ? & ? & ? & ?) (? & ? & ? & ? & ? & ?).
  repeat split; try congruence. by etrans.
Qed.

Lemma statusRecorded_updateStatus (newStatus note : string)
    (updatedBy : option ObjectId) (now : Z) (o : Order.t) :
  Spec2.statusRecorded (Order.updateStatus newStatus note updatedBy now o).
Proof. unfold Spec2.statusRecorded. simpl. by rewrite last_snoc. Qed.

Lemma statusRecorded_set_payment (p : Payment.t) (o : Order.t) :
  Spec2.statusRecorded o → Spec2.statusRecorded (Order.set_payment p o).
Proof. done. Qed.

Lemma statusRecorded_set_actualDelivery (d : option Z) (o : Order.t) :
  Spec2.statusRecorded o → Spec2.statusRecorded (Order.set_actualDelivery d o).
Proof. done. Qed.

Lemma laterOf_markAsPaid (transactionId paymentMethod : string) (now : Z)
    (o o' : Order.t) :
  Spec2.laterOf o o' →
  Spec2.laterOf o (Order.markAsPaid transactionId paymentMethod now o').
Proof.
  intros H. unfold Order.markAsPaid.
  by apply laterOf_updateStatus, laterOf_set_payment.
Qed.

Lemma laterOf_markFailed (now : Z) (o o' : Order.t) :
  Spec2.laterOf o o' → Spec2.laterOf o (Payments.markFailed now o').
Proof.
  intros H. unfold Payments.markFailed.
  by apply laterOf_updateStatus, laterOf_set_payment.
Qed.

Lemma statusRecorded_markAsPaid (transactionId paymentMethod : string)
    (now : Z) (o : Order.t) :
  Spec2.statusRecorded (Order.markAsPaid transactionId paymentMethod now o).
Proof. apply statusRecorded_updateStatus. Qed.

Lemma statusRecorded_markFailed (now : Z) (o : Order.t) :
  Spec2.statusRecorded (Payments.markFailed now o).
Proof. apply statusRecorded_updateStatus. Qed.

Create HintDb orders.

#[local] Hint Resolve laterOf_refl laterOf_updateStatus laterOf_set_payment
  laterOf_set_actualDelivery laterOf_markAsPaid laterOf_markFailed
  statusRecorded_updateStatus statusRecorded_set_payment
  statusRecorded_set_actualDelivery statusRecorded_markAsPaid
  statusRecorded_markFailed : orders.

(** Every handler leaves the orders collection as it is or stores a later
    state of one order the caller may touch. *)
Lemma handle_orders_cases (services : Api.Services) (env : Env)
    (r : Api.Request) (s : Store) :
  orders (Api.handle services env r s).1 = orders s
  ∨ (∃ oid o o',
       orders s !! oid = Some o
       ∧ orders (Api.handle services env r s).1 = <[oid := o']> (orders s)
       ∧ Spec2.laterOf o o'
       ∧ (Spec2.statusRecorded o → Spec2.statusRecorded o')
       ∧ ∀ user, Api.caller r = Some user →
                 role user = "admin" ∨ Order.user o = id user).
Proof.
  destruct r.
  all: try (left; cbn [Api.handle]; unfold Api.ofResponse;
            match goal with
            | |- context [Orders.post_orders ?v ?e ?u ?q ?s] =>
                destruct (post_orders_refused v e u q s) as (? & ? & -> & _)
            end; done).
  all: unfold_handlers; unfold Orders.findOwnOrder; simpl.
  all: handler_paths; try (by left).
  all: right; eexists _, _, _.
  all: split_and!;
    [ eassumption | reflexivity | auto 6 with orders
    | intros; auto 6 with orders | ].
  all: intros ? [= <-].
  all: repeat match goal with
         | H : negb _ = false |- _ => apply negb_false_iff in H
         | H : negb _ && negb _ = false |- _ =>
             apply andb_false_iff in H as [H|H]
         | H : bool_decide _ = true |- _ => apply bool_decide_eq_true in H
         end; auto.
Qed.

(** In every run of requests an order, once stored, stays stored, and what
    is stored later under its [_id] has the same owner, order number, lines,
    pricing and coupon code and a status history that extends the one it
    had: no handler deletes an order, reprices it or rewrites its history. *)
Theorem orders_append_only (services : Api.Services) (s s' : Store) :
  Api.reaches services s s' →
  ∀ oid o, orders s !! oid = Some o →
           ∃ o', orders s' !! oid = Some o' ∧ Spec2.laterOf o o'.
Proof.
  induction 1 as [|env r s1 _ IH Hfresh]; intros oid o Ho.
  - exists o. split; [done|apply laterOf_refl].
  - destruct (IH oid o Ho) as (o1 & Ho1 & Hlater).
    destruct (handle_orders_cases services env r s1)
      as [->|(oid' & o2 & o' & Ho2 & -> & Hlater' & _)].
    + by exists o1.
    + destruct (decide (oid' = oid)) as [->|Hne].
      * exists o'. rewrite lookup_insert_eq. split; [done|].
        assert (o2 = o1) as -> by congruence. by eapply laterOf_trans.
      * exists o1. by rewrite lookup_insert_ne.
Qed.

(** Alice's order, shipped by the admin and then paid. *)
Lemma orders_append_only_witness :
  ∃ o o',
    orders Fixture.ordered !! 500%N = Some o
    ∧ orders
        (Api.handle Fixture2.services Fixture.evenLater
           (Api.ConfirmPayment Fixture.alice (Some "pi_1"))
           (Api.handle Fixture2.services Fixture.later
              (Api.PutOrderStatus Fixture.admin 500 "shipped" None)
              Fixture.ordered).1).1 !! 500%N
      = Some o'
    ∧ Spec2.laterOf o o'.
Proof.
  assert (∃ o, orders Fixture.ordered !! 500%N = Some o) as [o Ho]
    by (eexists; vm_compute; reflexivity).
  edestruct (orders_append_only Fixture2.services Fixture.ordered)
    as (o' & Ho' & Hlater); [|exact Ho|by exists o, o'].
  apply Api.reaches_step; [|vm_compute; reflexivity].
  apply Api.reaches_step; [apply Api.reaches_here|vm_compute; reflexivity].
Defined.

(** In every run of requests that starts from orders whose status is the
    one of their last history entry (pending when there is none), every
    stored order is such: each change of status is written to the history. *)
Theorem status_recorded_invariant (services : Api.Services) (s s' : Store) :
  Api.reaches services s s' →
  (∀ oid o, orders s !! oid = Some o → Spec2.statusRecorded o) →
  ∀ oid o, orders s' !! oid = Some o → Spec2.statusRecorded o.
Proof.
  induction 1 as [|env r s1 _ IH Hfresh]; intros Hs oid o; [by apply Hs|].
  specialize (IH Hs).
  destruct (handle_orders_cases services env r s1)
    as [->|(oid' & o2 & o' & Ho2 & -> & _ & Hrecorded & _)].
  - apply IH.
  - destruct (decide (oid' = oid)) as [->|Hne].
    + rewrite lookup_insert_eq. intros [= <-]. by eapply Hrecorded, IH.
    + rewrite lookup_insert_ne by done. apply IH.
Qed.

(** From the store that holds Alice's unpaid order: she pays. *)
Lemma status_recorded_invariant_witness :
  ∃ o, orders Fixture.paid !! 500%N = Some o
       ∧ Order.status o = "confirmed"
       ∧ Spec2.statusRecorded o.
Proof.
  eexists. split; [vm_compute; reflexivity|]. split; [reflexivity|].
  eapply (λ H1 H2, status_recorded_invariant Fixture2.services Fixture.ordered
                     Fixture.paid H1 H2 500%N).
  - change Fixture.paid
      with (Api.handle Fixture2.services Fixture.later
              (Api.ConfirmPayment Fixture.alice (Some "pi_1"))
              Fixture.ordered).1.
    apply Api.reaches_step; [apply Api.reaches_here|vm_compute; reflexivity].
  - unfold Fixture.ordered. cbn [orders].
    intros oid o [<- <-]%lookup_singleton_Some. reflexivity.
  - vm_compute. reflexivity.
Defined.

(** A request of a user who is not an admin leaves the orders of the other
    users as they are. *)
Theorem others_orders_untouched (services : Api.Services) (env : Env)
    (r : Api.Request) (s : Store) (user : User) (oid : ObjectId)
    (o : Order.t) :
  Api.caller r = Some user →
  role user ≠ "admin" →
  orders s !! newId env = None →
  orders s !! oid = Some o →
  Order.user o ≠ id user →
  orders (Api.handle services env r s).1 !! oid = Some o.
Proof.
  intros Hcaller Hrole Hfresh Ho Hother.
  destruct (handle_orders_cases services env r s)
    as [->|(oid' & o2 & o' & Ho2 & -> & _ & _ & Haccess)]; [done|].
  destruct (decide (oid' = oid)) as [->|Hne].
  - assert (o2 = o) as -> by congruence.
    destruct (Haccess user Hcaller); done.
  - by rewrite lookup_insert_ne.
Qed.

(** Bob cannot cancel or pay Alice's order. *)
Lemma others_orders_untouched_witness :
  orders (Api.handle Fixture2.services Fixture.later
            (Api.CancelOrder Fixture2.bob 500 None) Fixture.ordered).1 !! 500%N
  = orders Fixture.ordered !! 500%N
  ∧ orders (Api.handle Fixture2.services Fixture.later
              (Api.ConfirmPayment Fixture2.bob (Some "pi_1")) Fixture.ordered).1
           !! 500%N
    = orders Fixture.ordered !! 500%N.
Proof.
  assert (∃ o, orders Fixture.ordered !! 500%N = Some o
               ∧ Order.user o = 7%N) as (o & Ho & Howner)
    by (eexists; split; vm_compute; reflexivity).
  rewrite Ho.
  split; apply (others_orders_untouched _ _ _ _ Fixture2.bob);
    try reflexivity; try done; try (vm_compute; discriminate).
  all: rewrite Howner; vm_compute; discriminate.
Defined.

(** A handler writes at most one cart, the one of the caller. *)
Lemma handle_carts_cases (services : Api.Services) (env : Env)
    (r : Api.Request) (s : Store) :
  carts (Api.handle services env r s).1 = carts s
  ∨ ∃ user cart',
      Api.caller r = Some user
      ∧ carts (Api.handle services env r s).1 = <[id user := cart']> (carts s).
Proof.
  destruct r; unfold_handlers; unfold Orders.findOwnOrder; simpl.
  all: handler_paths; try (by left).
  all: right; eexists _, _; split; reflexivity.
Qed.

(** No request changes, creates or removes the cart of a user other than
    its caller; the webhook, which has no caller, touches no cart. *)
Theorem others_carts_untouched (services : Api.Services) (env : Env)
    (r : Api.Request) (s : Store) (owner : ObjectId) :
  (∀ user, Api.caller r = Some user → id user ≠ owner) →
  carts (Api.handle services env r s).1 !! owner = carts s !! owner.
Proof.
  intros Hother.
  destruct (handle_carts_cases services env r s)
    as [->|(user & cart' & Hcaller & ->)]; [done|].
  rewrite lookup_insert_ne; [done|]. by apply Hother.
Qed.

(** Bob's requests leave Alice's cart of six widgets alone. *)
Lemma others_carts_untouched_witness :
  carts (Api.handle Fixture2.services Fixture.env
           (Api.DeleteCart Fixture2.bob) Fixture.shop).1 !! 7%N
  = carts Fixture.shop !! 7%N
  ∧ carts (Api.handle Fixture2.services Fixture.env
             (Api.PostCartItems Fixture2.bob (Id.toString 100) (JS.Num 2) [])
             Fixture.shop).1 !! 7%N
    = carts Fixture.shop !! 7%N.
Proof.
  split; apply others_carts_untouched; intros user [= <-]; vm_compute;
    discriminate.
Defined.

(** Only four requests write to the products collection: creating an
    order, changing the status of an order, cancelling an order and
    repricing a product.  Reading, filling, trimming, validating or emptying
    a cart, coupons, and every payment request (intent, confirm, webhook,
    refund) leave every product, its stock included, as it is. *)
Theorem products_written_by (services : Api.Services) (env : Env)
    (r : Api.Request) (s : Store) :
  products (Api.handle services env r s).1 ≠ products s →
  (∃ user req, r = Api.PostOrders user req)
  ∨ (∃ user orderId status note,
       r = Api.PutOrderStatus user orderId status note)
  ∨ (∃ user orderId reason, r = Api.CancelOrder user orderId reason)
  ∨ (∃ user productId price, r = Api.PutProductPrice user productId price).
Proof.
  destruct r; try (by eauto 10).
  all: intros Hchanged; exfalso; apply Hchanged; clear Hchanged.
  all: unfold_handlers; simpl; handler_paths; done.
Qed.

(** Alice's cancel of her paid order changes the stock of the widget. *)
Lemma products_written_by_witness :
  ∃ user orderId reason,
    Api.CancelOrder Fixture.alice 500 None
    = Api.CancelOrder user orderId reason.
Proof.
  destruct (products_written_by Fixture2.services Fixture.evenLater
              (Api.CancelOrder Fixture.alice 500 None) Fixture.paid)
    as [(? & ? & [=])|[(? & ? & ? & ? & [=])|[H|(? & ? & ? & [=])]]];
    [|exact H].
  intros Heq. apply (f_equal (λ ps, Spec.stock ps 100%N)) in Heq.
  vm_compute in Heq. discriminate Heq.
Defined.

(** A request that is refused changes nothing, with one exception: the
    confirm call answers 400 for a payment that did not succeed after it
    has stored the order as failed. *)
Theorem refused_changes_nothing (services : Api.Services) (env : Env)
    (r : Api.Request) (s : Store) (code : Z) :
  (Api.handle services env r s).2 = Api.Rejected code →
  (Api.handle services env r s).1 = s
  ∨ ∃ user paymentIntentId paymentIntent order,
      r = Api.ConfirmPayment user (Some paymentIntentId)
      ∧ Api.retrieve services paymentIntentId = Some paymentIntent
      ∧ PaymentIntent.status paymentIntent ≠ "succeeded"
      ∧ orders s !! PaymentIntent.orderId paymentIntent = Some order
      ∧ (Api.handle services env r s).1
        = set_order (PaymentIntent.orderId paymentIntent)
                    (Payments.markFailed (now env) order) s.
Proof.
  destruct r; unfold_handlers; unfold Orders.findOwnOrder; simpl.
  all: handler_paths; try (by left).
  all: intros _; right; eexists _, _, _, _; split_and!; try done.
  all: match goal with
       | H : bool_decide _ = false |- _ ≠ _ =>
           by apply bool_decide_eq_false in H
       end.
Qed.

(** Bob's cancel of Alice's order is answered 404 and changes nothing. *)
Lemma refused_changes_nothing_witness :
  (Api.handle Fixture2.services Fixture.later
     (Api.CancelOrder Fixture2.bob 500 None) Fixture.ordered).1
  = Fixture.ordered.
Proof.
  destruct (refused_changes_nothing Fixture2.services Fixture.later
              (Api.CancelOrder Fixture2.bob 500 None) Fixture.ordered 404)
    as [H|(? & ? & ? & ? & [=] & _)]; [vm_compute; reflexivity|exact H].
Defined.

(** ** Coupons *)

Lemma Math_round_rounded2 (x : Qc) :
  Spec.rounded2 x (JS.Math_round (x * JS.num 100) / JS.num 100).
Proof.
  unfold Spec.rounded2.
  destruct (Math_round_bounds (x * JS.num 100)) as (k & -> & Hlo & Hhi).
  split; [by exists k|].
  qc_unfold. change (/ 100)%Q with (1 # 100)%Q. split; lra.
Qed.

Lemma Math_min_l (a b : Qc) : a <= b → JS.Math_min a b = a.
Proof.
  intros Hab. unfold JS.Math_min. case_decide as Hlt; [|done].
  by apply Qclt_not_le in Hlt.
Qed.

Lemma Math_max_r (a b : Qc) : a <= b → JS.Math_max a b = b.
Proof.
  intros Hab. unfold JS.Math_max. case_decide as Hlt; [done|].
  apply Qcnot_lt_le in Hlt. by apply Qcle_antisym.
Qed.

(** The three coupons of the table. *)
Lemma demoCoupons_cases (code : string) (coupon : Coupon.t) :
  Coupons.property Coupons.demoCoupons code = Some coupon →
  (code = "SAVE10"
   ∧ coupon = Coupon.mk "percentage" (JS.num 10) (JS.num 50))
  ∨ (code = "SAVE20"
     ∧ coupon = Coupon.mk "percentage" (JS.num 20) (JS.num 100))
  ∨ (code = "FREESHIP"
     ∧ coupon = Coupon.mk "fixed" (JS.num 15) (JS.num 30)).
Proof.
  unfold Coupons.demoCoupons. simpl.
  repeat case_bool_decide; intros [= <-]; subst; auto.
Qed.

(** The amount of a discount, by coupon, for a rounding that stays within
    half a cent. *)
Lemma discount_amount (roundCents : Qc → Qc) (coupon : Coupon.t)
    (subtotal : Qc) :
  (∀ x, Spec2.nearCents x (roundCents x)) →
  let discountAmount :=
    JS.Math_min
      (if bool_decide (Coupon.type coupon = "percentage") then
         roundCents (subtotal * Coupon.value coupon / JS.num 100)
       else Coupon.value coupon) subtotal in
  Coupon.minAmount coupon <= subtotal →
  (coupon = Coupon.mk "percentage" (JS.num 10) (JS.num 50)
   → Spec2.nearCents (subtotal * JS.num 0.10) discountAmount)
  ∧ (coupon = Coupon.mk "percentage" (JS.num 20) (JS.num 100)
     → Spec2.nearCents (subtotal * JS.num 0.20) discountAmount)
  ∧ (coupon = Coupon.mk "fixed" (JS.num 15) (JS.num 30)
     → discountAmount = JS.num 15).
Proof.
  intros Hnear. cbv zeta. intros Hmin. split_and!; intros ->; simpl in *.
  - pose proof (Hnear (subtotal * JS.num 10 / JS.num 100)) as Hround.
    rewrite Math_min_l.
    + replace (subtotal * JS.num 0.10)
        with (subtotal * JS.num 10 / JS.num 100); [done|].
      apply Qc_is_canon. qc_unfold. change (/ 100)%Q with (1 # 100)%Q.
      lra.
    + destruct Hround as (_ & _ & Hhi). revert Hhi Hmin.
      generalize (roundCents (subtotal * JS.num 10 / JS.num 100)).
      intros d Hhi Hmin. qc_unfold. change (/ 100)%Q with (1 # 100)%Q in *.
      lra.
  - pose proof (Hnear (subtotal * JS.num 20 / JS.num 100)) as Hround.
    rewrite Math_min_l.
    + replace (subtotal * JS.num 0.20)
        with (subtotal * JS.num 20 / JS.num 100); [done|].
      apply Qc_is_canon. qc_unfold. change (/ 100)%Q with (1 # 100)%Q.
      lra.
    + destruct Hround as (_ & _ & Hhi). revert Hhi Hmin.
      generalize (roundCents (subtotal * JS.num 20 / JS.num 100)).
      intros d Hhi Hmin. qc_unfold. change (/ 100)%Q with (1 # 100)%Q in *.
      lra.
  - apply Math_min_l. qc_unfold. lra.
Qed.

(** POST /cart/apply-coupon, when it accepts, for a rounding to cents that
    stays within half a cent of the exact amount: the code is one of the
    three of the table once put in upper case, the subtotal reaches the
    minimum of the coupon, and the stored discount is a whole number of
    cents at most half a cent away from 10% or 20% of the subtotal, or is
    15.  The discount is positive and below the subtotal (the cap at the
    subtotal never applies), so the total of the cart is subtotal −
    discount; the lines are not changed. *)
Theorem apply_coupon_discount (toUpperCase : string → string)
    (roundCents : Qc → Qc) (env : Env)
    (user : User) (couponCode : option string) (s s' : Store) (code : Z)
    (body : Coupons.Applied) (cart : Cart.t) :
  (∀ x, Spec2.nearCents x (roundCents x)) →
  carts s !! id user = Some cart →
  Coupons.apply_coupon toUpperCase roundCents env user couponCode s
  = (s', Sent code body) →
  let subtotal := Cart.subtotal cart in
  let cart' := Coupons.cart body in
  let discount := Cart.discount cart' in
  carts s' !! id user = Some cart'
  ∧ Cart.items cart' = Cart.items cart
  ∧ Cart.couponCode cart' = toUpperCase <$> couponCode
  ∧ ((Cart.couponCode cart' = Some "SAVE10" ∧ JS.num 50 <= subtotal
      ∧ Spec2.nearCents (subtotal * JS.num 0.10) discount)
     ∨ (Cart.couponCode cart' = Some "SAVE20" ∧ JS.num 100 <= subtotal
        ∧ Spec2.nearCents (subtotal * JS.num 0.20) discount)
     ∨ (Cart.couponCode cart' = Some "FREESHIP" ∧ JS.num 30 <= subtotal
        ∧ discount = JS.num 15))
  ∧ 0 < discount ∧ discount < subtotal
  ∧ Cart.total cart' = subtotal - discount.
Proof.
  intros Hnear Hcart. unfold Coupons.apply_coupon.
  destruct couponCode as [c|]; [|done].
  case_bool_decide; [done|]. rewrite Hcart.
  case_bool_decide; [done|].
  destruct (Coupons.property _ _) as [coupon|] eqn:Hcoupon; [|done].
  case_decide as Hmin; [done|]. apply Qcnot_lt_le in Hmin.
  intros [= <- <- <-]. cbv zeta. simpl.
  rewrite lookup_insert_eq.
  pose proof (discount_amount roundCents coupon (Cart.subtotal cart) Hnear Hmin)
    as (H10 & H20 & H15).
  cbv zeta in H10, H20, H15.
  set (d := JS.Math_min _ _) in *.
  assert (Cart.subtotal
            (Cart.applyCoupon (toUpperCase c) d (now env) cart)
          = Cart.subtotal cart) as Hsub by done.
  unfold Cart.total. rewrite Hsub. simpl. clearbody d.
  set (sub := Cart.subtotal cart) in *. clearbody sub.
  assert (0 < d ∧ d < sub) as [Hpos Hcap].
  { apply demoCoupons_cases in Hcoupon as [[_ ->]|[[_ ->]|[_ ->]]];
      simpl in Hmin.
    - destruct (H10 eq_refl) as (_ & Hlo & Hhi). qc_unfold. split; lra.
    - destruct (H20 eq_refl) as (_ & Hlo & Hhi). qc_unfold. split; lra.
    - rewrite (H15 eq_refl). qc_unfold. split; lra. }
  split_and!; try done.
  - apply demoCoupons_cases in Hcoupon as [[-> ->]|[[-> ->]|[-> ->]]];
      simpl in Hmin; [left|right; left|right; right]; auto.
  - apply Math_max_r. qc_unfold. lra.
Qed.

(** The rounding of the examples stays within half a cent. *)
Lemma roundCents_nearCents (x : Qc) : Spec2.nearCents x (Fixture.roundCents x).
Proof.
  destruct (Math_round_rounded2 x) as (Hk & Hlo & Hhi).
  split; [done|]. split; [|done]. by apply Qclt_le_weak.
Qed.

(** One line of three units at 20 and the code [save10]: the discount is 6
    and the total 54. *)
Lemma apply_coupon_discount_witness :
  ∃ s' body,
    Coupons.apply_coupon (Api.toUpperCase Fixture2.services)
      Fixture.roundCents Fixture.env
      Fixture.alice (Some "save10")
      (mkStore ∅ {[ 7%N := Cart.mk [CartItem.mk 900 100 3 [] (JS.num 20)]
                                 None 0 0 ]} ∅)
    = (s', Sent 200 body)
    ∧ Cart.couponCode (Coupons.cart body) = Some "SAVE10"
    ∧ Cart.discount (Coupons.cart body) = JS.num 6
    ∧ Cart.total (Coupons.cart body) = JS.num 54.
Proof.
  eexists _, _.
  assert (Coupons.apply_coupon (Api.toUpperCase Fixture2.services)
            Fixture.roundCents Fixture.env
            Fixture.alice (Some "save10")
            (mkStore ∅ {[ 7%N := Cart.mk [CartItem.mk 900 100 3 []
                                            (JS.num 20)] None 0 0 ]} ∅)
          = (_, Sent 200 _)) as Hrun by (vm_compute; reflexivity).
  split; [exact Hrun|].
  eapply apply_coupon_discount in Hrun
    as (_ & _ & Hcode & _ & _ & _ & Htotal);
    [|apply roundCents_nearCents|vm_compute; reflexivity].
  split; [exact Hcode|]. split; [qc_compute|].
  rewrite Htotal. qc_compute.
Defined.

(** ** Payments *)

(** POST /payment/refund by an admin succeeds exactly when the payment of
    the order is completed.  It then stores the payment as refunded and the
    order as returned, with one more history entry; a second refund of the
    order is answered 400 and changes nothing. *)
Theorem refund_once (env env' : Env) (user : User) (orderId : ObjectId)
    (reason reason' : option string) (s : Store) (order : Order.t) :
  role user = "admin" →
  orders s !! orderId = Some order →
  let r := Payments.refund env user (Some orderId) reason s in
  ((∃ code body, r.2 = Json code body)
   ↔ Payment.status (Order.payment order) = "completed")
  ∧ (Payment.status (Order.payment order) ≠ "completed" →
     r = (s, Error 400 PaymentNotCompleted))
  ∧ (Payment.status (Order.payment order) = "completed" →
     ∃ order',
       orders r.1 !! orderId = Some order'
       ∧ r.2 = Json 200 order'
       ∧ Payment.status (Order.payment order') = "refunded"
       ∧ Order.status order' = "returned"
       ∧ length (Order.statusHistory order')
         = S (length (Order.statusHistory order))
       ∧ Payments.refund env' user (Some orderId) reason' r.1
         = (r.1, Error 400 PaymentNotCompleted)).
Proof.
  intros Hadmin Horder. cbv zeta. unfold Payments.refund.
  rewrite !(bool_decide_eq_true_2 (role user = "admin")) by done.
  rewrite Horder. simpl.
  destruct (decide (Payment.status (Order.payment order) = "completed"))
    as [Hpaid|Hpaid].
  - rewrite (bool_decide_eq_true_2 _ Hpaid). simpl. split_and!.
    + split; [done|]. intros _. by eexists _, _.
    + done.
    + intros _. eexists. rewrite lookup_insert_eq. split_and!; try done.
      simpl. rewrite length_app. simpl. lia.
  - rewrite (bool_decide_eq_false_2 _ Hpaid). simpl. split_and!; try done.
    split; [by intros (? & ? & ?)|done].
Qed.

(** The admin refunds Alice's paid order, and tries again. *)
Lemma refund_once_witness :
  let r := Payments.refund Fixture.evenLater Fixture.admin (Some 500%N) None
                           Fixture.paid in
  Payment.status ∘ Order.payment <$> orders r.1 !! 500%N = Some "refunded"
  ∧ Payments.refund Fixture.evenLater Fixture.admin (Some 500%N) None r.1
    = (r.1, Error 400 PaymentNotCompleted).
Proof.
  cbv zeta.
  edestruct (refund_once Fixture.evenLater Fixture.evenLater Fixture.admin 500
               None None Fixture.paid)
    as (_ & _ & Hok); [reflexivity | vm_compute; reflexivity |].
  destruct Hok as (order' & Hstored & _ & Hstatus & _ & _ & Hsecond);
    [reflexivity|].
  split; [|exact Hsecond]. rewrite Hstored. simpl. by rewrite Hstatus.
Defined.

(** What a created payment intent leaves in the store. *)
Lemma create_intent_inv (create : IntentParams.t → CreatedIntent.t)
    (user : User) (orderId : option ObjectId) (s s' : Store) (code : Z)
    (body : Intents.Secret) :
  Intents.create_intent create user orderId s = (s', Sent code body) →
  ∃ oid order params,
    orderId = Some oid
    ∧ orders s !! oid = Some order
    ∧ (role user = "admin" ∨ Order.user order = id user)
    ∧ Payment.status (Order.payment order) ≠ "completed"
    ∧ Order.status order ≠ "cancelled"
    ∧ params = IntentParams.mk
                 (JS.Math_round (Pricing.total (Order.pricing order)
                                 * JS.num 100))
                 "usd" oid (id user) ("Order " +:+ Order.orderNumber order)
    ∧ body = Intents.mkSecret (CreatedIntent.client_secret (create params))
                              (CreatedIntent.id (create params))
    ∧ s' = set_order oid
             (Order.set_payment
                (Payment.mk (Payment.method (Order.payment order)) "processing"
                   (Payment.transactionId (Order.payment order))
                   (Payment.paidAt (Order.payment order))
                   (Some (CreatedIntent.id (create params)))) order) s.
Proof.
  unfold Intents.create_intent.
  destruct orderId as [oid|]; [|done].
  destruct (orders s !! oid) as [order|] eqn:Horder; [|done].
  destruct (negb _ && negb _) eqn:Haccess; [done|].
  destruct (bool_decide (Payment.status _ = "completed")) eqn:Hpaid; [done|].
  destruct (bool_decide (Order.status order = "cancelled")) eqn:Hcancelled;
    [done|].
  intros [= <- <- <-]. eexists oid, order, _.
  apply bool_decide_eq_false in Hpaid, Hcancelled.
  split_and!; try done.
  apply andb_false_iff in Haccess as [Ha|Ha]; apply negb_false_iff in Ha;
    apply bool_decide_eq_true in Ha; [by left|by right].
Qed.

(** The amount given to Stripe is a whole number of cents, at most half a
    cent away from the total of the order; an order priced in whole cents is
    charged its total. *)
Lemma Math_round_cents (total : Qc) :
  ∃ cents : Z,
    JS.Math_round (total * JS.num 100) = JS.ofZ cents
    ∧ total - JS.num (1 # 200) < JS.ofZ cents / JS.num 100
    ∧ JS.ofZ cents / JS.num 100 <= total + JS.num (1 # 200)
    ∧ ∀ k : Z, total = JS.ofZ k / JS.num 100 → cents = k.
Proof.
  destruct (Math_round_bounds (total * JS.num 100)) as (k & Hk & Hlo & Hhi).
  exists k. split; [done|].
  split_and!.
  - qc_unfold. change (/ 100)%Q with (1 # 100)%Q. lra.
  - qc_unfold. change (/ 100)%Q with (1 # 100)%Q. lra.
  - intros k' ->. clear Hk.
    assert (inject_Z k' - (1 # 2) < inject_Z k
            ∧ inject_Z k <= inject_Z k' + (1 # 2))%Q as [H1 H2].
    { qc_unfold. change (/ 100)%Q with (1 # 100)%Q in *. split; lra. }
    assert (inject_Z k' < inject_Z (k + 1))%Q as H3.
    { rewrite inject_Z_plus. change (inject_Z 1) with 1%Q. lra. }
    assert (inject_Z k < inject_Z (k' + 1))%Q as H4.
    { rewrite inject_Z_plus. change (inject_Z 1) with 1%Q. lra. }
    rewrite <- Zlt_Qlt in H3, H4. lia.
Qed.

(** POST /payment/stripe/create-intent, when it accepts, asks Stripe for
    the total of the order in whole cents (rounded to the nearest cent; the
    total itself when it is in whole cents), stores the id of the intent on
    the order and sets its payment to processing; the fulfilment status, the
    history, the lines and the pricing of the order are not changed.  An
    order that is paid or cancelled is refused and left as it is. *)
Theorem create_intent_amount (create : IntentParams.t → CreatedIntent.t)
    (user : User) (orderId : ObjectId) (s : Store) (order : Order.t) :
  orders s !! orderId = Some order →
  role user = "admin" ∨ Order.user order = id user →
  let r := Intents.create_intent create user (Some orderId) s in
  let total := Pricing.total (Order.pricing order) in
  (Payment.status (Order.payment order) = "completed" →
   r = (s, Refused 400 OrderAlreadyPaid))
  ∧ (Payment.status (Order.payment order) ≠ "completed" →
     Order.status order = "cancelled" →
     r = (s, Refused 400 OrderIsCancelled))
  ∧ (Payment.status (Order.payment order) ≠ "completed" →
     Order.status order ≠ "cancelled" →
     ∃ order' cents,
       let created :=
         create (IntentParams.mk (JS.ofZ cents) "usd" orderId (id user)
                                 ("Order " +:+ Order.orderNumber order)) in
       r.2 = Sent 200 (Intents.mkSecret (CreatedIntent.client_secret created)
                                        (CreatedIntent.id created))
       ∧ total - JS.num (1 # 200) < JS.ofZ cents / JS.num 100
       ∧ JS.ofZ cents / JS.num 100 <= total + JS.num (1 # 200)
       ∧ (∀ k : Z, total = JS.ofZ k / JS.num 100 → cents = k)
       ∧ orders r.1 !! orderId = Some order'
       ∧ Payment.status (Order.payment order') = "processing"
       ∧ Payment.paymentIntentId (Order.payment order')
         = Some (CreatedIntent.id created)
       ∧ Order.status order' = Order.status order
       ∧ Spec2.laterOf order order'
       ∧ Order.statusHistory order' = Order.statusHistory order).
Proof.
  intros Horder Haccess. cbv zeta. unfold Intents.create_intent.
  rewrite Horder.
  assert (negb (bool_decide (role user = "admin"))
          && negb (bool_decide (Order.user order = id user)) = false) as ->.
  { destruct Haccess as [Ha|Ha]; rewrite (bool_decide_eq_true_2 _ Ha); simpl;
      [done|apply andb_false_r]. }
  split_and!.
  - intros Hpaid. by rewrite (bool_decide_eq_true_2 _ Hpaid).
  - intros Hpaid Hcancelled. rewrite (bool_decide_eq_false_2 _ Hpaid).
    by rewrite (bool_decide_eq_true_2 _ Hcancelled).
  - intros Hpaid Hcancelled. rewrite (bool_decide_eq_false_2 _ Hpaid).
    rewrite (bool_decide_eq_false_2 _ Hcancelled). simpl.
    destruct (Math_round_cents (Pricing.total (Order.pricing order)))
      as (cents & -> & Hlo & Hhi & Hexact).
    eexists _, cents. rewrite lookup_insert_eq.
    split_and!; done.
Qed.

(** The intent for Alice's order of 130.20 asks for 13020 cents. *)
Lemma create_intent_amount_witness :
  ∃ order',
    (Intents.create_intent (Api.create Fixture2.services) Fixture.alice
                           (Some 500%N) Fixture.ordered).2
    = Sent 200 (Intents.mkSecret "secret_2" "pi_2")
    ∧ orders (Intents.create_intent (Api.create Fixture2.services)
                Fixture.alice (Some 500%N) Fixture.ordered).1 !! 500%N
      = Some order'
    ∧ Payment.status (Order.payment order') = "processing".
Proof.
  edestruct (create_intent_amount (Api.create Fixture2.services) Fixture.alice
               500 Fixture.ordered)
    as (_ & _ & Hok); [vm_compute; reflexivity | by right |].
  destruct Hok
    as (order' & cents & Hanswer & _ & _ & _ & Hstored & Hstatus & _);
    [vm_compute; discriminate | vm_compute; discriminate |].
  exists order'. split; [exact Hanswer|]. by split.
Defined.

(** The webhook answers 400 to an event whose signature is refused and 200
    to every other event.  It changes nothing for an event of a type other
    than the two it knows and for an event whose order does not exist.  A
    [payment_intent.payment_failed] event has no test on the state of the
    order: it stores the payment as failed and the order as pending, with
    one more history entry, also when the payment was completed. *)
Theorem stripe_webhook_events (env : Env) (s : Store) :
  Payments.stripe_webhook env None s = (s, Error 400 WebhookError)
  ∧ (∀ event, (Payments.stripe_webhook env (Some event) s).2 = Json 200 true)
  ∧ (∀ event,
       (StripeEvent.type event ≠ "payment_intent.succeeded"
        ∧ StripeEvent.type event ≠ "payment_intent.payment_failed")
       ∨ orders s !! PaymentIntent.orderId (StripeEvent.object event) = None →
       (Payments.stripe_webhook env (Some event) s).1 = s)
  ∧ (∀ paymentIntent order,
       orders s !! PaymentIntent.orderId paymentIntent = Some order →
       ∃ order',
         orders (Payments.stripe_webhook env
                   (Some (StripeEvent.mk "payment_intent.payment_failed"
                                         paymentIntent)) s).1
                !! PaymentIntent.orderId paymentIntent
         = Some order'
         ∧ Payment.status (Order.payment order') = "failed"
         ∧ Order.status order' = "pending"
         ∧ Order.statusHistory order'
           = Order.statusHistory order
             ++ [StatusEntry.mk "pending" "Payment failed" None (now env)]).
Proof.
  split_and!.
  - done.
  - done.
  - intros event [[Hs Hf]|Hnone]; unfold Payments.stripe_webhook; simpl.
    + rewrite (bool_decide_eq_false_2 _ Hs).
      by rewrite (bool_decide_eq_false_2 _ Hf).
    + rewrite Hnone. by repeat case_bool_decide.
  - intros paymentIntent order Horder. unfold Payments.stripe_webhook. simpl.
    rewrite Horder. simpl. rewrite lookup_insert_eq. by eexists.
Qed.

(** An accepted create-intent followed by the [payment_intent.succeeded]
    event of Stripe for the order: the payment is completed, paid at the
    time of the event, with the id of the event's intent as transaction id;
    the order is confirmed, with one history entry more than before the
    two requests, and the intent id stored by create-intent is kept. *)
Theorem intent_then_webhook_pays (create : IntentParams.t → CreatedIntent.t)
    (env : Env) (user : User) (orderId : ObjectId) (s s1 : Store) (code : Z)
    (body : Intents.Secret) (order : Order.t) (paymentIntent : PaymentIntent.t) :
  orders s !! orderId = Some order →
  Intents.create_intent create user (Some orderId) s = (s1, Sent code body) →
  PaymentIntent.orderId paymentIntent = orderId →
  ∃ order',
    orders (Payments.stripe_webhook env
              (Some (StripeEvent.mk "payment_intent.succeeded" paymentIntent))
              s1).1 !! orderId
    = Some order'
    ∧ Payment.status (Order.payment order') = "completed"
    ∧ Payment.transactionId (Order.payment order')
      = Some (PaymentIntent.id paymentIntent)
    ∧ Payment.paidAt (Order.payment order') = Some (now env)
    ∧ Payment.paymentIntentId (Order.payment order')
      = Some (Intents.paymentIntentId body)
    ∧ Order.status order' = "confirmed"
    ∧ Order.statusHistory order'
      = Order.statusHistory order
        ++ [StatusEntry.mk "confirmed" "Payment received" None (now env)].
Proof.
  intros Horder
    (oid & order0 & params & [= <-] & Horder0 & _ & _ & _ & -> & -> & ->)
    %create_intent_inv <-.
  assert (order0 = order) as -> by congruence.
  unfold Payments.stripe_webhook. simpl. rewrite lookup_insert_eq. simpl.
  rewrite lookup_insert_eq. by eexists.
Qed.

(** Alice asks for an intent for her order, and Stripe reports it paid. *)
Lemma intent_then_webhook_pays_witness :
  ∃ order',
    orders (Payments.stripe_webhook Fixture.evenLater
              (Some (StripeEvent.mk "payment_intent.succeeded" Fixture.intent))
              (Intents.create_intent (Api.create Fixture2.services)
                 Fixture.alice (Some 500%N) Fixture.ordered).1).1 !! 500%N
    = Some order'
    ∧ Payment.status (Order.payment order') = "completed"
    ∧ Order.status order' = "confirmed".
Proof.
  destruct (Intents.create_intent (Api.create Fixture2.services)
              Fixture.alice (Some 500%N) Fixture.ordered)
    as [s1 [code body|code notice]] eqn:Hrun; [|by vm_compute in Hrun].
  pose proof (λ o Ho,
                intent_then_webhook_pays (Api.create Fixture2.services)
                  Fixture.evenLater Fixture.alice 500 Fixture.ordered s1 code
                  body o Fixture.intent Ho Hrun eq_refl) as Hpays.
  edestruct Hpays as (order' & Hstored & Hpaid & _ & _ & _ & Hstatus & _);
    [vm_compute; reflexivity|].
  by exists order'.
Defined.

(** ** Filling the cart *)

Lemma findIndex_Some_inv {A} (f : A → bool) (l : list A) (i : nat) :
  JS.findIndex f l = Some i →
  ∃ x, l !! i = Some x ∧ f x = true
       ∧ ∀ k y, (k < i)%nat → l !! k = Some y → f y = false.
Proof.
  revert i. induction l as [|x0 l IH]; intros i; simpl; [done|].
  destruct (f x0) eqn:Hx0.
  - intros [= <-]. exists x0. split_and!; [done..|]. intros; lia.
  - destruct (JS.findIndex f l) as [j|]; [|done]. intros [= <-].
    destruct (IH j eq_refl) as (x & Hx & Hfx & Hfirst).
    exists x. split_and!; [done..|].
    intros [|k] y Hlt Hy; simpl in Hy; [congruence|].
    apply (Hfirst k); [lia|done].
Qed.

Lemma find_list_find {A} (P : A → Prop) `{!∀ x, Decision (P x)}
    (l : list A) :
  JS.find (λ x, bool_decide (P x)) l = snd <$> list_find P l.
Proof.
  induction l as [|x l IH]; simpl; [done|].
  case_bool_decide; case_decide; try done.
  rewrite IH. by destruct (list_find P l) as [[? ?]|].
Qed.

(** One pass of the loop over the selected variants captures what
    [Spec2.capture] describes. *)
Lemma resolveVariant_capture (product : Product.t) (price : Qc)
    (acc : list SelectedVariant.t) (c : VariantChoice.t) :
  Carts.resolveVariant product (price, acc) c
  = match Spec2.capture product c with
    | Some v => (price + SelectedVariant.priceModifier v, acc ++ [v])
    | None => (price, acc)
    end.
Proof.
  unfold Carts.resolveVariant, Spec2.capture.
  rewrite (find_list_find
             (λ g, ProductVariant.name g = VariantChoice.name c)).
  destruct (list_find _ (Product.variants product)) as [[? group]|];
    simpl; [|done].
  rewrite (find_list_find
             (λ o, VariantOption.value o = VariantChoice.value c)).
  destruct (list_find _ (ProductVariant.options group)) as [[? option]|];
    simpl; [|done].
  by rewrite or_zero_id.
Qed.

(** The loop over the selected variants of the request captures exactly
    the choices the product offers, in order, and adds their modifiers to
    the price. *)
Lemma resolveVariant_fold (product : Product.t)
    (choices : list VariantChoice.t) (price0 : Qc)
    (acc0 : list SelectedVariant.t) :
  let captured := omap (Spec2.capture product) choices in
  fold_left (Carts.resolveVariant product) choices (price0, acc0)
  = (price0 + Spec.sum (map SelectedVariant.priceModifier captured),
     acc0 ++ captured).
Proof.
  cbv zeta. revert price0 acc0.
  induction choices as [|c choices IH]; intros price0 acc0;
    cbn [fold_left omap list_omap].
  - simpl. by rewrite app_nil_r, Qcplus_0_r.
  - rewrite resolveVariant_capture.
    destruct (Spec2.capture product c) as [v|]; rewrite IH; [|done].
    simpl. rewrite <- app_assoc. f_equal. ring.
Qed.

(** A captured variant is an option of the product. *)
Lemma capture_offered (product : Product.t) (c : VariantChoice.t)
    (v : SelectedVariant.t) :
  Spec2.capture product c = Some v →
  Spec2.offered product v
  ∧ SelectedVariant.name v = VariantChoice.name c
  ∧ SelectedVariant.value v = VariantChoice.value c.
Proof.
  unfold Spec2.capture.
  destruct (list_find _ (Product.variants product)) as [[i group]|] eqn:Hgroup;
    simpl; [|done].
  destruct (list_find _ (ProductVariant.options group)) as [[j option]|]
    eqn:Hoption; simpl; [|done].
  intros [= <-]. simpl.
  apply list_find_Some in Hgroup as (Hg & Hgn & _).
  apply list_find_Some in Hoption as (Ho & Hov & _).
  split; [|done]. exists group, option.
  split_and!; [by eapply list_elem_of_lookup_2|done
              |by eapply list_elem_of_lookup_2|done..].
Qed.

Lemma sum_app (l k : list Qc) : Spec.sum (l ++ k) = Spec.sum l + Spec.sum k.
Proof. induction l as [|x l IH]; simpl; [ring|]. rewrite IH. ring. Qed.

Lemma subtotal_lineTotals (c : Cart.t) :
  Cart.subtotal c = Spec.sum (map Spec.lineTotal (Cart.items c)).
Proof.
  unfold Cart.subtotal.
  rewrite (reduce_sum
             (λ item, (CartItem.price item
                       + Cart.variantPrice (CartItem.selectedVariants item))
                      * JS.ofZ (CartItem.quantity item))).
  rewrite Qcplus_0_l. f_equal. apply map_ext. intros item.
  unfold Spec.lineTotal. by rewrite variantPrice_sum.
Qed.

(** What an accepted POST /cart/items has read and stored. *)
Lemma post_cart_items_inv (env : Env) (user : User) (productId : string)
    (quantity : JS.Value) (selectedVariants : list VariantChoice.t)
    (s s' : Store) (code : Z) (cart' : Cart.t) :
  Carts.post_cart_items env user productId quantity selectedVariants s
  = (s', Json code cart') →
  ∃ _id product n,
    Id.cast productId = Some _id
    ∧ products s !! _id = Some product
    ∧ JS.toNumber quantity = Some n
    ∧ (1 ≤ n ≤ 99)%Z
    ∧ Spec.orderable product (CartItem.mk (newId env) _id n [] 0)
    ∧ Cart.addItem productId quantity
        (omap (Spec2.capture product) selectedVariants)
        (Product.price product
         + Spec.sum (map SelectedVariant.priceModifier
                         (omap (Spec2.capture product) selectedVariants)))
        (newId env) (now env)
        (default (Cart.create (now env)) (carts s !! id user))
      = Some cart'
    ∧ s' = set_cart (id user) cart' s.
Proof.
  unfold Carts.post_cart_items, Carts.validateCartItem, Carts.isInt,
    Carts.lessThan.
  destruct (Id.isMongoId productId); [|done].
  destruct (JS.toNumber quantity) as [n|]; [|done]. cbn [andb].
  case_bool_decide as Hq; [|done]. cbn [negb].
  destruct (Id.cast productId) as [_id|]; [|done]. cbn [mbind option_bind].
  destruct (products s !! _id) as [product|] eqn:Hp; [|done].
  destruct (bool_decide (Product.status product = "active")) eqn:Hactive;
    [|done].
  apply bool_decide_eq_true in Hactive. cbn [negb].
  destruct (Inventory.trackQuantity _ && _) eqn:Hstock; [done|].
  rewrite resolveVariant_fold. cbn [app].
  destruct (Cart.addItem _ _ _ _ _ _ _) as [cart1|] eqn:Hadd; [|done].
  intros [= <- <- <-]. exists _id, product, n.
  split_and!; try done; try lia.
  split; [done|]. simpl. intros Htrack. rewrite Htrack in Hstock.
  simpl in Hstock. apply bool_decide_eq_false in Hstock. lia.
Qed.

(** The line POST /cart/items appends names the product the string of the
    request denotes, holds the number the quantity of the request denotes,
    and captures exactly the selected variants that the product offers, in
    the order of the request, each with the modifier of the product; its
    price is the price of the product plus these modifiers, and is not
    negative.  The subtotal of the cart adds the modifiers of a line to its
    captured price, so for this line it counts them twice: the subtotal
    grows by (product price + 2 × modifiers) × quantity. *)
Theorem post_cart_items_new_line (env : Env) (user : User)
    (productId : string) (quantity : JS.Value)
    (selectedVariants : list VariantChoice.t) (s s' : Store) (code : Z)
    (cart' : Cart.t) (cart : Cart.t) :
  carts s !! id user = Some cart →
  Carts.post_cart_items env user productId quantity selectedVariants s
  = (s', Json code cart') →
  length (Cart.items cart') = S (length (Cart.items cart)) →
  ∃ _id product n line,
    Id.cast productId = Some _id
    ∧ products s !! _id = Some product
    ∧ JS.toNumber quantity = Some n
    ∧ Cart.items cart' = Cart.items cart ++ [line]
    ∧ CartItem.product line = _id
    ∧ CartItem.quantity line = n
    ∧ CartItem.selectedVariants line
      = omap (Spec2.capture product) selectedVariants
    ∧ Forall (Spec2.offered product) (CartItem.selectedVariants line)
    ∧ CartItem.price line
      = Product.price product
        + Spec.sum (map SelectedVariant.priceModifier
                        (CartItem.selectedVariants line))
    ∧ 0 <= CartItem.price line
    ∧ Cart.subtotal cart'
      = Cart.subtotal cart
        + (Product.price product
           + JS.num 2 * Spec.sum (map SelectedVariant.priceModifier
                                      (CartItem.selectedVariants line)))
          * JS.ofZ n.
Proof.
  intros Hcart
    (_id & product & n & Hcast & Hp & Hn & Hrange & _ & Hadd & ->)
    %post_cart_items_inv.
  rewrite Hcart in Hadd.
  change (default _ (Some cart)) with cart in Hadd. revert Hadd.
  unfold Cart.addItem, Cart.castQuantity.
  destruct (JS.findIndex _ _) as [k|] eqn:Hfind.
  { destruct (Cart.items cart !! k) as [item|]; [|done].
    destruct (JS.toNumber (JS.plus _ _)) as [q|]; [|done].
    case_bool_decide; [|done]. intros [= <-]. simpl.
    rewrite length_insert. lia. }
  rewrite Hcast, Hn. rewrite bool_decide_eq_true_2 by lia.
  case_decide as Hprice; [done|]. apply Qcnot_lt_le in Hprice.
  intros [= <-] _. eexists _id, product, n, _.
  split_and!; try done.
  - simpl. apply list.Forall_forall. intros v Hv.
    apply list_elem_of_omap in Hv as (c & _ & Hc).
    by apply capture_offered in Hc as [? _].
  - rewrite !subtotal_lineTotals. cbn [Cart.save Cart.items].
    rewrite map_app, sum_app. cbn [map Spec.sum].
    unfold Spec.lineTotal at 2. cbn [CartItem.price CartItem.selectedVariants
                                     CartItem.quantity].
    replace (JS.num 2) with (1 + 1 : Qc) by qc_compute. ring.
Qed.

(** Alice picks two large red widgets, the quantity given as a string:
    20 for the widget, 2 for red. *)
Lemma post_cart_items_new_line_witness :
  let shirt :=
    Product.mk "Widget" (JS.num 20) [] (Inventory.mk 10 10 true)
      [ProductVariant.mk "Size" [VariantOption.mk "L" 0];
       ProductVariant.mk "Color" [VariantOption.mk "Red" (JS.num 2)]]
      "active" in
  let s := mkStore {[ 100%N := shirt ]} {[ 7%N := Cart.create 0 ]} ∅ in
  ∃ s' cart',
    Carts.post_cart_items Fixture.env Fixture.alice (Id.toString 100)
      (JS.Str "2")
      [VariantChoice.mk "Size" "L"; VariantChoice.mk "Fit" "Slim";
       VariantChoice.mk "Color" "Red"] s
    = (s', Json 200 cart')
    ∧ (CartItem.selectedVariants <$> Cart.items cart')
      = [[SelectedVariant.mk "Size" "L" 0;
          SelectedVariant.mk "Color" "Red" (JS.num 2)]]
    ∧ Cart.subtotal cart' = JS.num 48.
Proof.
  cbv zeta. eexists _, _.
  match goal with
  | |- ?run = _ ∧ _ =>
      assert (run = (_, Json 200 _)) as Hrun by (vm_compute; reflexivity)
  end.
  split; [exact Hrun|].
  eapply post_cart_items_new_line in Hrun
    as (_id & product & n & line & _ & _ & _ & _ & _ & _ & _ & _ & _ & _ & _);
    [|vm_compute; reflexivity|reflexivity].
  split; [vm_compute; reflexivity|qc_compute].
Defined.

(** ** Counting and removing lines *)

Lemma reduce_Zsum {A} (f : A → Z) (l : list A) (acc : Z) :
  fold_left (λ total x, (total + f x)%Z) l acc
  = (acc + foldr (λ x n, (f x + n)%Z) 0%Z l)%Z.
Proof.
  revert acc. induction l as [|x l IH]; intros acc; simpl; [lia|].
  rewrite IH. lia.
Qed.

Lemma Zsum_insert {A} (f : A → Z) (l : list A) (i : nat) (x y : A) :
  l !! i = Some x →
  foldr (λ x n, (f x + n)%Z) 0%Z (<[i := y]> l)
  = (foldr (λ x n, (f x + n)%Z) 0%Z l + (f y - f x))%Z.
Proof.
  revert i. induction l as [|z l IH]; intros [|i] Hi; simpl in *; try done.
  - injection Hi as ->. lia.
  - specialize (IH i Hi). change (list_insert i y l) with (<[i := y]> l).
    rewrite IH. lia.
Qed.

(** [addItem] of a quantity that is a number adds it to the number of
    units of the cart, whether it merges or appends. *)
Lemma totalItems_addItem (productId : string) (quantity : Z)
    (selectedVariants : list SelectedVariant.t) (price : Qc)
    (newId : ObjectId) (now : Z) (c c' : Cart.t) :
  Cart.addItem productId (JS.Num quantity) selectedVariants price newId now c
  = Some c' →
  Cart.totalItems c' = (Cart.totalItems c + quantity)%Z.
Proof.
  unfold Cart.totalItems, Cart.addItem, Cart.castQuantity. rewrite !reduce_Zsum.
  destruct (JS.findIndex _ _) as [i|] eqn:Hfind.
  - destruct (Cart.items c !! i) as [item|] eqn:Hitem; [|done].
    cbn [JS.plus JS.toNumber]. case_bool_decide; [|done].
    intros [= <-]. cbn [Cart.save Cart.items].
    rewrite (Zsum_insert CartItem.quantity _ i item) by done. simpl. lia.
  - destruct (Id.cast productId) as [_id|]; [|done].
    cbn [JS.toNumber]. case_bool_decide; [|done].
    case_decide; [done|]. intros [= <-]. cbn [Cart.save Cart.items].
    rewrite foldr_app. simpl.
    generalize (Cart.items c). intros l.
    induction l as [|y l IH]; simpl; lia.
Qed.

(** The count GET /cart/count answers grows by exactly the quantity of each
    accepted POST /cart/items whose quantity is a JSON number, whether the
    line is new or merged; it is 0 for a user without a cart. *)
Theorem cart_count_after_add (env : Env) (user : User) (productId : string)
    (quantity : Z) (selectedVariants : list VariantChoice.t) (s s' : Store)
    (code : Z) (cart' : Cart.t) (n : Z) :
  Carts.post_cart_items env user productId (JS.Num quantity) selectedVariants s
  = (s', Json code cart') →
  CartLines.get_cart_count user s = (s, Sent 200 n) →
  CartLines.get_cart_count user s' = (s', Sent 200 (n + quantity)%Z)
  ∧ (carts s !! id user = None → n = 0%Z).
Proof.
  intros (_id & product & q & _ & _ & _ & _ & _ & Hadd & ->)%post_cart_items_inv.
  apply totalItems_addItem in Hadd.
  unfold CartLines.get_cart_count. simpl. rewrite lookup_insert_eq.
  intros [= <-]. rewrite Hadd.
  destruct (carts s !! id user); simpl; split; done.
Qed.

(** Alice, who holds six widgets, adds three; Bob, who has no cart, adds
    two. *)
Lemma cart_count_after_add_witness :
  (CartLines.get_cart_count Fixture.alice
     (Carts.post_cart_items Fixture.env Fixture.alice (Id.toString 100)
                            (JS.Num 3) [] Fixture.shop).1).2
  = Sent 200 9%Z
  ∧ (CartLines.get_cart_count Fixture2.bob
       (Carts.post_cart_items Fixture.env Fixture2.bob (Id.toString 100)
                              (JS.Num 2) [] Fixture.shop).1).2
    = Sent 200 2%Z.
Proof.
  split.
  - destruct (Carts.post_cart_items Fixture.env Fixture.alice (Id.toString 100)
                                    (JS.Num 3) [] Fixture.shop)
      as [s' [code cart'|code m]] eqn:Hrun; [|by vm_compute in Hrun].
    eapply cart_count_after_add in Hrun as [Hcount _]; [|reflexivity].
    exact (f_equal snd Hcount).
  - destruct (Carts.post_cart_items Fixture.env Fixture2.bob (Id.toString 100)
                                    (JS.Num 2) [] Fixture.shop)
      as [s' [code cart'|code m]] eqn:Hrun; [|by vm_compute in Hrun].
    eapply cart_count_after_add in Hrun as [Hcount _]; [|reflexivity].
    exact (f_equal snd Hcount).
Defined.

(** The first line with an [_id]. *)
Lemma Cart_id_Some (itemId : ObjectId) (l : list CartItem.t) (i : nat) :
  Cart.id itemId l = Some i →
  ∃ item, l !! i = Some item ∧ CartItem._id item = itemId.
Proof.
  intros (item & Hi & Hid%bool_decide_eq_true & _)%findIndex_Some_inv.
  by exists item.
Qed.

Lemma Cart_id_None (itemId : ObjectId) (l : list CartItem.t) :
  Cart.id itemId l = None ↔ ∀ item, item ∈ l → CartItem._id item ≠ itemId.
Proof.
  unfold Cart.id. induction l as [|x l IH]; simpl.
  - split; [|done]. by intros _ ? ?%elem_of_nil.
  - case_bool_decide as Hx.
    + split; [done|]. intros Hall. destruct (Hall x); [left|done].
    + rewrite fmap_None, IH. split.
      * intros Hall item [->|Hin]%elem_of_cons; [done|by apply Hall].
      * intros Hall item Hin. apply Hall. by right.
Qed.

Lemma elem_of_pull (itemId : ObjectId) (l : list CartItem.t)
    (item : CartItem.t) :
  item ∈ Cart.pull itemId l ↔ item ∈ l ∧ CartItem._id item ≠ itemId.
Proof.
  unfold Cart.pull.
  rewrite !list_elem_of_In, filter_In, negb_true_iff, bool_decide_eq_false.
  done.
Qed.

(** DELETE /cart/items/:itemId answers 404, and changes nothing, exactly
    when the user has no cart or the cart no line with the id.  Otherwise
    the stored cart has lost its lines with the id and nothing else: the
    other lines stay, in order, and coupon and discount are kept. *)
Theorem delete_cart_item_removes (env : Env) (user : User) (itemId : ObjectId)
    (s : Store) :
  let r := CartLines.delete_cart_item env user itemId s in
  ((∃ notice, r = (s, Refused 404 notice))
   ↔ ∀ cart, carts s !! id user = Some cart →
             ∀ item, item ∈ Cart.items cart → CartItem._id item ≠ itemId)
  ∧ ∀ cart item,
      carts s !! id user = Some cart →
      item ∈ Cart.items cart → CartItem._id item = itemId →
      ∃ cart',
        r.2 = Sent 200 cart'
        ∧ carts r.1 !! id user = Some cart'
        ∧ Cart.items cart'
          = List.filter (λ item, negb (bool_decide (CartItem._id item = itemId)))
                        (Cart.items cart)
        ∧ (∀ item', item' ∈ Cart.items cart'
                    ↔ item' ∈ Cart.items cart ∧ CartItem._id item' ≠ itemId)
        ∧ (length (Cart.items cart') < length (Cart.items cart))%nat
        ∧ Cart.couponCode cart' = Cart.couponCode cart
        ∧ Cart.discount cart' = Cart.discount cart.
Proof.
  cbv zeta. unfold CartLines.delete_cart_item.
  destruct (carts s !! id user) as [cart|] eqn:Hcart.
  2:{ split; [|done]. split; [done|]. intros _. by eexists. }
  destruct (Cart.id itemId (Cart.items cart)) as [i|] eqn:Hid.
  - apply Cart_id_Some in Hid as (found & Hfound & Hfid). split.
    + split; [by intros [? [=]]|].
      intros Hall. destruct (Hall cart eq_refl found); [|done].
      apply list_elem_of_lookup. by exists i.
    + intros cart0 item [= <-] Hin Hitem.
      exists (Cart.removeItem itemId (now env) cart). simpl.
      rewrite lookup_insert_eq. split_and!; try done.
      * intros item'. apply elem_of_pull.
      * apply (filter_drop_length _ _ item); [done|].
        by rewrite bool_decide_eq_true_2.
  - split.
    + split; [|by intros; eexists].
      intros _ cart0 [= <-]. by apply Cart_id_None.
    + intros cart0 item [= <-] Hin Hitem.
      by destruct (proj1 (Cart_id_None itemId (Cart.items cart)) Hid item).
Qed.

(** PUT /cart/items/:itemId accepts a quantity from 1 to 99 only.  When it
    accepts, the first line with the id gets the quantity, no line is added
    or removed, and the product of the line is active with a tracked stock
    that covers the quantity. *)
Theorem put_cart_item_sets (env : Env) (user : User) (itemId : ObjectId)
    (quantity : option Z) (s s' : Store) (code : Z) (cart' : Cart.t) :
  CartLines.put_cart_item env user itemId quantity s = (s', Sent code cart') →
  ∃ q cart i item product,
    quantity = Some q ∧ (1 ≤ q ≤ 99)%Z
    ∧ carts s !! id user = Some cart
    ∧ Cart.items cart !! i = Some item
    ∧ CartItem._id item = itemId
    ∧ (∀ k other, (k < i)%nat → Cart.items cart !! k = Some other →
                  CartItem._id other ≠ itemId)
    ∧ products s !! CartItem.product item = Some product
    ∧ Spec.orderable product (CartItem.set_quantity q item)
    ∧ Cart.items cart' = <[i := CartItem.set_quantity q item]> (Cart.items cart)
    ∧ carts s' !! id user = Some cart'
    ∧ products s' = products s ∧ orders s' = orders s.
Proof.
  unfold CartLines.put_cart_item.
  destruct quantity as [q|]; [|done].
  destruct (bool_decide (q = 0)%Z || bool_decide (q < 1)%Z) eqn:Hlow; [done|].
  destruct (bool_decide (99 < q)%Z) eqn:Hhigh; [done|].
  apply orb_false_iff in Hlow as [_ Hlow%bool_decide_eq_false].
  apply bool_decide_eq_false in Hhigh.
  destruct (carts s !! id user) as [cart|] eqn:Hcart; [|done].
  destruct (Cart.id itemId (Cart.items cart)) as [i|] eqn:Hid; simpl; [|done].
  destruct (Cart.items cart !! i) as [item|] eqn:Hi; [|done].
  destruct (products s !! CartItem.product item) as [product|] eqn:Hp; [|done].
  destruct (bool_decide (Product.status product = "active")) eqn:Hactive;
    [|done].
  apply bool_decide_eq_true in Hactive. simpl.
  destruct (Inventory.trackQuantity _ && _) eqn:Hstock; [done|].
  unfold Cart.updateItemQuantity. rewrite Hid.
  rewrite decide_False by lia. simpl.
  intros [= <- <- <-]. exists q, cart, i, item, product.
  apply findIndex_Some_inv in Hid as (item0 & Hi0 & Hid0 & Hfirst).
  assert (item0 = item) as -> by congruence.
  apply bool_decide_eq_true in Hid0. simpl. rewrite lookup_insert_eq.
  split_and!; try done; try lia.
  - intros k other Hlt Hk. specialize (Hfirst k other Hlt Hk).
    by apply bool_decide_eq_false in Hfirst.
  - split; [done|]. simpl. intros Htrack. rewrite Htrack in Hstock.
    simpl in Hstock. apply bool_decide_eq_false in Hstock. lia.
  - clear -Hi. revert i Hi. induction (Cart.items cart) as [|x l IH];
      intros [|i] Hi; simpl in *; try done.
    + by injection Hi as ->.
    + f_equal. by apply IH.
Qed.

(** Alice lowers her line of six widgets to four. *)
Lemma put_cart_item_sets_witness :
  ∃ s' cart',
    CartLines.put_cart_item Fixture.env Fixture.alice 900 (Some 4%Z)
                            Fixture.shop
    = (s', Sent 200 cart')
    ∧ CartItem.quantity <$> Cart.items cart' = [4%Z].
Proof.
  eexists _, _.
  assert (CartLines.put_cart_item Fixture.env Fixture.alice 900 (Some 4%Z)
                                  Fixture.shop
          = (_, Sent 200 _)) as Hrun by (vm_compute; reflexivity).
  split; [exact Hrun|].
  apply put_cart_item_sets in Hrun
    as (q & cart & i & item & product & _ & _ & _ & _ & _ & _ & _ & _ & _).
  reflexivity.
Defined.

(** ** Pages *)

(** A quotient of integers between two integers, cleared of the division. *)
Lemma Zdiv_between (t l lo hi : Z) :
  (0 < l)%Z →
  (inject_Z lo < inject_Z t / inject_Z l)%Q →
  (inject_Z t / inject_Z l <= inject_Z hi)%Q →
  (lo * l < t ≤ hi * l)%Z.
Proof.
  intros Hl Hlo Hhi.
  assert (0 < inject_Z l)%Q as Hl'.
  { change 0%Q with (inject_Z 0). by rewrite <- Zlt_Qlt. }
  assert (inject_Z t / inject_Z l * inject_Z l == inject_Z t)%Q as Hcancel.
  { rewrite Qmult_comm. apply Qmult_div_r. lra. }
  split.
  - apply (Qmult_lt_compat_r _ _ (inject_Z l)) in Hlo; [|done].
    rewrite Hcancel, <- inject_Z_mult in Hlo. by rewrite Zlt_Qlt.
  - apply (Qmult_le_compat_r _ _ (inject_Z l)) in Hhi; [|lra].
    rewrite Hcancel, <- inject_Z_mult in Hhi. by rewrite Zle_Qle.
Qed.

Lemma Math_ceil_div (t l : Z) :
  (0 < l)%Z →
  let pages := OrderQueries.Math_ceil (JS.ofZ t / JS.ofZ l) in
  ((pages - 1) * l < t ≤ pages * l)%Z.
Proof.
  intros Hl. cbv zeta. unfold OrderQueries.Math_ceil.
  set (x := JS.ofZ t / JS.ofZ l).
  assert (this x == inject_Z t / inject_Z l)%Q as Hx.
  { subst x. unfold JS.ofZ, Qcdiv, Qcmult, Qcinv, Q2Qc. cbn [this].
    by rewrite !Qred_correct. }
  rewrite (Qceiling_comp _ _ Hx).
  apply Zdiv_between; [done|apply Qceiling_lt|apply Qle_ceiling].
Qed.

(** The page data of GET /orders, for a limit of at least one order: the
    pages are just enough to hold the orders, there is a next page exactly
    when orders lie beyond the current page, and a previous page exactly
    when the current page is not the first. *)
Theorem pagination_pages (page limit totalOrders : Z) :
  (1 ≤ limit)%Z →
  let p := OrderQueries.pagination page limit totalOrders in
  OrderQueries.currentPage p = page
  ∧ ((OrderQueries.totalPages p - 1) * limit < totalOrders
     ≤ OrderQueries.totalPages p * limit)%Z
  ∧ (OrderQueries.hasNext p = true ↔ (page * limit < totalOrders)%Z)
  ∧ (OrderQueries.hasPrev p = true ↔ (1 < page)%Z)
  ∧ (totalOrders = 0%Z → OrderQueries.totalPages p = 0%Z).
Proof.
  intros Hlimit. cbv zeta. unfold OrderQueries.pagination. simpl.
  pose proof (Math_ceil_div totalOrders limit ltac:(lia)) as Hpages.
  cbv zeta in Hpages.
  set (pages := OrderQueries.Math_ceil _) in *. clearbody pages.
  split_and!; rewrite ?bool_decide_eq_true; [done|lia|lia| |done|nia].
  split; intros; nia.
Qed.

(** Twenty-five orders, ten to the page, page two: three pages, a next and
    a previous page. *)
Lemma pagination_pages_witness :
  OrderQueries.totalPages (OrderQueries.pagination 2 10 25) = 3%Z
  ∧ OrderQueries.hasNext (OrderQueries.pagination 2 10 25) = true
  ∧ OrderQueries.hasPrev (OrderQueries.pagination 2 10 25) = true.
Proof.
  destruct (pagination_pages 2 10 25) as (_ & Hpages & Hnext & Hprev & _);
    [lia|].
  split; [lia|]. split; [apply Hnext; lia|apply Hprev; lia].
Defined.

(** ** Product virtuals, ratings and reviews *)

Lemma find_None {A} (f : A → bool) (l : list A) :
  JS.find f l = None → Forall (λ x, f x = false) l.
Proof.
  induction l as [|x l IH]; simpl; [by constructor|].
  destruct (f x) eqn:Hx; [done|]. intros Hnone. constructor; [done|by apply IH].
Qed.

Lemma find_app_last {A} (f : A → bool) (l : list A) (x : A) :
  f x = true → ∃ y, JS.find f (l ++ [x]) = Some y.
Proof.
  intros Hx. induction l as [|z l IH]; simpl.
  - rewrite Hx. by eexists.
  - destruct (f z); [by eexists|done].
Qed.

(** An integer strictly between two half-integers. *)
Lemma Z_between_halves (k lo hi : Z) :
  (inject_Z lo - (1 # 2) < inject_Z k)%Q →
  (inject_Z k <= inject_Z hi + (1 # 2))%Q →
  (lo ≤ k ≤ hi)%Z.
Proof.
  intros Hlo Hhi.
  assert (inject_Z (lo - 1) < inject_Z k)%Q as Hlo'.
  { unfold Z.sub. rewrite inject_Z_plus, inject_Z_opp.
    change (inject_Z 1) with 1%Q. lra. }
  assert (inject_Z k < inject_Z (hi + 1))%Q as Hhi'.
  { rewrite inject_Z_plus. change (inject_Z 1) with 1%Q. lra. }
  rewrite <- Zlt_Qlt in Hlo', Hhi'. lia.
Qed.

(** A fraction of a positive whole lies between zero and one. *)
Lemma ratio_bounds (a b : Q) :
  (0 <= a)%Q → (a <= b)%Q → (0 < b)%Q → (0 <= a / b ∧ a / b <= 1)%Q.
Proof.
  intros Ha Hab Hb. split.
  - apply Qle_shift_div_l; [done|]. lra.
  - apply Qle_shift_div_r; [done|]. lra.
Qed.

(** The sale percentage of a product with a price that is not negative is
    a whole number from 0 to 100. *)
Theorem salePercentage_bounds (comparePrice : option Qc) (price : Qc) :
  0 <= price →
  ∃ percent : Z,
    Catalog.salePercentage comparePrice price = JS.ofZ percent
    ∧ (0 ≤ percent ≤ 100)%Z.
Proof.
  intros Hprice. unfold Catalog.salePercentage.
  destruct comparePrice as [cp|]; [|by exists 0%Z].
  destruct (negb _ && _) eqn:Hsale; [|by exists 0%Z].
  apply andb_true_iff in Hsale as [_ Hlt%bool_decide_eq_true].
  destruct (Math_round_bounds ((cp - price) / cp * JS.num 100))
    as (k & -> & Hlo & Hhi).
  exists k. split; [done|].
  assert (0 <= (cp - price) / cp ∧ (cp - price) / cp <= 1) as [Hq0 Hq1].
  { qc_unfold.
    destruct (ratio_bounds (cp - price) cp) as [H0 H1]; [lra..|].
    unfold Qdiv, Qminus in H0, H1. done. }
  set (q := (cp - price) / cp) in *. clearbody q.
  apply Z_between_halves; qc_unfold;
    change (inject_Z 100) with 100%Q; lra.
Qed.

(** A product twenty percent under its compare price. *)
Lemma salePercentage_bounds_witness :
  ∃ percent : Z,
    Catalog.salePercentage (Some (JS.num 25)) (JS.num 20) = JS.ofZ percent
    ∧ (0 ≤ percent ≤ 100)%Z.
Proof. apply salePercentage_bounds. by vm_compute. Defined.

Lemma ratingSum_bounds (reviews : list Review.t) :
  Forall (λ review, (1 ≤ Review.rating review ≤ 5)%Z) reviews →
  (Z.of_nat (length reviews) ≤ Spec2.ratingSum reviews
   ≤ 5 * Z.of_nat (length reviews))%Z.
Proof.
  unfold Spec2.ratingSum.
  induction 1 as [|review reviews Hreview _ IH]; simpl length; simpl foldr; lia.
Qed.

(** The mean of numbers from [lo] to [hi] lies between [lo] and [hi]. *)
Lemma mean_bounds (sum n lo hi : Z) :
  (0 < n)%Z → (lo * n ≤ sum ≤ hi * n)%Z →
  (inject_Z lo <= inject_Z sum / inject_Z n
   ∧ inject_Z sum / inject_Z n <= inject_Z hi)%Q.
Proof.
  intros Hn [Hlo Hhi].
  assert (0 < inject_Z n)%Q as Hn'.
  { change 0%Q with (inject_Z 0). by rewrite <- Zlt_Qlt. }
  split.
  - apply Qle_shift_div_l; [done|]. by rewrite <- inject_Z_mult, <- Zle_Qle.
  - apply Qle_shift_div_r; [done|]. by rewrite <- inject_Z_mult, <- Zle_Qle.
Qed.

(** The rating that [updateRating] leaves for reviews rated from 1 to 5:
    the count is the number of reviews, and the average is a number of
    tenths, from 1 to 5, within a twentieth of the mean of the ratings.
    Without reviews both are 0. *)
Theorem updateRating_average (reviews : list Review.t) :
  Forall (λ review, (1 ≤ Review.rating review ≤ 5)%Z) reviews →
  let rating := Catalog.updateRating reviews in
  let mean := JS.ofZ (Spec2.ratingSum reviews)
              / JS.ofZ (Z.of_nat (length reviews)) in
  Rating.count rating = Z.of_nat (length reviews)
  ∧ (reviews = [] → Rating.average rating = 0)
  ∧ (reviews ≠ [] →
     ∃ tenths : Z,
       Rating.average rating = JS.ofZ tenths / JS.num 10
       ∧ (10 ≤ tenths ≤ 50)%Z
       ∧ mean - JS.num (1 # 20) < Rating.average rating
       ∧ Rating.average rating <= mean + JS.num (1 # 20)).
Proof.
  intros Hratings. cbv zeta. unfold Catalog.updateRating.
  case_bool_decide as Hlen.
  { apply nil_length_inv in Hlen as ->. done. }
  cbn [Rating.count Rating.average].
  split; [done|]. split; [by intros ->|]. intros _.
  rewrite reduce_Zsum, Z.add_0_l. fold (Spec2.ratingSum reviews).
  pose proof (ratingSum_bounds reviews Hratings) as Hsum.
  set (sum := Spec2.ratingSum reviews) in *. clearbody sum.
  set (n := Z.of_nat (length reviews)) in *.
  assert (0 < n)%Z as Hn by (subst n; lia). clearbody n.
  destruct (mean_bounds sum n 1 5 Hn ltac:(lia)) as [Hm1 Hm5].
  destruct (Math_round_bounds (JS.ofZ sum / JS.ofZ n * JS.num 10))
    as (k & -> & Hlo & Hhi).
  exists k. split; [done|].
  qc_unfold. change (inject_Z 5) with 5%Q in Hm5.
  unfold Qdiv in Hm1, Hm5.
  set (m := (inject_Z sum * / inject_Z n)%Q) in *. clearbody m.
  change (/ 10)%Q with (1 # 10)%Q.
  split; [|split; lra].
  apply Z_between_halves;
    [change (inject_Z 10) with 10%Q|change (inject_Z 50) with 50%Q]; lra.
Qed.

(** Ratings 5, 4 and 4: three reviews, average 4.3. *)
Lemma updateRating_average_witness :
  Rating.count
    (Catalog.updateRating
       [Review.mk 7 5 "good"; Review.mk 8 4 "fine"; Review.mk 9 4 "fine"])
  = 3%Z.
Proof.
  refine (proj1 (updateRating_average
                   [Review.mk 7 5 "good"; Review.mk 8 4 "fine";
                    Review.mk 9 4 "fine"] _)).
  repeat constructor; simpl; lia.
Defined.

(** [addItem] of one unit without variants goes through for a product the
    string denotes, when the price of the product and the quantities of the
    lines of the cart are as the schemas want them. *)
Lemma addItem_one_unit (productId : string) (_id : ObjectId) (price : Qc)
    (newId : ObjectId) (now : Z) (c : Cart.t) :
  Id.cast productId = Some _id →
  0 <= price →
  Forall (λ item, (1 ≤ CartItem.quantity item)%Z) (Cart.items c) →
  is_Some (Cart.addItem productId (JS.Num 1) [] price newId now c).
Proof.
  intros Hcast Hprice Hlines. unfold Cart.addItem, Cart.castQuantity.
  destruct (JS.findIndex _ _) as [i|] eqn:Hfind.
  - apply findIndex_Some_inv in Hfind as (item & Hitem & _).
    rewrite Hitem. cbn [JS.plus JS.toNumber].
    rewrite list.Forall_forall in Hlines.
    specialize (Hlines item (list_elem_of_lookup_2 _ _ _ Hitem)).
    rewrite bool_decide_eq_true_2 by lia. by eexists.
  - rewrite Hcast. cbn [JS.toNumber]. rewrite bool_decide_eq_true_2 by lia.
    rewrite decide_False by (by apply Qcle_not_lt). by eexists.
Qed.

(** The stock flags of a product and the shop agree: a product flagged low
    on stock is flagged in stock, and an active product is flagged in stock
    exactly when one unit of it can be put into the cart.  The price of the
    product and the quantities on the lines of the cart are taken as the
    schemas keep them: not negative, and at least 1. *)
Theorem isInStock_one_unit (env : Env) (user : User) (productId : string)
    (_id : ObjectId) (product : Product.t) (s : Store) :
  Id.cast productId = Some _id →
  products s !! _id = Some product →
  Product.status product = "active" →
  0 <= Product.price product →
  (∀ cart, carts s !! id user = Some cart →
           Forall (λ item, (1 ≤ CartItem.quantity item)%Z) (Cart.items cart)) →
  (Catalog.isLowStock (Product.inventory product) = true →
   Catalog.isInStock (Product.inventory product) = true)
  ∧ (Catalog.isInStock (Product.inventory product) = true
     ↔ ∃ s' cart, Carts.post_cart_items env user productId (JS.Num 1) [] s
                  = (s', Json 200 cart)).
Proof.
  intros Hcast Hproduct Hactive Hprice Hlines.
  unfold Catalog.isLowStock, Catalog.isInStock, Carts.post_cart_items,
    Carts.validateCartItem, Id.isMongoId, Carts.lessThan, Carts.isInt.
  rewrite Hcast. rewrite (bool_decide_eq_true_2 (is_Some _)) by done.
  cbn [mbind option_bind JS.toNumber]. rewrite Hproduct, Hactive.
  destruct (addItem_one_unit productId _id (Product.price product)
              (newId env) (now env)
              (default (Cart.create (now env)) (carts s !! id user)))
    as [cart' Hadd]; [done..| |].
  { destruct (carts s !! id user) as [cart|]; [by apply Hlines|].
    by constructor. }
  simpl. rewrite Hadd.
  destruct (Inventory.trackQuantity (Product.inventory product)); simpl.
  - split; [by intros [_ ?]%andb_true_iff|].
    repeat case_bool_decide; try lia; split; try done; try by eauto.
    by intros (? & ? & ?).
  - split; [done|]. split; [by eauto|done].
Qed.

(** The widget of the shop, with ten in stock, can be put into the cart. *)
Lemma isInStock_one_unit_witness :
  ∃ s' cart, Carts.post_cart_items Fixture.env Fixture.alice (Id.toString 100)
               (JS.Num 1) [] Fixture.shop = (s', Json 200 cart).
Proof.
  apply (isInStock_one_unit Fixture.env Fixture.alice (Id.toString 100) 100
           Fixture.widget Fixture.shop); try by vm_compute.
  intros cart [= <-]. repeat constructor. simpl. lia.
Defined.

Lemma find_user_None (userId : ObjectId) (reviews : list Review.t) :
  JS.find (λ review, bool_decide (Review.user review = userId)) reviews = None →
  userId ∉ Review.user <$> reviews.
Proof.
  intros Hnone%find_None Hin.
  apply list_elem_of_fmap in Hin as (review & -> & Hin).
  rewrite list.Forall_forall in Hnone. apply Hnone in Hin.
  by apply bool_decide_eq_false in Hin.
Qed.

(** POST /products/:id/reviews keeps the reviews in order: starting from a
    catalogue where no user has two reviews of a product, the ratings are
    from 1 to 5 and the stored rating is the computed one, the same holds
    afterwards.  A refused review changes nothing; an accepted one is by
    the caller, is appended to the reviews of the product alone, and a
    further review of the product by the caller is refused. *)
Theorem post_review_once (user : User) (productId : ObjectId)
    (rating : option Z) (comment : option string)
    (catalogue catalogue' : gmap N Catalog.Reviewed)
    (reply : Reply Review.t) :
  (∀ pid p, catalogue !! pid = Some p → Spec2.wellReviewed p) →
  Catalog.post_review user productId rating comment catalogue
  = (catalogue', reply) →
  (∀ pid p, catalogue' !! pid = Some p → Spec2.wellReviewed p)
  ∧ match reply with
    | Refused _ _ => catalogue' = catalogue
    | Sent _ review =>
        Review.user review = id user
        ∧ (∃ p p', catalogue !! productId = Some p
                   ∧ catalogue' !! productId = Some p'
                   ∧ Catalog.reviews p' = Catalog.reviews p ++ [review])
        ∧ (∀ other, other ≠ productId →
                    catalogue' !! other = catalogue !! other)
        ∧ ∀ rating' comment', ∃ code notice,
            Catalog.post_review user productId rating' comment' catalogue'
            = (catalogue', Refused code notice)
    end.
Proof.
  intros Hwell. unfold Catalog.post_review.
  destruct rating as [rating|]; [|by intros [= <- <-]].
  destruct comment as [comment|]; [|by intros [= <- <-]].
  destruct (_ || _) eqn:Hrequired; [by intros [= <- <-]|].
  destruct (bool_decide (rating < 1)%Z || _) eqn:Hrange; [by intros [= <- <-]|].
  destruct (catalogue !! productId) as [p|] eqn:Hp; [|by intros [= <- <-]].
  destruct (JS.find _ _) eqn:Hfind; [by intros [= <- <-]|].
  intros [= <- <-].
  apply orb_false_iff in Hrange as [Hlo%bool_decide_eq_false
                                      Hhi%bool_decide_eq_false].
  destruct (Hwell _ _ Hp) as (Hnodup & Hratings & _).
  split; [|split_and!].
  - intros pid p'. destruct (decide (pid = productId)) as [->|Hne].
    + rewrite lookup_insert_eq. intros [= <-].
      unfold Spec2.wellReviewed, Catalog.save. cbn [Catalog.reviews Catalog.rating].
      split_and!; [|  |done].
      * rewrite fmap_app. apply list.NoDup_app. split_and!; [done| |apply NoDup_singleton].
        intros userId Hin ->%list_elem_of_singleton. simpl in Hin.
        by apply find_user_None in Hfind.
      * apply Forall_app. split; [done|]. repeat constructor; simpl; lia.
    + rewrite lookup_insert_ne by done. apply Hwell.
  - done.
  - exists p, (Catalog.save (Catalog.reviews p ++ [Review.mk (id user) rating comment])).
    by rewrite lookup_insert_eq.
  - intros other Hne. by rewrite lookup_insert_ne.
  - intros rating' comment'.
    destruct rating' as [rating'|]; [|by eexists _, _].
    destruct comment' as [comment'|]; [|by eexists _, _].
    destruct (bool_decide (rating' = 0)%Z || _); [by eexists _, _|].
    destruct (bool_decide (rating' < 1)%Z || _); [by eexists _, _|].
    rewrite lookup_insert_eq. cbn [Catalog.save Catalog.reviews].
    destruct (find_app_last
                (λ review, bool_decide (Review.user review = id user))
                (Catalog.reviews p) (Review.mk (id user) rating comment))
      as [existing ->]; [by apply bool_decide_eq_true|].
    by eexists _, _.
Qed.

(** Alice reviews the widget that bob has reviewed: the widget has two
    reviews, rated 4.5 on average, and alice cannot review it again. *)
Lemma post_review_once_witness :
  ∃ catalogue' review,
    Catalog.post_review Fixture.alice 100 (Some 5%Z) (Some "good")
                        Fixture2.reviewed
    = (catalogue', Sent 201 review)
    ∧ (Catalog.rating <$> catalogue' !! 100%N)
      = Some (Rating.mk (JS.num 4.5) 2)
    ∧ ∃ code notice,
        Catalog.post_review Fixture.alice 100 (Some 1%Z) (Some "bad")
                            catalogue'
        = (catalogue', Refused code notice).
Proof.
  eexists _, _.
  assert (Catalog.post_review Fixture.alice 100 (Some 5%Z) (Some "good")
                              Fixture2.reviewed
          = (_, Sent 201 _)) as Hrun by (vm_compute; reflexivity).
  split; [exact Hrun|]. split; [by vm_compute|].
  eapply post_review_once in Hrun as (_ & _ & _ & _ & Hagain).
  - apply Hagain.
  - unfold Fixture2.reviewed. intros pid p [<- <-]%lookup_singleton_Some.
    unfold Spec2.wellReviewed. simpl. split_and!; [|by repeat constructor|done].
    apply NoDup_singleton.
Defined.
